(** * OKX spot connectors: order book, session handlers, signed requests

    A shallow embedding of [OKXSpotPublicConnector] and
    [OkxSpotPrivateConnector] (src/connectors/public/private-connector-main.ts)
    and the properties of the connector core that follow from the code.

    Conventions of the embedding:
    - a JavaScript array is a [list]; [unshift] is cons, [filter] is stdpp's
      [filter], [findIndex] returns a [Z] with [-1] for "not found";
    - a JavaScript number is a [number]: [NaN] or a rational [Num q]
      (the infinities are left out).  The built-ins [parseFloat],
      [getTime] of a date, [toString] of a number, [JSON.stringify],
      [CryptoJS.HmacSHA256] and [CryptoJS.enc.Base64.stringify] are not
      part of the repository; they are parameters of the sections that use
      them;
    - mutation of [this] is explicit state passing on a record;
    - what a handler does to the outside world (socket calls, timers, log
      lines, calls of the sink) is returned as a list of effects. *)

From Stdlib Require Import QArith Qround Lia Ascii String.
From stdpp Require Import base option list sorting strings pretty.

Close Scope Q_scope.
Open Scope string_scope.
Open Scope list_scope.

(** ** JavaScript numbers *)

Inductive number : Type :=
| NaN : number
| Num : Q -> number.

Module Number.

(** [a - b]. *)
Definition sub (a b : number) : number :=
  match a, b with
  | Num x, Num y => Num (x - y)%Q
  | _, _ => NaN
  end.

Definition mul (a b : number) : number :=
  match a, b with
  | Num x, Num y => Num (x * y)%Q
  | _, _ => NaN
  end.

(** [a > 0]; false for [NaN]. *)
Definition gt0 (a : number) : bool :=
  match a with
  | Num x => match (0 ?= x)%Q with Lt => true | _ => false end
  | NaN => false
  end.

(** [a < b] on numbers, as a proposition; never holds of [NaN]. *)
Definition lt (a b : number) : Prop :=
  match a, b with
  | Num x, Num y => (x < y)%Q
  | _, _ => False
  end.

(** The two numbers are the same numeric value. *)
Definition same (a b : number) : Prop :=
  match a, b with
  | Num x, Num y => (x == y)%Q
  | _, _ => False
  end.

Definition is_num (a : number) : Prop :=
  match a with Num _ => True | NaN => False end.

End Number.

(** ** Arrays *)

Module Array.
Section Array.
Context {A : Type}.

(** [array.findIndex(p)]: the first index whose element satisfies [p],
    or [-1]. *)
Definition findIndex (P : A -> Prop) `{forall x, Decision (P x)}
    (array : list A) : Z :=
  match list_find P array with
  | Some (i, _) => Z.of_nat i
  | None => (-1)%Z
  end.

(** [array.splice(start, 1)]: a negative [start] counts from the end,
    a [start] beyond the end removes nothing. *)
Definition splice1 (array : list A) (start : Z) : list A :=
  let len := Z.of_nat (length array) in
  let from := if (start <? 0)%Z then Z.max (len + start) 0
              else Z.min start len in
  delete (Z.to_nat from) array.

(** [array.slice(from, to)] for [0 <= from <= to]. *)
Definition slice (array : list A) (from to : nat) : list A :=
  take (to - from) (drop from array).

(** [Array.prototype.sort(comparefn)].  The comparator returns a number;
    the sort reads a negative result as "first argument first", a
    positive one as "second argument first" and anything else ([0] and
    [NaN]) as a tie.  The sort is stable, so on a consistent comparator
    its result is the one of this insertion sort.  With an inconsistent
    comparator (one that returns [NaN] on some pairs only) the order is
    implementation-defined; every statement below about the order that
    [sort] leaves assumes the compared keys are numbers, and the others
    use of [sort] only that it permutes its argument. *)
Fixpoint sort_insert (comparefn : A -> A -> number) (x : A)
    (sorted : list A) : list A :=
  match sorted with
  | [] => [x]
  | y :: rest =>
      if Number.gt0 (comparefn x y)
      then y :: sort_insert comparefn x rest
      else x :: y :: rest
  end.

Fixpoint sort (comparefn : A -> A -> number) (array : list A) : list A :=
  match array with
  | [] => []
  | x :: rest => sort_insert comparefn x (sort comparefn rest)
  end.

End Array.
End Array.

(** ** The public connector: order book and top of book *)

Record OkxMarketDepthLevel : Type := {
  side : string;
  event_time : string;
  price_level : string;
  new_quantity : string;
}.

Record OkxMarketDepthEvent : Type := {
  type : string;
  product_id : string;
  updates : list OkxMarketDepthLevel;
}.

Record TopOfBook : Type := {
  tob_symbol : string;
  tob_connectorType : string;
  tob_event : string;
  tob_timestamp : number;
  askPrice : number;
  askSize : number;
  bidPrice : number;
  bidSize : number;
}.

(** The two arrays [this.bids] and [this.asks] of the connector. *)
Record Book : Type := {
  bids : list OkxMarketDepthLevel;
  asks : list OkxMarketDepthLevel;
}.

Module OrderBook.
Section OrderBook.
Variable parseFloat : string -> number.
Variable dateGetTime : string -> number.

(** [(a, b) => parseFloat(b.price_level) - parseFloat(a.price_level)] *)
Definition compareBids (a b : OkxMarketDepthLevel) : number :=
  Number.sub (parseFloat (price_level b)) (parseFloat (price_level a)).

(** [(a, b) => parseFloat(a.price_level) - parseFloat(b.price_level)] *)
Definition compareAsks (a b : OkxMarketDepthLevel) : number :=
  Number.sub (parseFloat (price_level a)) (parseFloat (price_level b)).

(** The body of [bidsList.forEach] (and, with the other comparator, of
    [asksList.forEach]) in [updateBook]. *)
Definition applyLevel
    (comparefn : OkxMarketDepthLevel -> OkxMarketDepthLevel -> number)
    (levels : list OkxMarketDepthLevel) (event : OkxMarketDepthLevel)
    : list OkxMarketDepthLevel :=
  let eventIndex :=
    Array.findIndex (fun l => price_level l = price_level event) levels in
  if bool_decide (new_quantity event = "0")
     && negb (eventIndex =? -1)%Z
  then Array.splice1 levels eventIndex
  else if Number.gt0 (parseFloat (new_quantity event))
          && (eventIndex =? -1)%Z
  then Array.sort comparefn (event :: levels)
  else levels.

Definition updateBook (self : Book) (event : OkxMarketDepthEvent) : Book :=
  let eventData := updates event in
  let bidsList := filter (fun e => side e = "bid") eventData in
  let asksList := filter (fun e => side e = "offer") eventData in
  if bool_decide (type event = "snapshot")
  then {| bids := bidsList; asks := asksList |}
  else {| bids := fold_left (applyLevel compareBids) bidsList (bids self);
          asks := fold_left (applyLevel compareAsks) asksList (asks self) |}.

Definition createTopOfBook (sklSymbol : string) (self : Book)
    (timestamp : string) : option TopOfBook :=
  if (length (bids self) =? 0)%nat || (length (asks self) =? 0)%nat
  then None
  else
    match asks self !! 0%nat, bids self !! 0%nat with
    | Some ask0, Some bid0 =>
        Some {| tob_symbol := sklSymbol;
                tob_connectorType := "Okx";
                tob_event := "TopOfBook";
                tob_timestamp := dateGetTime timestamp;
                askPrice := parseFloat (price_level ask0);
                askSize := parseFloat (new_quantity ask0);
                bidPrice := parseFloat (price_level bid0);
                bidSize := parseFloat (new_quantity bid0) |}
    | _, _ => None
    end.

End OrderBook.
End OrderBook.

(** ** A decimal reading of [parseFloat]

    An executable instance of the [parseFloat] parameter, used to evaluate
    the book on concrete feeds: an optional sign, digits, an optional
    fraction; the longest such prefix is read and a string with no digit
    gives [NaN].  It is [parseFloat] on the plain decimal literals the venue
    sends (no exponent, no leading blank, no [Infinity]), with the exact
    decimal value where the language rounds to a double; it gives values
    to the examples and is no part of the statements on every
    [parseFloat]. *)

Module Decimal.

Definition digit (c : Ascii.ascii) : option Z :=
  let n := Ascii.nat_of_ascii c in
  if ((48 <=? n) && (n <=? 57))%nat then Some (Z.of_nat (n - 48)) else None.

(** Reads a run of digits: the value read after [acc], the number of
    digits read after [count], and the rest of the string. *)
Fixpoint digits (s : string) (acc : Z) (count : nat) : Z * nat * string :=
  match s with
  | EmptyString => (acc, count, s)
  | String c rest =>
      match digit c with
      | Some d => digits rest (10 * acc + d)%Z (S count)
      | None => (acc, count, s)
      end
  end.

Definition unsigned (s : string) : number :=
  let '(ip, ni, rest) := digits s 0%Z 0%nat in
  let '(mant, nf) :=
    match rest with
    | String "."%char frac =>
        let '(m, n, _) := digits frac ip 0%nat in (m, n)
    | _ => (ip, 0%nat)
    end in
  if (ni + nf =? 0)%nat then NaN
  else Num (mant # Z.to_pos (10 ^ Z.of_nat nf)).

Definition negate (a : number) : number :=
  match a with Num q => Num (- q)%Q | NaN => NaN end.

Definition parseFloat (s : string) : number :=
  match s with
  | String "-"%char rest => negate (unsigned rest)
  | String "+"%char rest => unsigned rest
  | _ => unsigned s
  end.

(** A stand-in for [new Date(s).getTime()] that reads the string as a
    count of milliseconds.  It is not the date parser of the language; it
    gives the timestamps of the examples a value. *)
Definition dateGetTime (s : string) : number := parseFloat s.

End Decimal.

(** ** Effects of a handler on the outside world *)

Record Trade : Type := {
  trade_symbol : string;
  trade_connectorType : string;
  trade_event : string;
  trade_price : number;
  trade_size : number;
  trade_timestamp : number;
}.

Record Ticker : Type := {
  ticker_symbol : string;
  ticker_connectorType : string;
  ticker_event : string;
  lastPrice : number;
  ticker_timestamp : number;
}.

Inductive SklEvent : Type :=
| EvTrade | EvTopOfBook | EvTicker | EvOrderStatusUpdate.

Inductive OrderState : Type :=
| Placed | Filled | PartiallyFilled | Cancelled.

Inductive Side : Type := Buy | Sell.

Record OrderStatusUpdate : Type := {
  osu_symbol : string;
  osu_connectorType : string;
  osu_event : SklEvent;
  osu_state : option OrderState;
  osu_orderId : string;
  osu_sklOrderId : string;
  osu_side : option Side;
  osu_price : number;
  osu_size : number;
  osu_notional : number;
  osu_filled_price : number;
  osu_filled_size : number;
  osu_timestamp : number;
}.

Inductive Serializable : Type :=
| OfTopOfBook (t : TopOfBook)
| OfTrade (t : Trade)
| OfTicker (t : Ticker)
| OfOrderStatusUpdate (u : OrderStatusUpdate).

(** A socket is named by the order of its construction: the [k]-th
    [new WebSocket(url)] of a connector is socket [k]. *)
Inductive effect : Type :=
| Log (line : string)                      (* logger.log *)
| LogError (line : string)                 (* logger.error *)
| OnMessage (events : list Serializable)   (* the caller's sink *)
| NewWebSocket (socket : nat) (url : string)
| Send (socket : nat) (payload : string)
| Close (socket : nat)
| SetTimeout (timer : nat) (ms : Z)
| SetInterval (timer : nat) (ms : Z)
| ClearInterval (timer : nat)
| Uncaught.                                (* an exception no handler catches *)

(** ** JSON values and the control messages *)

#[warnings="-register-all"]
Inductive json : Type :=
| JUndefined
| JNumber (n : number)
| JString (s : string)
| JArray (items : list json)
| JObject (fields : list (string * json)).

Definition channelArg (channel instId : string) : json :=
  JObject [("channel", JString channel); ("instId", JString instId)].

(** ** The public connector: messages and session *)

Record OkxTrade : Type := {
  okx_trade_symbol : string;
  okx_trade_instId : string;
  tradeId : string;
  okx_trade_price : string;
  okx_trade_size : string;
  okx_trade_side : string;
  okx_trade_timestamp : string;
}.

Record OkxTradeEvent : Type := {
  trades_type : string;
  trades : list OkxTrade;
}.

Record OkxTicker : Type := {
  okx_ticker_symbol : string;
  okx_ticker_instId : string;
  okx_ticker_lastPrice : string;
  okx_ticker_timestamp : string;
}.

Record OkxTickerEvent : Type := {
  tickers_type : string;
  tickers : list OkxTicker;
}.

(** [OkxEvent.data]: one of three array types. *)
Inductive OkxData : Type :=
| MarketDepthData (events : list OkxMarketDepthEvent)
| TradeData (events : list OkxTradeEvent)
| TickerData (events : list OkxTickerEvent).

Record OkxEvent : Type := {
  event : string;
  channel : string;
  msg : string;
  timestamp : string;
  sequence_num : Z;
  data : OkxData;
}.

Record PublicConnector : Type := {
  sklSymbol : string;
  book : Book;
  (* [publicWebsocketFeed]: undefined until the first [connect] *)
  publicWebsocketFeed : option nat;
  (* sockets constructed so far *)
  socketCount : nat;
  (* timeouts scheduled and not yet fired *)
  pendingTimeouts : list nat;
  timeoutCount : nat;
}.

(** What the event loop delivers to the connector.  [sendThrows] says
    whether [send] on the current socket throws at that moment (it does on
    a socket that is not open yet); [parsed] is the result of [JSON.parse]
    on the frame, [None] when it throws. *)
Inductive PublicInput : Type :=
| CallConnect
| CallStop (sendThrows : bool)
| WsOpen (socket : nat) (sendThrows : bool)
| WsMessage (socket : nat) (parsed : option OkxEvent)
| WsError (socket : nat)
| WsClose (socket : nat)
| TimeoutFired (timer : nat).

Module Public.
Section Public.
Variable parseFloat : string -> number.
Variable dateGetTime : string -> number.
Variable JSON_stringify : json -> string.

Definition publicWebsocketAddress : string :=
  "wss://wseea.okx.com:8443/ws/v5/public".

Definition channels : json :=
  JArray [channelArg "tickers" "BTC-USD";
          channelArg "trades" "BTC-USD";
          channelArg "books" "BTC-USD"].

Definition subscriptionMessage : json :=
  JObject [("op", JString "subscribe"); ("args", channels)].

Definition unsubscribeMessage : json :=
  JObject [("op", JString "unsubscribe"); ("args", channels)].

Definition setBook (self : PublicConnector) (b : Book) : PublicConnector :=
  {| sklSymbol := sklSymbol self; book := b;
     publicWebsocketFeed := publicWebsocketFeed self;
     socketCount := socketCount self;
     pendingTimeouts := pendingTimeouts self;
     timeoutCount := timeoutCount self |}.

(** [this.publicWebsocketFeed.send(payload)]: [None] when the call
    throws (no socket yet, or the socket refuses the frame). *)
Definition feedSend (self : PublicConnector) (sendThrows : bool)
    (payload : string) : option (list effect) :=
  match publicWebsocketFeed self with
  | None => None
  | Some k => if sendThrows then None else Some [Send k payload]
  end.

Definition subscribeToChannels (self : PublicConnector) (sendThrows : bool)
    : option (list effect) :=
  feedSend self sendThrows (JSON_stringify subscriptionMessage).

Definition unsubscribeFromChannels (self : PublicConnector)
    (sendThrows : bool) : option (list effect) :=
  feedSend self sendThrows (JSON_stringify unsubscribeMessage).

(** [connect]: a new socket becomes the feed; its four handlers are
    the cases [WsOpen], [WsMessage], [WsError], [WsClose] of [step]. *)
Definition connect (self : PublicConnector)
    : PublicConnector * list effect :=
  let k := socketCount self in
  ({| sklSymbol := sklSymbol self; book := book self;
      publicWebsocketFeed := Some k;
      socketCount := S k;
      pendingTimeouts := pendingTimeouts self;
      timeoutCount := timeoutCount self |},
   [NewWebSocket k publicWebsocketAddress]).

Definition stop (self : PublicConnector) (sendThrows : bool)
    : PublicConnector * list effect :=
  match unsubscribeFromChannels self sendThrows with
  | Some sent =>
      match publicWebsocketFeed self with
      | Some k => (self, sent ++ [Close k])
      | None => (self, sent ++ [LogError "Error during stop operation:"])
      end
  | None => (self, [LogError "Error during stop operation:"])
  end.

Definition getEventType (message : OkxEvent)
    : option SklEvent * list effect :=
  if negb (bool_decide (event message = "error")) then
    if bool_decide (channel message = "trades") then (Some EvTrade, [])
    else if bool_decide (channel message = "books")
    then (Some EvTopOfBook, [])
    else if bool_decide (channel message = "tickers")
    then (Some EvTicker, [])
    else (None, [])
  else if bool_decide (event message = "error")
  then (None, [LogError "Error message received"])
  else (None, []).

(** [trade.price] of an [OkxTicker] is undefined, and [parseFloat]
    reads its argument as a string. *)
Definition createTicker (self : PublicConnector) (timestamp : string)
    (trade : OkxTicker) : Ticker :=
  {| ticker_symbol := sklSymbol self;
     ticker_connectorType := "Okx";
     ticker_event := "Ticker";
     lastPrice := parseFloat "undefined";
     ticker_timestamp := dateGetTime timestamp |}.

Definition createTrade (self : PublicConnector) (trade : OkxTrade)
    : option Trade :=
  Some {| trade_symbol := sklSymbol self;
          trade_connectorType := "Okx";
          trade_event := "Trade";
          trade_price := parseFloat (okx_trade_price trade);
          trade_size := parseFloat (okx_trade_size trade);
          trade_timestamp := dateGetTime (okx_trade_timestamp trade) |}.

(** The casts [message.data as ...[]]: an element of another shape has
    no [updates] (or [trades], [tickers]) and the first use of it
    throws a TypeError; an empty array has every shape.  The array of a
    frame is of one shape here: a frame that mixes shapes is not in the
    model. *)
Definition asMarketDepth (d : OkxData)
    : option (list OkxMarketDepthEvent) :=
  match d with
  | MarketDepthData l => Some l
  | TradeData [] | TickerData [] => Some []
  | _ => None
  end.

Definition asTrades (d : OkxData) : option (list OkxTradeEvent) :=
  match d with
  | TradeData l => Some l
  | MarketDepthData [] | TickerData [] => Some []
  | _ => None
  end.

Definition asTickers (d : OkxData) : option (list OkxTickerEvent) :=
  match d with
  | TickerData l => Some l
  | MarketDepthData [] | TradeData [] => Some []
  | _ => None
  end.

(** [createSklEvent]: [None] when it throws; the entries of the result
    may be [null] ([None]). *)
Definition createSklEvent (self : PublicConnector) (ev : SklEvent)
    (message : OkxEvent)
    : option (PublicConnector * list (option Serializable) * list effect) :=
  match ev with
  | EvTopOfBook =>
      marketDepth ← asMarketDepth (data message);
      let self' :=
        setBook self
          (fold_left (OrderBook.updateBook parseFloat) marketDepth
             (book self)) in
      Some (self',
            [OfTopOfBook <$>
               OrderBook.createTopOfBook parseFloat dateGetTime
                 (sklSymbol self') (book self') (timestamp message)],
            [])
  | EvTrade =>
      trades_ ← asTrades (data message);
      Some (self,
            trades_ ≫= (fun e =>
              let mixedTrades := createTrade self <$> trades e in
              let sklTrades := filter (fun t => t <> None) mixedTrades in
              fmap OfTrade <$> sklTrades),
            [])
  | EvTicker =>
      tickers_ ← asTickers (data message);
      Some (self,
            tickers_ ≫= (fun e =>
              (fun t => Some (OfTicker
                 (createTicker self (timestamp message) t)))
              <$> tickers e),
            [])
  | EvOrderStatusUpdate =>
      Some (self, [], [Log "Unhandled public connector event"])
  end.

(** The [onmessage] handler; its [try] covers the parse and the whole
    dispatch, so a throw anywhere ends in the error log. *)
Definition onmessage (self : PublicConnector) (parsed : option OkxEvent)
    : PublicConnector * list effect :=
  match parsed with
  | None => (self, [LogError "Error parsing WebSocket message:"])
  | Some okxEvent =>
      let '(actionType, logged) := getEventType okxEvent in
      match actionType with
      | Some ev =>
          match createSklEvent self ev okxEvent with
          | Some (self', mixed, logged') =>
              let serializableMessages :=
                omap id (filter (fun m => m <> None) mixed) in
              if (0 <? length serializableMessages)%nat
              then (self', logged ++ logged'
                             ++ [OnMessage serializableMessages])
              else (self', logged ++ logged'
                             ++ [Log "No messages generated for event"])
          | None =>
              (self, logged ++ [LogError "Error parsing WebSocket message:"])
          end
      | None => (self, logged ++ [Log "No handler for message"])
      end
  end.

Definition onopen (self : PublicConnector) (sendThrows : bool)
    : PublicConnector * list effect :=
  match subscribeToChannels self sendThrows with
  | Some sent => (self, Log "WebSocket opened" :: sent)
  | None => (self, [Log "WebSocket opened"; Uncaught])
  end.

Definition onerror (self : PublicConnector)
    : PublicConnector * list effect :=
  (self, [Log "WebSocket error"]).

(** The [close] handler: [setTimeout(() => self.connect(onMessage), 1000)]. *)
Definition onclose (self : PublicConnector)
    : PublicConnector * list effect :=
  let t := timeoutCount self in
  ({| sklSymbol := sklSymbol self; book := book self;
      publicWebsocketFeed := publicWebsocketFeed self;
      socketCount := socketCount self;
      pendingTimeouts := pendingTimeouts self ++ [t];
      timeoutCount := S t |},
   [Log "WebSocket closed"; SetTimeout t 1000]).

(** A timeout fires once, and only while it is pending. *)
Definition ontimeout (self : PublicConnector) (t : nat)
    : PublicConnector * list effect :=
  if bool_decide (t ∈ pendingTimeouts self)
  then connect
         {| sklSymbol := sklSymbol self; book := book self;
            publicWebsocketFeed := publicWebsocketFeed self;
            socketCount := socketCount self;
            pendingTimeouts :=
              filter (fun t' => t' <> t) (pendingTimeouts self);
            timeoutCount := timeoutCount self |}
  else (self, []).

Definition step (self : PublicConnector) (i : PublicInput)
    : PublicConnector * list effect :=
  match i with
  | CallConnect => connect self
  | CallStop sendThrows => stop self sendThrows
  | WsOpen _ sendThrows => onopen self sendThrows
  | WsMessage _ parsed => onmessage self parsed
  | WsError _ => onerror self
  | WsClose _ => onclose self
  | TimeoutFired t => ontimeout self t
  end.

(** A run: the inputs in order, each with the effects it caused. *)
Fixpoint run (self : PublicConnector) (inputs : list PublicInput)
    : PublicConnector * list (PublicInput * list effect) :=
  match inputs with
  | [] => (self, [])
  | i :: rest =>
      let '(self', out) := step self i in
      let '(final, trace) := run self' rest in
      (final, (i, out) :: trace)
  end.

Definition create (symbol : string) : PublicConnector :=
  {| sklSymbol := symbol; book := {| bids := []; asks := [] |};
     publicWebsocketFeed := None; socketCount := 0;
     pendingTimeouts := []; timeoutCount := 0 |}.

End Public.
End Public.

(** ** The private connector: session, signed requests, batches *)

Record Credential : Type := {
  key : string;
  secret : string;
  passphrase : string;
}.

(** The fields [createOrderStatusUpdate] reads of an order in a frame. *)
Record OkxOrder : Type := {
  order_state : string;
  order_side : string;
  ordId : string;
  clOrdId : string;
  px : string;
  sz : string;
  avgPx : string;
  accFillSz : string;
  uTime : string;
}.

Record OkxPrivateEvent : Type := {
  private_event : string;
  private_channel : string;
  private_timestamp : string;
  private_sequence_num : Z;
  private_data : list OkxOrder;
}.

(** An order intent of a [BatchOrdersRequest]: the fields the connector
    reads. *)
Record Order : Type := {
  intent_side : string;
  quantity : number;
}.

Record BatchOrdersRequest : Type := { orders : list Order }.

Record CancelOrdersRequest : Type := { orderIds : list string }.

(** A request as the connector prepares it for the HTTP client. *)
Record Request : Type := {
  method : string;
  url : string;
  body : option string;
  headers : list (string * string);
}.

(** How a call ends: it returns a value, or it throws; for an async method
    a throw is the rejection of the promise it returns. *)
Inductive outcome (A : Type) : Type :=
| Returns (value : A)
| Throws (error : string).

Arguments Returns {A} value.
Arguments Throws {A} error.

(** [array.map(f)] with a callback that may throw: the first throw ends
    the map. *)
Fixpoint mapOutcome {A B : Type} (f : A -> outcome B) (array : list A)
    : outcome (list B) :=
  match array with
  | [] => Returns []
  | x :: rest =>
      match f x with
      | Throws error => Throws error
      | Returns y =>
          match mapOutcome f rest with
          | Throws error => Throws error
          | Returns ys => Returns (y :: ys)
          end
      end
  end.

(** An HTTP client: what a request resolves to, [None] when it fails. *)
Definition HttpClient : Type := Request -> option json.

(** A call of [postRequest]: what its promise resolves to ([None] is
    undefined), what it logs, and what it hands to the HTTP client. *)
Record Posted : Type := {
  post_result : option json;
  post_log : list effect;
  post_requests : list Request;
}.

(** The account balance as the venue reports it: [result.data[0].details]
    is the list of the balances of the first account. *)
Record OkxBalance : Type := {
  ccy : string;
  cashBal : string;
  frozenBal : string;
}.

Record OkxAccount : Type := { details : list OkxBalance }.

Record OkxBalanceResult : Type := { balance_data : list OkxAccount }.

Record BalanceRequest : Type := { request_lastPrice : number }.

Record BalanceResponse : Type := {
  balance_event : string;
  balance_symbol : string;
  baseBalance : number;
  quoteBalance : number;
  inventory : number;
  balance_timestamp : number;
}.

Record PrivateConnector : Type := {
  private_sklSymbol : string;
  okxSymbol : string;
  credential : Credential;
  privateWebsocketFeed : option nat;
  pingInterval : option nat;
  private_socketCount : nat;
  (* timeouts and intervals scheduled and not yet fired or cleared *)
  private_pendingTimeouts : list nat;
  activeIntervals : list nat;
  timerCount : nat;
}.

(** [now] is the reading of [Date.now()] in the handler. *)
Inductive PrivateInput : Type :=
| PrivateConnect
| PrivateWsOpen (socket : nat) (now : Z) (sendThrows : bool)
| PrivateWsMessage (socket : nat) (parsed : option OkxPrivateEvent)
| PrivateWsError (socket : nat)
| PrivateWsClose (socket : nat)
| PrivateTimeoutFired (timer : nat)
| PrivateIntervalFired (timer : nat) (sendThrows : bool).

Module Private.
Section Private.
Variable parseFloat : string -> number.
Variable parseInt : string -> number.
Variable JSON_stringify : json -> string.
(* [`${n}`] and [n.toString()] of a number *)
Variable Number_toString : number -> string.
Variable toFixed : number -> nat -> string.
Variable WordArray : Type.
(* [CryptoJS.HmacSHA256(message, key)] *)
Variable HmacSHA256 : string -> string -> WordArray.
(* [CryptoJS.enc.Base64.stringify] *)
Variable Base64_stringify : WordArray -> string.
(* [new URLSearchParams(params).toString()] *)
Variable URLSearchParams_toString : list (string * string) -> string.
(* the two tables [createOrderStatusUpdate] names, as parameters: what
   the handler does once they are bound; the module as written binds
   neither, see [createOrderStatusUpdateRun] *)
Variable OkxWSOrderUpdateStateMap : string -> option OrderState.
Variable OkxSideMap : string -> option Side.

Definition privateWebsocketAddress : string :=
  "wss://wseea.okx.com:8443/ws/v5/private".
Definition restUrl : string := "http://www.okx.com".

Definition invertedSideMap (k : string) : option string :=
  if bool_decide (k = "Buy") then Some "BUY"
  else if bool_decide (k = "Sell") then Some "SELL"
  else None.

(** *** Session *)

Definition withSession (self : PrivateConnector)
    (feed : option nat) (ping : option nat) (sockets : nat)
    (timeouts intervals : list nat) (timers : nat) : PrivateConnector :=
  {| private_sklSymbol := private_sklSymbol self;
     okxSymbol := okxSymbol self;
     credential := credential self;
     privateWebsocketFeed := feed;
     pingInterval := ping;
     private_socketCount := sockets;
     private_pendingTimeouts := timeouts;
     activeIntervals := intervals;
     timerCount := timers |}.

Definition feedSend (self : PrivateConnector) (sendThrows : bool)
    (payload : string) : option (list effect) :=
  match privateWebsocketFeed self with
  | None => None
  | Some k => if sendThrows then None else Some [Send k payload]
  end.

Definition connect (self : PrivateConnector)
    : PrivateConnector * list effect :=
  let k := private_socketCount self in
  (withSession self (Some k) (pingInterval self) (S k)
     (private_pendingTimeouts self) (activeIntervals self)
     (timerCount self),
   [NewWebSocket k privateWebsocketAddress]).

Definition startPingInterval (self : PrivateConnector)
    : PrivateConnector * list effect :=
  let t := timerCount self in
  (withSession self (privateWebsocketFeed self) (Some t)
     (private_socketCount self) (private_pendingTimeouts self)
     (activeIntervals self ++ [t]) (S t),
   [SetInterval t 5000]).

Definition stopPingInterval (self : PrivateConnector)
    : PrivateConnector * list effect :=
  match pingInterval self with
  | Some t =>
      (withSession self (privateWebsocketFeed self) None
         (private_socketCount self) (private_pendingTimeouts self)
         (filter (fun t' => t' <> t) (activeIntervals self))
         (timerCount self),
       [ClearInterval t])
  | None => (self, [])
  end.

(** The signature of the login message. *)
Definition authenticateSign (self : PrivateConnector) (now : Z) : string :=
  let timestamp := Num (inject_Z now) in
  let method := "GET" in
  let requestPath := "/users/self/verify" in
  Base64_stringify
    (HmacSHA256 (Number_toString timestamp +:+ method +:+ requestPath)
       (secret (credential self))).

Definition authMessage (self : PrivateConnector) (now : Z) : string :=
  JSON_stringify
    (JObject
       [("op", JString "login");
        ("args",
         JArray
           [JObject
              [("apiKey", JString (key (credential self)));
               ("passphrase", JString (passphrase (credential self)));
               ("timestamp", JNumber (Num (inject_Z now)));
               ("sign", JString (authenticateSign self now))]])]).

(** [authenticate] is an async function without an [await]: it runs
    to its end inside the caller, and a throw of [send] rejects the
    promise it returns, which nobody handles; the caller goes on. *)
Definition authenticate (self : PrivateConnector) (now : Z)
    (sendThrows : bool) : list effect :=
  match feedSend self sendThrows
          (JSON_stringify (JString (authMessage self now))) with
  | Some sent => sent
  | None => [Uncaught]
  end.

Definition privateChannels : json :=
  JArray [channelArg "orders" "ANY"; channelArg "account" "ANY"].

Definition subscribeToPrivateChannels (self : PrivateConnector)
    (sendThrows : bool) : option (list effect) :=
  feedSend self sendThrows
    (JSON_stringify
       (JObject [("op", JString "subscribe"); ("args", privateChannels)])).

Definition unsubscribeFromPrivateChannels (self : PrivateConnector)
    (sendThrows : bool) : option (list effect) :=
  feedSend self sendThrows
    (JSON_stringify
       (JObject [("op", JString "unsubscribe"); ("args", privateChannels)])).

(** The [open] handler. *)
Definition onopen (self : PrivateConnector) (now : Z) (sendThrows : bool)
    : PrivateConnector * list effect :=
  let '(self1, started) := startPingInterval self in
  let login := authenticate self1 now sendThrows in
  match subscribeToPrivateChannels self1 sendThrows with
  | Some sent => (self1, started ++ login ++ sent)
  | None => (self1, started ++ login ++ [Uncaught])
  end.

(** The module-level [getEventType]. *)
Definition getEventType (message : OkxPrivateEvent) : option SklEvent :=
  if bool_decide (private_channel message = "user")
  then Some EvOrderStatusUpdate
  else None.

Definition createOrderStatusUpdate (self : PrivateConnector)
    (action : SklEvent) (order : OkxOrder) : OrderStatusUpdate :=
  let state := OkxWSOrderUpdateStateMap (order_state order) in
  let side := OkxSideMap (order_side order) in
  {| osu_symbol := private_sklSymbol self;
     osu_connectorType := "Okx";
     osu_event := action;
     osu_state := state;
     osu_orderId := ordId order;
     osu_sklOrderId := clOrdId order;
     osu_side := side;
     osu_price := parseFloat (px order);
     osu_size := parseFloat (sz order);
     osu_notional :=
       Number.mul (parseFloat (px order)) (parseFloat (sz order));
     osu_filled_price := parseFloat (avgPx order);
     osu_filled_size := parseFloat (accFillSz order);
     osu_timestamp := parseInt (uTime order) |}.

Definition createSklEvent (self : PrivateConnector) (ev : SklEvent)
    (message : OkxPrivateEvent) : list Serializable :=
  match ev with
  | EvOrderStatusUpdate =>
      (fun order => OfOrderStatusUpdate
                      (createOrderStatusUpdate self ev order))
      <$> private_data message
  | _ => []
  end.

(** The [onmessage] handler with the tables bound; it has no [try].
    [onmessageRun] below is the handler in the module as written. *)
Definition onmessage (self : PrivateConnector)
    (parsed : option OkxPrivateEvent) : PrivateConnector * list effect :=
  match parsed with
  | None => (self, [Uncaught])
  | Some okxEvent =>
      match getEventType okxEvent with
      | Some actionType =>
          (self, [Log "Private websocket message";
                  OnMessage (createSklEvent self actionType okxEvent)])
      | None =>
          (self, [Log "Private websocket message";
                  Log "No handler for message"])
      end
  end.

Definition onerror (self : PrivateConnector)
    : PrivateConnector * list effect :=
  (self, [Log "WebSocket error"]).

(** The [close] handler. *)
Definition onclose (self : PrivateConnector)
    : PrivateConnector * list effect :=
  let '(self1, cleared) := stopPingInterval self in
  let t := timerCount self1 in
  (withSession self1 (privateWebsocketFeed self1) (pingInterval self1)
     (private_socketCount self1) (private_pendingTimeouts self1 ++ [t])
     (activeIntervals self1) (S t),
   Log "WebSocket closed" :: cleared ++ [SetTimeout t 1000]).

Definition ontimeout (self : PrivateConnector) (t : nat)
    : PrivateConnector * list effect :=
  if bool_decide (t ∈ private_pendingTimeouts self)
  then connect
         (withSession self (privateWebsocketFeed self) (pingInterval self)
            (private_socketCount self)
            (filter (fun t' => t' <> t) (private_pendingTimeouts self))
            (activeIntervals self) (timerCount self))
  else (self, []).

(** The callback of [setInterval] in [startPingInterval]. *)
Definition oninterval (self : PrivateConnector) (t : nat)
    (sendThrows : bool) : PrivateConnector * list effect :=
  if bool_decide (t ∈ activeIntervals self)
  then
    match feedSend self sendThrows
            (JSON_stringify (JObject [("method", JString "PING")])) with
    | Some sent => (self, sent)
    | None => (self, [Uncaught])
    end
  else (self, []).

Definition step (self : PrivateConnector) (i : PrivateInput)
    : PrivateConnector * list effect :=
  match i with
  | PrivateConnect => connect self
  | PrivateWsOpen _ now sendThrows => onopen self now sendThrows
  | PrivateWsMessage _ parsed => onmessage self parsed
  | PrivateWsError _ => onerror self
  | PrivateWsClose _ => onclose self
  | PrivateTimeoutFired t => ontimeout self t
  | PrivateIntervalFired t sendThrows => oninterval self t sendThrows
  end.

Fixpoint run (self : PrivateConnector) (inputs : list PrivateInput)
    : PrivateConnector * list (PrivateInput * list effect) :=
  match inputs with
  | [] => (self, [])
  | i :: rest =>
      let '(self', out) := step self i in
      let '(final, trace) := run self' rest in
      (final, (i, out) :: trace)
  end.

Definition create (sklSymbol okxSymbol : string) (c : Credential)
    : PrivateConnector :=
  {| private_sklSymbol := sklSymbol; okxSymbol := okxSymbol;
     credential := c; privateWebsocketFeed := None; pingInterval := None;
     private_socketCount := 0; private_pendingTimeouts := [];
     activeIntervals := []; timerCount := 0 |}.

(** *** Batches *)

(** The loop of [chunkArray]: [i] is the loop variable, [results] the
    array built so far.  The loop need not end (a [chunkSize] of [0]
    never advances [i]); [fuel] bounds the number of turns and [None]
    means it ran out. *)
Fixpoint chunkLoop {A : Type} (fuel : nat) (array : list A)
    (chunkSize i : nat) (results : list (list A))
    : option (list (list A)) :=
  if (i <? length array)%nat then
    match fuel with
    | O => None
    | S fuel' =>
        chunkLoop fuel' array chunkSize (i + chunkSize)
          (results ++ [Array.slice array i (i + chunkSize)])
    end
  else Some results.

Definition chunkArray {A : Type} (array : list A) (chunkSize : nat)
    : option (list (list A)) :=
  chunkLoop (length array) array chunkSize 0 [].

(** *** Signed requests *)

Definition signedHeaders (self : PrivateConnector) (sign : string)
    (timestamp : string) : list (string * string) :=
  [("OK-ACCESS-KEY", key (credential self));
   ("OK-ACCESS-SIGN", sign);
   ("OK-ACCESS-TIMESTAMP", timestamp);
   ("OK-ACCESS-PASSPHRASE", passphrase (credential self))].

(** The request [postRequest] prepares before its [try]: signature,
    headers, address and body. *)
Definition postRequest (self : PrivateConnector) (now : Z)
    (endpoint : string) (params : json) : Request :=
  let timestamp := Num (inject_Z now / 1000)%Q in
  let method := "POST" in
  let requestPath := "/api/v5" +:+ endpoint in
  let body := JSON_stringify params in
  let sign :=
    Base64_stringify
      (HmacSHA256
         (Number_toString timestamp +:+ method +:+ requestPath +:+ body)
         (secret (credential self))) in
  let headers :=
    signedHeaders self sign (Number_toString timestamp)
    ++ [("Content-Type", "application/json")] in
  {| method := method; url := restUrl +:+ requestPath;
     body := Some body; headers := headers |}.

Definition deleteRequest (self : PrivateConnector) (now : Z)
    (endpoint : string) : Request :=
  let timestamp := Num (inject_Z now / 1000)%Q in
  let method := "DELETE" in
  let requestPath := "/api/v5/delete" +:+ endpoint in
  let sign :=
    Base64_stringify
      (HmacSHA256 (Number_toString timestamp +:+ method +:+ requestPath)
         (secret (credential self))) in
  let headers :=
    signedHeaders self sign (Number_toString timestamp)
    ++ [("Content-Type", "application/json")] in
  {| method := method; url := restUrl +:+ requestPath;
     body := None; headers := headers |}.

(** [params] is an object with string values; [queryString] is
    assigned after [sign] is computed. *)
Definition getRequest (self : PrivateConnector) (now : Z)
    (route : string) (params : list (string * string)) : Request :=
  let queryString0 := "" in
  let timestamp := Number_toString (Num (inject_Z (now / 1000)%Z)) in
  let method := "GET" in
  let requestPath := "/api/v5" +:+ route in
  let sign :=
    Base64_stringify
      (HmacSHA256 (timestamp +:+ method +:+ requestPath +:+ queryString0)
         (secret (credential self))) in
  let queryString :=
    if (0 <? length params)%nat
    then "?" +:+ URLSearchParams_toString params
    else queryString0 in
  let headers := signedHeaders self sign timestamp in
  {| method := method; url := restUrl +:+ requestPath +:+ queryString;
     body := None; headers := headers |}.

Definition header (name : string) (r : Request) : option string :=
  snd <$> head (filter (fun h => fst h = name) (headers r)).

(** *** The HTTP client

    [self.axios]: the class declares no member [axios] and nothing
    assigns one; the binding [axios] that the module imports is not a
    member of the connector. *)
Definition axios (self : PrivateConnector) : option HttpClient := None.

(** [postRequest] as it runs: the request is prepared ([postRequest]
    above), then [self.axios.post] is evaluated inside the [try].  With
    [self.axios] undefined the read of [post] throws a TypeError, the
    [catch] logs it, the promise resolves to undefined and nothing is
    handed to a client. *)
Definition postRequestRun (self : PrivateConnector) (now : Z)
    (endpoint : string) (params : json) : Posted :=
  let request := postRequest self now endpoint params in
  match axios self with
  | None =>
      {| post_result := None; post_log := [Log "POST Error"];
         post_requests := [] |}
  | Some client =>
      match client request with
      | Some data =>
          {| post_result := Some data; post_log := [];
             post_requests := [request] |}
      | None =>
          {| post_result := None; post_log := [Log "POST Error"];
             post_requests := [request] |}
      end
  end.

(** *** Orders *)

Definition OkxMaxBatchSize : nat := 20.

(** The constant [orders] of [placeOrders], when the read of
    [order.side] before the [map] finds a value: [order] is that value
    (see [placeOrders] below for where it comes from).  [now] and
    [random] are the readings of [Date.now()] and [Math.random()] for
    the order id. *)
Definition placeOrdersMessages (order : Order) (now : Z) (random : Q)
    (request : BatchOrdersRequest) : list json :=
  let side := invertedSideMap (intent_side order) in
  let instId := "BTC-USDT" in
  let tdMode := "cash" in
  let ordType := "market" in
  let orderId :=
    "skl:" +:+ Number_toString (Num (inject_Z now)) +:+ "_"
    +:+ Number_toString (Num (inject_Z (Qfloor (random * 1000000)))) in
  (fun order =>
     JObject
       [("id", JString orderId);
        ("op", JString "order");
        ("args",
         JArray
           [JObject
              [("side", from_option JString JUndefined side);
               ("instId", JString instId);
               ("tdMode", JString tdMode);
               ("ordType", JString ordType);
               ("sz", JString (toFixed (quantity order) 8))]])])
  <$> orders request.

(** The constant [batches] of [placeOrders]. *)
Definition placeOrdersBatches (order : Order) (now : Z) (random : Q)
    (request : BatchOrdersRequest) : option (list (list json)) :=
  chunkArray (placeOrdersMessages order now random request)
    OkxMaxBatchSize.

(** [placeOrders].  Its statement at line 599 reads [order.side] before
    the [map] whose callback binds [order]: there the identifier is bound
    neither in the method nor in the class nor in the module, and
    resolves in the global object.  [globalOrder] is what it finds there,
    [None] when the program defines no global [order]; the read then
    throws a ReferenceError and the promise of [placeOrders] rejects
    before [request.orders] is read.  Otherwise one [postRequest] is
    called for each batch, in the order of the batches; [clock k] is the
    reading of [Date.now()] in the [k]-th of them.  The result is [None]
    when [chunkArray] does not end. *)
Definition placeOrders (self : PrivateConnector)
    (globalOrder : option Order) (now : Z) (random : Q) (clock : nat -> Z)
    (request : BatchOrdersRequest)
    : option (outcome (list (option json)) * list effect * list Request) :=
  match globalOrder with
  | None => Some (Throws "ReferenceError: order is not defined", [], [])
  | Some order =>
      batches ← placeOrdersBatches order now random request;
      let posted :=
        imap
          (fun k batch =>
             let endpoint := "/account/balance?ccy=BTC" in
             postRequestRun self (clock k) endpoint
               (JObject
                  [("batchOrders",
                    JString (JSON_stringify (JArray batch)))]))
          batches in
      Some (Returns (post_result <$> posted),
            concat (post_log <$> posted),
            concat (post_requests <$> posted))
  end.

(** The requests [deleteAllOrders] prepares and signs, one for each batch
    of ids; what becomes of them is in [deleteAllOrdersRun]. *)
Definition deleteAllOrders (self : PrivateConnector) (clock : nat -> Z)
    (request : CancelOrdersRequest) : option (list Request) :=
  batches ← chunkArray (orderIds request) OkxMaxBatchSize;
  Some (imap
          (fun k batch =>
             let cancelBatchRequest :=
               JObject
                 [("instId", JString (okxSymbol self));
                  ("orders",
                   JArray ((fun id => JObject [("ordId", JString id)])
                           <$> batch))] in
             postRequest self (clock k)
               "/api/v5/trade/cancel-batch-orders" cancelBatchRequest)
          batches).

(** [deleteAllOrders] as it runs: the log lines, in their order, and the
    requests handed to the HTTP client.  Each callback of [batches.map]
    runs [postRequest] up to its [await] inside the [map], so the lines of
    the calls come in the order of the batches and before the line of the
    results.  The result is [None] when [chunkArray] does not end. *)
Definition deleteAllOrdersRun (self : PrivateConnector) (clock : nat -> Z)
    (request : CancelOrdersRequest)
    : option (outcome unit * list effect * list Request) :=
  batches ← chunkArray (orderIds request) OkxMaxBatchSize;
  let posted :=
    imap
      (fun k batch =>
         let cancelBatchRequest :=
           JObject
             [("instId", JString (okxSymbol self));
              ("orders",
               JArray ((fun id => JObject [("ordId", JString id)])
                       <$> batch))] in
         postRequestRun self (clock k)
           "/api/v5/trade/cancel-batch-orders" cancelBatchRequest)
      batches in
  Some (Returns (),
        [Log "DeleteAllOrders Process Initiated"]
        ++ concat (post_log <$> posted)
        ++ [Log "Order cancellation results:"],
        concat (post_requests <$> posted)).

(** *** The request signer of the specification

    [signature = Base64(HMAC-SHA256(secret, timestamp ++ method ++ path
    ++ body))], written from the specification's sentence, to compare
    with what the four signing sites of the connector compute. *)
Definition HMAC_SHA256 (key message : string) : WordArray :=
  HmacSHA256 message key.

Definition RequestSigner (secret timestamp method path body : string)
    : string :=
  Base64_stringify
    (HMAC_SHA256 secret (timestamp +:+ method +:+ path +:+ body)).

(** *** Shutdown

    [deleteAllOrders] on a request whose [orderIds] may be missing: with
    the field undefined, [chunkArray] reads the length of [undefined] and
    the promise of [deleteAllOrders] rejects ([None]); the call stands
    before the [try] of the method. *)
Definition deleteAllOrdersCall (self : PrivateConnector) (clock : nat -> Z)
    (ids : option (list string)) : option (list Request) :=
  match ids with
  | Some l => deleteAllOrders self clock {| orderIds := l |}
  | None => None
  end.

(** [stop]: the effects, and the requests prepared for the HTTP client.  The
    request literal that [stop] passes to [deleteAllOrders] has the fields
    [symbol], [event], [timestamp] and [connectorType], and no
    [orderIds]. *)
Definition stop (self : PrivateConnector) (sendThrows : bool)
    (clock : nat -> Z) : PrivateConnector * list effect * list Request :=
  match unsubscribeFromPrivateChannels self sendThrows with
  | None => (self, [LogError "Error during stop operation:"], [])
  | Some sent =>
      (* clearInterval(self.pingInterval): the handle stays in the field *)
      let cleared :=
        match pingInterval self with
        | Some t => [ClearInterval t]
        | None => []
        end in
      let self1 :=
        withSession self (privateWebsocketFeed self) (pingInterval self)
          (private_socketCount self) (private_pendingTimeouts self)
          (match pingInterval self with
           | Some t => filter (fun t' => t' <> t) (activeIntervals self)
           | None => activeIntervals self
           end)
          (timerCount self) in
      match deleteAllOrdersCall self1 clock None with
      | None =>
          (self1,
           sent ++ cleared
           ++ [Log "DeleteAllOrders Process Initiated";
               LogError "Error during stop operation:"],
           [])
      | Some requests =>
          let '(self2, cleared2) := stopPingInterval self1 in
          match privateWebsocketFeed self2 with
          | Some k =>
              (self2,
               sent ++ cleared
               ++ [Log "DeleteAllOrders Process Initiated";
                   Log "Order cancellation results:"]
               ++ cleared2 ++ [Close k],
               requests)
          | None =>
              (self2,
               sent ++ cleared
               ++ [Log "DeleteAllOrders Process Initiated";
                   Log "Order cancellation results:"]
               ++ cleared2 ++ [LogError "Error during stop operation:"],
               requests)
          end
      end
  end.

(** *** Balance *)

(* the arithmetic of numbers: [a + b], [a * b], [a / b] *)
Variable Number_add : number -> number -> number.
Variable Number_mul : number -> number -> number.
Variable Number_div : number -> number -> number.

(** [balances.find(b => b.ccy === asset) || { cashBal: '0', frozenBal: '0' }] *)
Definition balanceOf (balances : list OkxBalance) (asset : string)
    : string * string :=
  match list_find (fun b => ccy b = asset) balances with
  | Some (_, b) => (cashBal b, frozenBal b)
  | None => ("0", "0")
  end.

(** The request of [getBalancePercentage]. *)
Definition getBalanceRequest (self : PrivateConnector) (now : Z) : Request :=
  getRequest self now "/api/v5/account/balance" [].

(** [getBalancePercentage], from the value [getRequest] resolves to:
    [result] is [None] when the request failed ([getRequest] logs the
    error and returns nothing).  [baseAsset] and [quoteAsset] are
    [this.group.name] and [this.config.quoteAsset]; [later] is the reading
    of the clock for the timestamp.  [None] is a rejected promise. *)
Definition getBalancePercentage (self : PrivateConnector)
    (baseAsset quoteAsset : string) (later : Z) (request : BalanceRequest)
    (result : option OkxBalanceResult) : option BalanceResponse :=
  result ← result;
  account ← balance_data result !! 0%nat;
  let balances := details account in
  let base := balanceOf balances baseAsset in
  let quote := balanceOf balances quoteAsset in
  let baseVal := Number_add (parseFloat (fst base)) (parseFloat (snd base)) in
  let baseValue := Number_mul baseVal (request_lastPrice request) in
  let quoteValue :=
    Number_add (parseFloat (fst quote)) (parseFloat (snd quote)) in
  let whole := Number_add baseValue quoteValue in
  let pairPercentage :=
    Number_mul (Number_div baseValue whole) (Num 100) in
  Some {| balance_event := "BalanceRequest";
          balance_symbol := private_sklSymbol self;
          baseBalance := baseVal;
          quoteBalance := quoteValue;
          inventory := pairPercentage;
          balance_timestamp := Num (inject_Z later) |}.

End Private.

(** *** Order updates, with the tables as the module finds them

    [createOrderStatusUpdate] reads the identifiers
    [OkxWSOrderUpdateStateMap] and [OkxSideMap].  The module of the
    private connector neither declares nor imports them (the table it
    declares is named [OkxWebsocketOrderUpdateStateMap], and its one
    import from the venue's module is [getOkxSymbol]), so each resolves in
    the global object: [globalStateMap] and [globalSideMap] are what is
    found there, [None] when the program defines no such global, and the
    read then throws a ReferenceError. *)
Section Tables.
Variable parseFloat : string -> number.
Variable parseInt : string -> number.
Variable globalStateMap : option (string -> option OrderState).
Variable globalSideMap : option (string -> option Side).

Definition createOrderStatusUpdateRun (self : PrivateConnector)
    (action : SklEvent) (order : OkxOrder) : outcome OrderStatusUpdate :=
  match globalStateMap with
  | None => Throws "ReferenceError: OkxWSOrderUpdateStateMap is not defined"
  | Some stateMap =>
      match globalSideMap with
      | None => Throws "ReferenceError: OkxSideMap is not defined"
      | Some sideMap =>
          Returns (createOrderStatusUpdate parseFloat parseInt stateMap
                     sideMap self action order)
      end
  end.

Definition createSklEventRun (self : PrivateConnector) (ev : SklEvent)
    (message : OkxPrivateEvent) : outcome (list Serializable) :=
  match ev with
  | EvOrderStatusUpdate =>
      mapOutcome
        (fun order =>
           match createOrderStatusUpdateRun self ev order with
           | Returns update => Returns (OfOrderStatusUpdate update)
           | Throws error => Throws error
           end)
        (private_data message)
  | _ => Returns []
  end.

(** The [onmessage] handler; it has no [try], and a throw of
    [createSklEvent] leaves it before the sink is called. *)
Definition onmessageRun (self : PrivateConnector)
    (parsed : option OkxPrivateEvent) : PrivateConnector * list effect :=
  match parsed with
  | None => (self, [Uncaught])
  | Some okxEvent =>
      match getEventType okxEvent with
      | Some actionType =>
          match createSklEventRun self actionType okxEvent with
          | Returns serializableMessages =>
              (self, [Log "Private websocket message";
                      OnMessage serializableMessages])
          | Throws _ => (self, [Log "Private websocket message"; Uncaught])
          end
      | None =>
          (self, [Log "Private websocket message";
                  Log "No handler for message"])
      end
  end.

End Tables.

End Private.

(** ** Stand-ins for the built-ins

    Executable instances of the parameters, used to evaluate the handlers
    on concrete runs.  [stringify] prints JSON without blanks and leaves
    out the fields that are undefined; [toString] prints an integer in
    decimal; the keyed hash and the encoding are symbolic. *)

Module Sample.

Definition dquote : string := String "034"%char EmptyString.

Fixpoint escape (s : string) : string :=
  match s with
  | EmptyString => EmptyString
  | String c rest =>
      if bool_decide (c = "034"%char) || bool_decide (c = "092"%char)
      then String "092"%char (String c (escape rest))
      else String c (escape rest)
  end.

Definition toString (n : number) : string :=
  match n with
  | NaN => "NaN"
  | Num q =>
      if bool_decide (Qden q = 1%positive) then pretty (Qnum q)
      else pretty (Qnum q) +:+ "/" +:+ pretty (Zpos (Qden q))
  end.

Definition joinWith (sep : string) (parts : list string) : string :=
  match parts with
  | [] => EmptyString
  | p :: rest => fold_left (fun acc x => acc +:+ sep +:+ x) rest p
  end.

Definition isUndefined (j : json) : bool :=
  match j with JUndefined => true | _ => false end.

Fixpoint stringify (j : json) : string :=
  match j with
  | JUndefined => "undefined"
  | JNumber n => toString n
  | JString s => dquote +:+ escape s +:+ dquote
  | JArray items => "[" +:+ joinWith "," (map stringify items) +:+ "]"
  | JObject fields =>
      "{" +:+ joinWith ","
                (omap id
                   (map (fun kv =>
                           match kv with
                           | (k, v) =>
                               if isUndefined v then None
                               else Some (dquote +:+ escape k +:+ dquote
                                          +:+ ":" +:+ stringify v)
                           end)
                      fields))
      +:+ "}"
  end.

Definition HmacSHA256 (message key : string) : string :=
  "HMAC-SHA256(" +:+ key +:+ "," +:+ message +:+ ")".

Definition Base64 (w : string) : string := "Base64(" +:+ w +:+ ")".

Definition credential : Credential :=
  {| key := "KEY"; secret := "SECRET"; passphrase := "PASS" |}.

End Sample.

(** ** Predicates of the properties *)

Module BookSpec.
Section BookSpec.
Variable parseFloat : string -> number.

(** The level's price is a number. *)
Definition priced (l : OkxMarketDepthLevel) : Prop :=
  Number.is_num (parseFloat (price_level l)).

(** [a] has a strictly higher (lower) numeric price than [b]. *)
Definition descending : relation OkxMarketDepthLevel :=
  fun a b => Number.lt (parseFloat (price_level b)) (parseFloat (price_level a)).

Definition ascending : relation OkxMarketDepthLevel :=
  fun a b => Number.lt (parseFloat (price_level a)) (parseFloat (price_level b)).

(** Price strings are canonical among [levels]: two levels of the same
    numeric price carry the same price string. *)
Definition canonical (levels : list OkxMarketDepthLevel) : Prop :=
  forall a b, a ∈ levels -> b ∈ levels ->
    Number.same (parseFloat (price_level a)) (parseFloat (price_level b)) ->
    price_level a = price_level b.

(** Some level of [levels] has the price of [u]. *)
Definition present (u : OkxMarketDepthLevel)
    (levels : list OkxMarketDepthLevel) : Prop :=
  price_level u ∈ price_level <$> levels.

(** The side of the book an update declares. *)
Definition declared (u : OkxMarketDepthLevel) (b : Book)
    : list OkxMarketDepthLevel :=
  if bool_decide (side u = "bid") then bids b else asks b.

Definition opposite (u : OkxMarketDepthLevel) (b : Book)
    : list OkxMarketDepthLevel :=
  if bool_decide (side u = "bid") then asks b else bids b.

Definition knownSide (u : OkxMarketDepthLevel) : Prop :=
  side u = "bid" \/ side u = "offer".

(** Every level a feed carries: those of the snapshot and of the deltas. *)
Definition feedLevels (snapshot : OkxMarketDepthEvent)
    (deltas : list OkxMarketDepthEvent) : list OkxMarketDepthLevel :=
  updates snapshot ++ concat (updates <$> deltas).

(** The invariant of the book: on each side one entry for a price at most,
    bids strictly descending and asks strictly ascending by numeric
    price. *)
Definition ordered (b : Book) : Prop :=
  NoDup (price_level <$> bids b) /\ Sorted descending (bids b)
  /\ NoDup (price_level <$> asks b) /\ Sorted ascending (asks b).

End BookSpec.
End BookSpec.

Definition lvl (s p q : string) : OkxMarketDepthLevel :=
  {| side := s; event_time := ""; price_level := p; new_quantity := q |}.

Definition depth (t : string) (levels : list OkxMarketDepthLevel)
    : OkxMarketDepthEvent :=
  {| type := t; product_id := "BTC-USD"; updates := levels |}.

(** The updates of an event that declare a known side. *)
Definition knownUpdates (ev : OkxMarketDepthEvent) : OkxMarketDepthEvent :=
  {| type := type ev; product_id := product_id ev;
     updates := filter BookSpec.knownSide (updates ev) |}.

Module SessionSpec.

Definition isLogError (e : effect) : Prop :=
  match e with LogError _ => True | _ => False end.

Definition isSend (e : effect) : Prop :=
  match e with Send _ _ => True | _ => False end.

Definition isNewWebSocket (e : effect) : Prop :=
  match e with NewWebSocket _ _ => True | _ => False end.

(** In the trace of a run, a timeout that fires after a [stop] opens a
    socket. *)
Definition reconnectsAfterStop
    (trace : list (PublicInput * list effect)) : Prop :=
  exists before sendThrows out after t out',
    trace = before ++ (CallStop sendThrows, out) :: after
    /\ (TimeoutFired t, out') ∈ after
    /\ Exists isNewWebSocket out'.

Definition isFrame (i : PrivateInput) : Prop :=
  match i with PrivateWsMessage _ _ => True | _ => False end.

(** In the trace of a run, [payload] is sent before the venue has sent any
    frame. *)
Definition sentBeforeAnyFrame (payload : string)
    (trace : list (PrivateInput * list effect)) : Prop :=
  exists before i out after socket,
    trace = before ++ (i, out) :: after
    /\ Forall (fun step => ~ isFrame (fst step)) (before ++ [(i, out)])
    /\ Send socket payload ∈ out.

End SessionSpec.

(** The two frames the open handler of the private connector sends. *)
Section Frames.
Variable JSON_stringify : json -> string.
Variable Number_toString : number -> string.
Variable WordArray : Type.
Variable HmacSHA256 : string -> string -> WordArray.
Variable Base64_stringify : WordArray -> string.

Definition loginFrame (self : PrivateConnector) (now : Z) : string :=
  JSON_stringify
    (JString
       (Private.authMessage JSON_stringify Number_toString WordArray
          HmacSHA256 Base64_stringify self now)).

Definition subscribeFrame : string :=
  JSON_stringify
    (JObject [("op", JString "subscribe"); ("args", Private.privateChannels)]).

End Frames.

(** ** Predicates of the further properties *)

(** The event [ev] with the updates [levels] in place of its own. *)
Definition withUpdates (ev : OkxMarketDepthEvent)
    (levels : list OkxMarketDepthLevel) : OkxMarketDepthEvent :=
  {| type := type ev; product_id := product_id ev; updates := levels |}.

(** The update [u] with the quantity ["0"]: the removal of its price. *)
Definition removalOf (u : OkxMarketDepthLevel) : OkxMarketDepthLevel :=
  {| side := side u; event_time := event_time u;
     price_level := price_level u; new_quantity := "0" |}.

Module BookInv.
Section BookInv.
Variable parseFloat : string -> number.

(** Each side holds levels of its own side only. *)
Definition sided (b : Book) : Prop :=
  Forall (fun x => side x = "bid") (bids b)
  /\ Forall (fun x => side x = "offer") (asks b).

(** The quantity of the level is positive. *)
Definition positive (x : OkxMarketDepthLevel) : Prop :=
  Number.gt0 (parseFloat (new_quantity x)) = true.

Definition allPositive (b : Book) : Prop :=
  Forall positive (bids b) /\ Forall positive (asks b).

End BookInv.
End BookInv.

Module HandlerSpec.

(** The effect is a log line or a call of the sink: nothing on a socket
    and no timer. *)
Definition isQuiet (e : effect) : Prop :=
  match e with
  | Log _ | LogError _ | OnMessage _ => True
  | _ => False
  end.

(** The effect is no call of the sink with an empty array. *)
Definition sinkNotEmpty (e : effect) : Prop :=
  match e with
  | OnMessage [] => False
  | _ => True
  end.

Definition isOnMessage (e : effect) : Prop :=
  match e with OnMessage _ => True | _ => False end.

Definition isClose (e : effect) : Prop :=
  match e with Close _ => True | _ => False end.

(** The frame changes nothing in the public connector: it cannot be
    parsed, or is an error event of the venue, or belongs to another
    channel than the books. *)
Definition inert (parsed : option OkxEvent) : Prop :=
  match parsed with
  | None => True
  | Some message => event message = "error" \/ channel message <> "books"
  end.

(** The effect hands the sink one event at least. *)
Definition handsEvents (e : effect) : Prop :=
  match e with
  | OnMessage (_ :: _) => True
  | _ => False
  end.

Definition isCallConnect (i : PublicInput) : Prop :=
  match i with CallConnect => True | _ => False end.

Definition isWsClose (i : PublicInput) : Prop :=
  match i with WsClose _ => True | _ => False end.

#[global] Instance isNewWebSocket_dec (e : effect) :
  Decision (SessionSpec.isNewWebSocket e).
Proof. destruct e; simpl; apply _. Defined.

#[global] Instance isCallConnect_dec (i : PublicInput) :
  Decision (isCallConnect i).
Proof. destruct i; simpl; apply _. Defined.

#[global] Instance isWsClose_dec (i : PublicInput) : Decision (isWsClose i).
Proof. destruct i; simpl; apply _. Defined.

(** The sockets opened in the trace of a run. *)
Definition opened (trace : list (PublicInput * list effect)) : nat :=
  length (filter SessionSpec.isNewWebSocket (concat (snd <$> trace))).

End HandlerSpec.

(** The channels the private connector subscribes to. *)
Definition subscribedChannels : list string := ["orders"; "account"].

(** Stand-ins for the arithmetic of numbers, exact on the rationals; a
    division by zero gives [NaN]. *)
Module SampleNumber.

Definition add (a b : number) : number :=
  match a, b with
  | Num x, Num y => Num (x + y)%Q
  | _, _ => NaN
  end.

Definition div (a b : number) : number :=
  match a, b with
  | Num x, Num y =>
      match (y ?= 0)%Q with
      | Eq => NaN
      | _ => Num (x / y)%Q
      end
  | _, _ => NaN
  end.

End SampleNumber.

(** * Properties *)

(** ** Arrays *)

Section ArrayFacts.
Context {A : Type}.
Implicit Types (l : list A) (x : A).

Lemma findIndex_cases (P : A -> Prop) `{forall x, Decision (P x)} l :
  (Array.findIndex P l = (-1)%Z /\ Forall (fun x => ~ P x) l)
  \/ (exists i x, Array.findIndex P l = Z.of_nat i /\ l !! i = Some x /\ P x
        /\ forall j y, l !! j = Some y -> (j < i)%nat -> ~ P y).
Proof.
  unfold Array.findIndex.
  destruct (list_find P l) as [[i x]|] eqn:E.
  - right. exists i, x. apply list_find_Some in E as (Hx & HP & Hfirst).
    repeat split; auto.
  - left. split; [done|]. by apply list_find_None in E.
Qed.

Lemma splice1_at l (i : nat) :
  (i < length l)%nat -> Array.splice1 l (Z.of_nat i) = delete i l.
Proof.
  intros Hi. unfold Array.splice1.
  destruct (Z.ltb_spec (Z.of_nat i) 0) as [Hneg|_]; [lia|].
  f_equal. lia.
Qed.

Lemma slice_take_drop l (i c : nat) :
  Array.slice l i (i + c) = take c (drop i l).
Proof. unfold Array.slice. f_equal. lia. Qed.

Lemma elem_of_sort_insert (cmp : A -> A -> number) x y l :
  y ∈ Array.sort_insert cmp x l <-> y = x \/ y ∈ l.
Proof.
  induction l as [|z l IH]; simpl.
  - rewrite list_elem_of_singleton, elem_of_nil. tauto.
  - destruct (Number.gt0 (cmp x z)).
    + rewrite !elem_of_cons, IH. tauto.
    + rewrite !elem_of_cons. tauto.
Qed.

Lemma elem_of_concat x (ls : list (list A)) :
  x ∈ concat ls <-> exists l, x ∈ l /\ l ∈ ls.
Proof.
  induction ls as [|k ls IH]; simpl.
  - rewrite elem_of_nil. split; [done|]. intros (l & _ & Hl).
    by apply elem_of_nil in Hl.
  - rewrite elem_of_app, IH. split.
    + intros [Hx|(l & Hx & Hl)].
      * exists k. split; [done|]. apply elem_of_cons. by left.
      * exists l. split; [done|]. apply elem_of_cons. by right.
    + intros (l & Hx & Hl). apply elem_of_cons in Hl as [->|Hl]; [by left|].
      right. by exists l.
Qed.

Lemma StronglySorted_delete (R : relation A) l (i : nat) :
  StronglySorted R l -> StronglySorted R (delete i l).
Proof.
  intros Hl. revert i. induction Hl as [|x l Hl IH Hx]; intros [|i]; simpl.
  - constructor.
  - constructor.
  - exact Hl.
  - constructor; [apply IH|].
    apply Forall_forall. intros y Hy.
    apply list_elem_of_delete_inv in Hy.
    rewrite Forall_forall in Hx. auto.
Qed.

(** *** The sort on a strict order

    [R x y] reads "[x] goes strictly before [y]"; the comparator agrees
    with it in both directions. *)
Section Sort.
Variable cmp : A -> A -> number.
Variable R : relation A.
Hypothesis R_trans : Transitive R.
Hypothesis cmp_before : forall x y, R x y -> Number.gt0 (cmp x y) = false.
Hypothesis cmp_after : forall x y, R y x -> Number.gt0 (cmp x y) = true.

Lemma sort_insert_sorted x l :
  StronglySorted R l ->
  Forall (fun y => R x y \/ R y x) l ->
  StronglySorted R (Array.sort_insert cmp x l).
Proof.
  intros Hl. induction Hl as [|y l Hl IH Hy]; intros Hx; simpl.
  - repeat constructor.
  - apply Forall_cons in Hx as [[Hxy|Hyx] Hx].
    + rewrite (cmp_before _ _ Hxy).
      constructor; [by constructor|].
      constructor; [done|].
      eapply Forall_impl; [exact Hy|]. intros z Hz. by transitivity y.
    + rewrite (cmp_after _ _ Hyx).
      constructor; [by apply IH|].
      apply Forall_forall. intros z Hz.
      apply elem_of_sort_insert in Hz as [->|Hz]; [done|].
      rewrite Forall_forall in Hy. auto.
Qed.

Lemma sort_sorted l : StronglySorted R l -> Array.sort cmp l = l.
Proof.
  induction 1 as [|x l Hl IH Hx]; simpl; [done|].
  rewrite IH. destruct l as [|y l]; simpl; [done|].
  apply Forall_cons in Hx as [Hxy _]. by rewrite (cmp_before _ _ Hxy).
Qed.

Lemma sort_cons_sorted x l :
  StronglySorted R l ->
  Forall (fun y => R x y \/ R y x) l ->
  StronglySorted R (Array.sort cmp (x :: l)).
Proof.
  intros Hl Hx. simpl. rewrite (sort_sorted l Hl).
  by apply sort_insert_sorted.
Qed.

Lemma elem_of_sort_cons x y l :
  StronglySorted R l -> y ∈ Array.sort cmp (x :: l) <-> y = x \/ y ∈ l.
Proof.
  intros Hl. simpl. rewrite (sort_sorted l Hl). apply elem_of_sort_insert.
Qed.

End Sort.

End ArrayFacts.

(** ** The sort, whatever the comparator *)

Section SortAny.
Context {A : Type}.
Variable cmp : A -> A -> number.

Lemma sort_insert_Permutation (x : A) (l : list A) :
  Array.sort_insert cmp x l ≡ₚ x :: l.
Proof.
  induction l as [|y l IH]; simpl; [done|].
  destruct (Number.gt0 (cmp x y)); [|done].
  rewrite IH. apply Permutation_swap.
Qed.

Lemma sort_Permutation (l : list A) : Array.sort cmp l ≡ₚ l.
Proof.
  induction l as [|x l IH]; simpl; [done|].
  by rewrite sort_insert_Permutation, IH.
Qed.

(** The inserted element sits at some index, and taking it out there gives
    the list back. *)
Lemma sort_insert_delete (x : A) (l : list A) :
  exists i : nat,
    Array.sort_insert cmp x l !! i = Some x
    /\ take i (Array.sort_insert cmp x l) = take i l
    /\ delete i (Array.sort_insert cmp x l) = l.
Proof.
  induction l as [|y l (i & Hi & Htake & Hdel)]; simpl.
  - by exists 0%nat.
  - destruct (Number.gt0 (cmp x y)).
    + exists (S i). simpl. by rewrite Hi, Htake, Hdel.
    + by exists 0%nat.
Qed.

End SortAny.

(** ** The order book *)

Section BookFacts.
Variable parseFloat : string -> number.
Implicit Types (l : list OkxMarketDepthLevel) (e u : OkxMarketDepthLevel).

Lemma applyLevel_absent cmp l e :
  Forall (fun x => price_level x <> price_level e) l ->
  OrderBook.applyLevel parseFloat cmp l e
  = if Number.gt0 (parseFloat (new_quantity e))
    then Array.sort cmp (e :: l) else l.
Proof.
  intros Habs. unfold OrderBook.applyLevel.
  destruct (findIndex_cases (fun x => price_level x = price_level e) l)
    as [[-> _]|(i & x & _ & Hx & HP & _)].
  - simpl. rewrite andb_false_r, andb_true_r. reflexivity.
  - apply list_elem_of_lookup_2 in Hx.
    rewrite Forall_forall in Habs. by destruct (Habs x Hx).
Qed.

Lemma applyLevel_present cmp l e (i : nat) x :
  l !! i = Some x -> price_level x = price_level e ->
  (forall (j : nat) y, l !! j = Some y -> (j < i)%nat ->
     price_level y <> price_level e) ->
  OrderBook.applyLevel parseFloat cmp l e
  = if bool_decide (new_quantity e = "0") then delete i l else l.
Proof.
  intros Hx HP Hfirst. unfold OrderBook.applyLevel.
  destruct (findIndex_cases (fun x => price_level x = price_level e) l)
    as [[_ Habs]|(i' & x' & -> & Hx' & HP' & Hfirst')].
  - apply list_elem_of_lookup_2 in Hx.
    rewrite Forall_forall in Habs. by destruct (Habs x Hx).
  - assert (i' = i) as ->.
    { destruct (Nat.lt_trichotomy i' i) as [Hlt|[Heq|Hgt]]; [|done|].
      - by destruct (Hfirst i' x' Hx' Hlt).
      - by destruct (Hfirst' i x Hx Hgt). }
    replace (Z.of_nat i =? -1)%Z with false
      by (symmetry; apply Z.eqb_neq; lia).
    simpl. rewrite andb_true_r, andb_false_r.
    rewrite splice1_at by (by eapply lookup_lt_Some).
    reflexivity.
Qed.

(** A price that is present has a first level that carries it. *)
Lemma present_first u l :
  BookSpec.present u l ->
  exists (i : nat) x, l !! i = Some x /\ price_level x = price_level u
    /\ forall (j : nat) y, l !! j = Some y -> (j < i)%nat ->
         price_level y <> price_level u.
Proof.
  unfold BookSpec.present. intros Hin.
  destruct (findIndex_cases (fun x => price_level x = price_level u) l)
    as [[_ Habs]|(i & x & _ & Hx & HP & Hfirst)].
  - apply list_elem_of_fmap in Hin as (y & Hy & Hin).
    rewrite Forall_forall in Habs. destruct (Habs y Hin). done.
  - exists i, x. auto.
Qed.

Lemma absent_Forall u l :
  ~ BookSpec.present u l ->
  Forall (fun x => price_level x <> price_level u) l.
Proof.
  unfold BookSpec.present. intros Habs. apply Forall_forall. intros x Hx Heq.
  apply Habs. rewrite <- Heq. by apply list_elem_of_fmap_2.
Qed.

Lemma updateBook_snapshot self ev :
  type ev = "snapshot" ->
  OrderBook.updateBook parseFloat self ev
  = {| bids := filter (fun e => side e = "bid") (updates ev);
       asks := filter (fun e => side e = "offer") (updates ev) |}.
Proof.
  intros Ht. unfold OrderBook.updateBook. by rewrite bool_decide_eq_true_2.
Qed.

Lemma updateBook_delta self ev :
  type ev <> "snapshot" ->
  OrderBook.updateBook parseFloat self ev
  = {| bids := fold_left (OrderBook.applyLevel parseFloat
                            (OrderBook.compareBids parseFloat))
                 (filter (fun e => side e = "bid") (updates ev)) (bids self);
       asks := fold_left (OrderBook.applyLevel parseFloat
                            (OrderBook.compareAsks parseFloat))
                 (filter (fun e => side e = "offer") (updates ev))
                 (asks self) |}.
Proof.
  intros Ht. unfold OrderBook.updateBook. by rewrite bool_decide_eq_false_2.
Qed.

(** A delta of one update touches the declared side alone. *)
Lemma updateBook_bid self ev u :
  type ev <> "snapshot" -> updates ev = [u] -> side u = "bid" ->
  OrderBook.updateBook parseFloat self ev
  = {| bids := OrderBook.applyLevel parseFloat
                 (OrderBook.compareBids parseFloat) (bids self) u;
       asks := asks self |}.
Proof.
  intros Ht Hu Hs. rewrite updateBook_delta, Hu by done.
  rewrite filter_cons_True, filter_cons_False by (rewrite ?Hs; done).
  reflexivity.
Qed.

Lemma updateBook_offer self ev u :
  type ev <> "snapshot" -> updates ev = [u] -> side u = "offer" ->
  OrderBook.updateBook parseFloat self ev
  = {| bids := bids self;
       asks := OrderBook.applyLevel parseFloat
                 (OrderBook.compareAsks parseFloat) (asks self) u |}.
Proof.
  intros Ht Hu Hs. rewrite updateBook_delta, Hu by done.
  rewrite filter_cons_False, filter_cons_True by (rewrite ?Hs; done).
  reflexivity.
Qed.

End BookFacts.

(** *** One side of the book under deltas *)

Section Ladder.
Variable parseFloat : string -> number.
Variable cmp : OkxMarketDepthLevel -> OkxMarketDepthLevel -> number.
Variable R : relation OkxMarketDepthLevel.
Hypothesis R_trans : Transitive R.
Hypothesis cmp_before : forall x y, R x y -> Number.gt0 (cmp x y) = false.
Hypothesis cmp_after : forall x y, R y x -> Number.gt0 (cmp x y) = true.
Hypothesis R_total : forall x y,
  BookSpec.priced parseFloat x -> BookSpec.priced parseFloat y ->
  ~ Number.same (parseFloat (price_level x)) (parseFloat (price_level y)) ->
  R x y \/ R y x.
Variable levels : list OkxMarketDepthLevel.
Hypothesis levels_canonical : BookSpec.canonical parseFloat levels.
Implicit Types (l : list OkxMarketDepthLevel) (e : OkxMarketDepthLevel).

Let ladder l : Prop :=
  StronglySorted R l /\ Forall (BookSpec.priced parseFloat) l
  /\ Forall (fun x => x ∈ levels) l.

Lemma applyLevel_ladder l e :
  e ∈ levels -> BookSpec.priced parseFloat e ->
  ladder l -> ladder (OrderBook.applyLevel parseFloat cmp l e).
Proof.
  intros He Hpe (Hs & Hp & Hin).
  destruct (findIndex_cases (fun x => price_level x = price_level e) l)
    as [[_ Habs]|(i & x & _ & Hx & HP & Hfirst)].
  - rewrite applyLevel_absent by done.
    destruct (Number.gt0 (parseFloat (new_quantity e))); [|done].
    assert (Forall (fun y => R e y \/ R y e) l) as Hcmp.
    { apply Forall_forall. intros y Hy.
      rewrite Forall_forall in Hp, Hin, Habs.
      apply R_total; auto. intros Hsame.
      apply (Habs y Hy). symmetry. apply levels_canonical; auto. }
    split; [by apply sort_cons_sorted|].
    split; apply Forall_forall; intros y Hy;
      apply (elem_of_sort_cons cmp R cmp_before) in Hy; try done;
      rewrite Forall_forall in Hp, Hin;
      destruct Hy as [->|Hy]; auto.
  - rewrite (applyLevel_present parseFloat cmp l e i x) by done.
    destruct (bool_decide (new_quantity e = "0")); [|done].
    split; [by apply StronglySorted_delete|].
    split; apply Forall_forall; intros y Hy;
      apply list_elem_of_delete_inv in Hy;
      rewrite Forall_forall in Hp, Hin; auto.
Qed.

Lemma fold_applyLevel_ladder us l :
  Forall (fun e => e ∈ levels) us ->
  Forall (BookSpec.priced parseFloat) us ->
  ladder l -> ladder (fold_left (OrderBook.applyLevel parseFloat cmp) us l).
Proof.
  intros Hin. revert l. induction Hin as [|e us He Hus IH]; intros l Hp Hl.
  - done.
  - apply Forall_cons in Hp as [Hpe Hp]. simpl.
    apply IH; [done|]. by apply applyLevel_ladder.
Qed.

Lemma ladder_unique_prices l :
  (forall x y, R x y -> price_level x <> price_level y) ->
  StronglySorted R l -> NoDup (price_level <$> l).
Proof.
  intros Hne. induction 1 as [|x l Hl IH Hx]; simpl; constructor; [|done].
  rewrite list_elem_of_fmap. intros (y & Heq & Hy).
  rewrite Forall_forall in Hx. by apply (Hne x y (Hx y Hy)).
Qed.

End Ladder.

(** *** Bids and asks *)

Lemma gt0_sub (a b : Q) :
  Number.gt0 (Number.sub (Num a) (Num b)) = true <-> (b < a)%Q.
Proof.
  simpl. rewrite (Qlt_minus_iff b a), Qlt_alt. unfold Qminus.
  destruct (0 ?= a + - b)%Q; split; congruence.
Qed.

Section Sides.
Variable parseFloat : string -> number.
Abbreviation descending := (BookSpec.descending parseFloat).
Abbreviation ascending := (BookSpec.ascending parseFloat).
Abbreviation priced := (BookSpec.priced parseFloat).
Abbreviation compareBids := (OrderBook.compareBids parseFloat).
Abbreviation compareAsks := (OrderBook.compareAsks parseFloat).

#[local] Ltac by_price x y :=
  unfold BookSpec.descending, BookSpec.ascending, BookSpec.priced,
    OrderBook.compareBids, OrderBook.compareAsks;
  destruct (parseFloat (price_level x)) as [|a];
  destruct (parseFloat (price_level y)) as [|b];
  simpl; try tauto; try congruence.

Lemma descending_trans : Transitive descending.
Proof.
  intros x y z. by_price x y; destruct (parseFloat (price_level z)); simpl;
    try tauto. intros H1 H2. by apply Qlt_trans with b.
Qed.

Lemma ascending_trans : Transitive ascending.
Proof.
  intros x y z. by_price x y; destruct (parseFloat (price_level z)); simpl;
    try tauto. intros H1 H2. by apply Qlt_trans with b.
Qed.

Lemma compareBids_before x y :
  descending x y -> Number.gt0 (compareBids x y) = false.
Proof.
  by_price x y. intros Hlt. apply not_true_is_false. intros Hgt.
  apply (gt0_sub b a) in Hgt. apply (Qlt_irrefl a). by apply Qlt_trans with b.
Qed.

Lemma compareBids_after x y :
  descending y x -> Number.gt0 (compareBids x y) = true.
Proof. by_price x y. intros Hlt. by apply (gt0_sub b a). Qed.

Lemma compareAsks_before x y :
  ascending x y -> Number.gt0 (compareAsks x y) = false.
Proof.
  by_price x y. intros Hlt. apply not_true_is_false. intros Hgt.
  apply (gt0_sub a b) in Hgt. apply (Qlt_irrefl a). by apply Qlt_trans with b.
Qed.

Lemma compareAsks_after x y :
  ascending y x -> Number.gt0 (compareAsks x y) = true.
Proof. by_price x y. intros Hlt. by apply (gt0_sub a b). Qed.

Lemma descending_total x y :
  priced x -> priced y ->
  ~ Number.same (parseFloat (price_level x)) (parseFloat (price_level y)) ->
  descending x y \/ descending y x.
Proof.
  by_price x y. intros _ _ Hne.
  destruct (Q_dec a b) as [[Hlt|Hgt]|Heq]; [by right|by left|by destruct Hne].
Qed.

Lemma ascending_total x y :
  priced x -> priced y ->
  ~ Number.same (parseFloat (price_level x)) (parseFloat (price_level y)) ->
  ascending x y \/ ascending y x.
Proof.
  by_price x y. intros _ _ Hne.
  destruct (Q_dec a b) as [[Hlt|Hgt]|Heq]; [by left|by right|by destruct Hne].
Qed.

Lemma descending_distinct x y :
  descending x y -> price_level x <> price_level y.
Proof.
  unfold BookSpec.descending. intros Hlt Heq. rewrite Heq in Hlt.
  destruct (parseFloat (price_level y)); simpl in Hlt; [done|].
  by apply Qlt_irrefl in Hlt.
Qed.

Lemma ascending_distinct x y :
  ascending x y -> price_level x <> price_level y.
Proof.
  unfold BookSpec.ascending. intros Hlt Heq. rewrite Heq in Hlt.
  destruct (parseFloat (price_level y)); simpl in Hlt; [done|].
  by apply Qlt_irrefl in Hlt.
Qed.

Lemma Forall_filter_of {A} (P Q : A -> Prop) `{forall x, Decision (P x)}
    (l : list A) :
  Forall Q l -> Forall Q (filter P l).
Proof.
  rewrite !Forall_forall. intros HQ x Hx.
  apply list_elem_of_filter in Hx as [_ Hx]. auto.
Qed.

End Sides.

(** *** One entry for a price *)

Section Prices.
Variable parseFloat : string -> number.
Variable cmp : OkxMarketDepthLevel -> OkxMarketDepthLevel -> number.
Implicit Types (l : list OkxMarketDepthLevel) (e : OkxMarketDepthLevel).

(** Whatever the prices parse to, an update leaves a side with one entry for
    a price string when it had one: the update is inserted only when no
    entry has its price string, and the sort permutes the side. *)
Lemma applyLevel_unique l e :
  NoDup (price_level <$> l) ->
  NoDup (price_level <$> OrderBook.applyLevel parseFloat cmp l e).
Proof.
  intros Hl.
  destruct (findIndex_cases (fun x => price_level x = price_level e) l)
    as [[_ Habs]|(i & x & _ & Hx & HP & Hfirst)].
  - rewrite applyLevel_absent by done.
    destruct (Number.gt0 (parseFloat (new_quantity e))); [|done].
    rewrite (sort_Permutation cmp (e :: l)). simpl.
    apply NoDup_cons. split; [|done].
    rewrite list_elem_of_fmap. intros (y & Heq & Hy).
    rewrite Forall_forall in Habs. by apply (Habs y Hy).
  - rewrite (applyLevel_present parseFloat cmp l e i x) by done.
    destruct (bool_decide (new_quantity e = "0")); [|done].
    rewrite (delete_Permutation l i x Hx) in Hl. simpl in Hl.
    by apply NoDup_cons in Hl as [_ Hl].
Qed.

Lemma fold_applyLevel_unique us l :
  NoDup (price_level <$> l) ->
  NoDup (price_level <$> fold_left (OrderBook.applyLevel parseFloat cmp) us l).
Proof.
  revert l. induction us as [|e us IH]; intros l Hl; simpl; [done|].
  by apply IH, applyLevel_unique.
Qed.

End Prices.

(** The sides of the book after a sequence of deltas: each side folds the
    updates that declare it, in the order of the feed. *)
Lemma fold_updateBook_sides (parseFloat : string -> number)
    (deltas : list OkxMarketDepthEvent) (b : Book) :
  Forall (fun d => type d <> "snapshot") deltas ->
  fold_left (OrderBook.updateBook parseFloat) deltas b
  = {| bids := fold_left (OrderBook.applyLevel parseFloat
                            (OrderBook.compareBids parseFloat))
                 (filter (fun e => side e = "bid") (concat (updates <$> deltas)))
                 (bids b);
       asks := fold_left (OrderBook.applyLevel parseFloat
                            (OrderBook.compareAsks parseFloat))
                 (filter (fun e => side e = "offer")
                    (concat (updates <$> deltas)))
                 (asks b) |}.
Proof.
  intros Hdeltas. revert b.
  induction Hdeltas as [|d deltas Hd _ IH]; intros b; [by destruct b|].
  cbn [fold_left fmap list_fmap concat].
  rewrite IH, updateBook_delta by done. simpl.
  by rewrite !filter_app, !fold_left_app.
Qed.

(** ** The claims on the order book *)

(** C1, as amended.  The snapshot is stored as it arrives and price strings
    are compared as strings, so the claim rests on the feed, each of its two
    halves on its own condition.  After the snapshot and any sequence of
    deltas,
    - a side whose snapshot levels carry each price once has one entry for a
      price at most, whatever the prices are;
    - the bids are strictly descending by numeric price when the snapshot's
      bids are, every bid price of the feed is a number and the bid prices
      are canonical (one string for a numeric price); the asks are strictly
      ascending under the same conditions on the asks. *)
Theorem updateBook_ordered (parseFloat : string -> number) (self : Book)
    (snapshot : OkxMarketDepthEvent) (deltas : list OkxMarketDepthEvent) :
  type snapshot = "snapshot" ->
  Forall (fun d => type d <> "snapshot") deltas ->
  let b := fold_left (OrderBook.updateBook parseFloat) deltas
             (OrderBook.updateBook parseFloat self snapshot) in
  let bidLevels :=
    filter (fun e => side e = "bid") (BookSpec.feedLevels snapshot deltas) in
  let askLevels :=
    filter (fun e => side e = "offer") (BookSpec.feedLevels snapshot deltas) in
  (NoDup (price_level <$> filter (fun e => side e = "bid") (updates snapshot))
   -> NoDup (price_level <$> bids b))
  /\ (NoDup (price_level
             <$> filter (fun e => side e = "offer") (updates snapshot))
      -> NoDup (price_level <$> asks b))
  /\ (Sorted (BookSpec.descending parseFloat)
        (filter (fun e => side e = "bid") (updates snapshot)) ->
      Forall (BookSpec.priced parseFloat) bidLevels ->
      BookSpec.canonical parseFloat bidLevels ->
      Sorted (BookSpec.descending parseFloat) (bids b))
  /\ (Sorted (BookSpec.ascending parseFloat)
        (filter (fun e => side e = "offer") (updates snapshot)) ->
      Forall (BookSpec.priced parseFloat) askLevels ->
      BookSpec.canonical parseFloat askLevels ->
      Sorted (BookSpec.ascending parseFloat) (asks b)).
Proof.
  intros Hsnap Hdeltas b bidLevels askLevels. subst b.
  rewrite fold_updateBook_sides, updateBook_snapshot by done.
  subst bidLevels askLevels. unfold BookSpec.feedLevels.
  rewrite !filter_app. cbn [bids asks].
  set (bids0 := filter (fun e => side e = "bid") (updates snapshot)).
  set (asks0 := filter (fun e => side e = "offer") (updates snapshot)).
  set (bidUpdates :=
         filter (fun e => side e = "bid") (concat (updates <$> deltas))).
  set (askUpdates :=
         filter (fun e => side e = "offer") (concat (updates <$> deltas))).
  split; [apply fold_applyLevel_unique|].
  split; [apply fold_applyLevel_unique|].
  split.
  - intros Hsorted Hpriced Hcanon.
    apply Forall_app in Hpriced as [Hp0 Hp].
    apply StronglySorted_Sorted.
    apply (fold_applyLevel_ladder parseFloat
             (OrderBook.compareBids parseFloat)
             (BookSpec.descending parseFloat)
             (descending_trans parseFloat) (compareBids_before parseFloat)
             (compareBids_after parseFloat) (descending_total parseFloat)
             (bids0 ++ bidUpdates) Hcanon); [|done|].
    + apply Forall_forall. intros e He. apply elem_of_app. by right.
    + split; [apply Sorted_StronglySorted;
              [apply descending_trans|done]|].
      split; [done|].
      apply Forall_forall. intros e He. apply elem_of_app. by left.
  - intros Hsorted Hpriced Hcanon.
    apply Forall_app in Hpriced as [Hp0 Hp].
    apply StronglySorted_Sorted.
    apply (fold_applyLevel_ladder parseFloat
             (OrderBook.compareAsks parseFloat)
             (BookSpec.ascending parseFloat)
             (ascending_trans parseFloat) (compareAsks_before parseFloat)
             (compareAsks_after parseFloat) (ascending_total parseFloat)
             (asks0 ++ askUpdates) Hcanon); [|done|].
    + apply Forall_forall. intros e He. apply elem_of_app. by right.
    + split; [apply Sorted_StronglySorted;
              [apply ascending_trans|done]|].
      split; [done|].
      apply Forall_forall. intros e He. apply elem_of_app. by left.
Qed.

#[local] Ltac levels_in H :=
  apply list_elem_of_In in H; simpl in H;
  repeat (destruct H as [<-|H]; [|]); try contradiction.

#[local] Ltac evaluated :=
  repeat first [ apply Forall_nil_2 | apply Forall_cons_2 ];
  first [ done | vm_compute; exact I | vm_compute; congruence ].

Lemma updateBook_ordered_witness :
  BookSpec.ordered Decimal.parseFloat
    (fold_left (OrderBook.updateBook Decimal.parseFloat)
       [depth "update"
          [lvl "bid" "100" "0"; lvl "bid" "99.5" "2"; lvl "offer" "100.5" "1"]]
       (OrderBook.updateBook Decimal.parseFloat {| bids := []; asks := [] |}
          (depth "snapshot"
             [lvl "bid" "100" "5"; lvl "bid" "99" "1";
              lvl "offer" "101" "3"; lvl "offer" "102" "1"]))).
Proof.
  destruct (updateBook_ordered Decimal.parseFloat {| bids := []; asks := [] |}
              (depth "snapshot"
                 [lvl "bid" "100" "5"; lvl "bid" "99" "1";
                  lvl "offer" "101" "3"; lvl "offer" "102" "1"])
              [depth "update"
                 [lvl "bid" "100" "0"; lvl "bid" "99.5" "2";
                  lvl "offer" "100.5" "1"]])
    as (Hbids & Hasks & Hdescending & Hascending).
  - reflexivity.
  - evaluated.
  - unfold BookSpec.ordered. split; [|split; [|split]].
    + apply Hbids. apply (bool_decide_unpack _). vm_compute. exact I.
    + apply Hdescending.
      * simpl. repeat constructor.
      * unfold BookSpec.feedLevels; simpl. evaluated.
      * unfold BookSpec.feedLevels; simpl. intros a b Ha Hb.
        levels_in Ha; levels_in Hb; intros Hsame;
          first [ reflexivity | vm_compute in Hsame; discriminate ].
    + apply Hasks. apply (bool_decide_unpack _). vm_compute. exact I.
    + apply Hascending.
      * simpl. repeat constructor.
      * unfold BookSpec.feedLevels; simpl. evaluated.
      * unfold BookSpec.feedLevels; simpl. intros a b Ha Hb.
        levels_in Ha; levels_in Hb; intros Hsame;
          first [ reflexivity | vm_compute in Hsame; discriminate ].
Defined.

(** C1 as stated fails: a snapshot is stored as it is sent.  Here its bids
    come in ascending order; the delta touches the asks, and the bids stay
    in the order of the snapshot. *)
Lemma updateBook_keeps_snapshot_order :
  let snapshot :=
    depth "snapshot"
      [lvl "bid" "99" "1"; lvl "bid" "100" "5"; lvl "offer" "101" "3"] in
  let delta := depth "update" [lvl "offer" "102" "1"] in
  let b :=
    fold_left (OrderBook.updateBook Decimal.parseFloat) [delta]
      (OrderBook.updateBook Decimal.parseFloat {| bids := []; asks := [] |}
         snapshot) in
  bids b = [lvl "bid" "99" "1"; lvl "bid" "100" "5"]
  /\ ~ BookSpec.ordered Decimal.parseFloat b.
Proof.
  intros snapshot delta b.
  assert (bids b = [lvl "bid" "99" "1"; lvl "bid" "100" "5"]) as Hbids
    by reflexivity.
  split; [exact Hbids|].
  intros (_ & Hsorted & _). rewrite Hbids in Hsorted.
  inversion Hsorted as [|x l _ Hhd]; subst.
  inversion Hhd as [|y k Hlt]; subst.
  vm_compute in Hlt. discriminate.
Qed.

(** The deltas alone break the order when price strings are not canonical:
    ["100.0"] is not found among the bids, is inserted, and the side holds
    the price 100 twice. *)
Lemma updateBook_noncanonical_price :
  let snapshot := depth "snapshot" [lvl "bid" "100" "5"; lvl "offer" "101" "3"] in
  let delta := depth "update" [lvl "bid" "100.0" "2"] in
  let b :=
    fold_left (OrderBook.updateBook Decimal.parseFloat) [delta]
      (OrderBook.updateBook Decimal.parseFloat {| bids := []; asks := [] |}
         snapshot) in
  bids b = [lvl "bid" "100.0" "2"; lvl "bid" "100" "5"]
  /\ ~ BookSpec.ordered Decimal.parseFloat b.
Proof.
  intros snapshot delta b.
  assert (bids b = [lvl "bid" "100.0" "2"; lvl "bid" "100" "5"]) as Hbids
    by reflexivity.
  split; [exact Hbids|].
  intros (_ & Hsorted & _). rewrite Hbids in Hsorted.
  inversion Hsorted as [|x l _ Hhd]; subst.
  inversion Hhd as [|y k Hlt]; subst.
  vm_compute in Hlt. discriminate.
Qed.

(** A price that is no number has no place in the order: the snapshot's
    only bid is kept, and a bid inserted next to it compares with nothing. *)
Lemma updateBook_unpriced_level :
  let snapshot := depth "snapshot" [lvl "bid" "n/a" "5"; lvl "offer" "101" "3"] in
  let delta := depth "update" [lvl "bid" "100" "2"] in
  let b :=
    fold_left (OrderBook.updateBook Decimal.parseFloat) [delta]
      (OrderBook.updateBook Decimal.parseFloat {| bids := []; asks := [] |}
         snapshot) in
  Sorted (BookSpec.descending Decimal.parseFloat)
    (filter (fun e => side e = "bid") (updates snapshot))
  /\ bids b = [lvl "bid" "100" "2"; lvl "bid" "n/a" "5"]
  /\ ~ BookSpec.ordered Decimal.parseFloat b.
Proof.
  intros snapshot delta b.
  assert (bids b = [lvl "bid" "100" "2"; lvl "bid" "n/a" "5"]) as Hbids
    by reflexivity.
  split; [simpl; repeat constructor|]. split; [exact Hbids|].
  intros (_ & Hsorted & _). rewrite Hbids in Hsorted.
  inversion Hsorted as [|x l _ Hhd]; subst.
  inversion Hhd as [|y k Hlt]; subst.
  vm_compute in Hlt. exact Hlt.
Qed.

(** One entry for a price rests on the snapshot as well: its bids here carry
    the price 100 twice, are stored as sent, and the delta at another price
    leaves both entries. *)
Lemma updateBook_keeps_snapshot_duplicate :
  let snapshot :=
    depth "snapshot"
      [lvl "bid" "100" "5"; lvl "bid" "100" "2"; lvl "offer" "101" "3"] in
  let delta := depth "update" [lvl "bid" "99" "1"] in
  let b :=
    fold_left (OrderBook.updateBook Decimal.parseFloat) [delta]
      (OrderBook.updateBook Decimal.parseFloat {| bids := []; asks := [] |}
         snapshot) in
  bids b = [lvl "bid" "100" "5"; lvl "bid" "100" "2"; lvl "bid" "99" "1"]
  /\ ~ NoDup (price_level <$> bids b).
Proof.
  intros snapshot delta b.
  assert (bids b
          = [lvl "bid" "100" "5"; lvl "bid" "100" "2"; lvl "bid" "99" "1"])
    as Hbids by reflexivity.
  split; [exact Hbids|].
  rewrite Hbids. intros Hnodup.
  apply NoDup_cons in Hnodup as [Hnotin _].
  apply Hnotin. simpl. apply elem_of_cons. by left.
Qed.

(** C2 as stated fails: the delta carries quantity 7 for the price 100 that
    the bids hold with quantity 5; afterwards the bids hold the one entry
    at 100 still with quantity 5, and none with quantity 7. *)
Lemma updateBook_keeps_stale_quantity :
  let self := {| bids := [lvl "bid" "100" "5"]; asks := [lvl "offer" "101" "3"] |} in
  let u := lvl "bid" "100" "7" in
  let self' := OrderBook.updateBook Decimal.parseFloat self (depth "update" [u]) in
  Number.gt0 (Decimal.parseFloat (new_quantity u)) = true
  /\ BookSpec.present u (bids self)
  /\ bids self' = [lvl "bid" "100" "5"]
  /\ ~ (exists x, x ∈ bids self' /\ price_level x = price_level u
                  /\ new_quantity x = new_quantity u).
Proof.
  repeat split.
  - simpl. apply list_elem_of_singleton. reflexivity.
  - intros (x & Hx & _ & Hq). vm_compute in Hx.
    apply list_elem_of_singleton in Hx. subst x. discriminate.
Qed.

(** C2, as amended.  A delta update with quantity > 0 whose price already
    has an entry on the declared side is ignored: the book after it is the
    book before it, so the side keeps its entry at that price with the
    quantity it had and gains no second one. *)
Theorem updateBook_existing_price_unchanged (parseFloat : string -> number)
    (self : Book) (ev : OkxMarketDepthEvent) (u : OkxMarketDepthLevel) :
  Number.gt0 (parseFloat "0") = false ->
  type ev <> "snapshot" -> updates ev = [u] -> BookSpec.knownSide u ->
  Number.gt0 (parseFloat (new_quantity u)) = true ->
  BookSpec.present u (BookSpec.declared u self) ->
  OrderBook.updateBook parseFloat self ev = self.
Proof.
  intros Hzero Ht Hu Hside Hpos Hpresent.
  assert (new_quantity u <> "0") as Hq by (intros Heq; congruence).
  unfold BookSpec.declared in Hpresent.
  destruct self as [bs as_]. simpl in Hpresent.
  destruct Hside as [Hs|Hs].
  - rewrite bool_decide_eq_true_2 in Hpresent by done.
    rewrite (updateBook_bid parseFloat _ ev u) by done. simpl.
    apply present_first in Hpresent as (i & x & Hx & HP & Hfirst).
    rewrite (applyLevel_present parseFloat _ bs u i x) by done.
    by rewrite bool_decide_eq_false_2.
  - rewrite bool_decide_eq_false_2 in Hpresent by (rewrite Hs; done).
    rewrite (updateBook_offer parseFloat _ ev u) by done. simpl.
    apply present_first in Hpresent as (i & x & Hx & HP & Hfirst).
    rewrite (applyLevel_present parseFloat _ as_ u i x) by done.
    by rewrite bool_decide_eq_false_2.
Qed.

Lemma updateBook_existing_price_unchanged_witness :
  let self := {| bids := [lvl "bid" "100" "5"]; asks := [lvl "offer" "101" "3"] |} in
  OrderBook.updateBook Decimal.parseFloat self
    (depth "update" [lvl "bid" "100" "7"]) = self.
Proof.
  apply (updateBook_existing_price_unchanged Decimal.parseFloat _ _
           (lvl "bid" "100" "7")).
  - reflexivity.
  - simpl. discriminate.
  - reflexivity.
  - left. reflexivity.
  - reflexivity.
  - vm_compute. apply list_elem_of_singleton. reflexivity.
Defined.

(** C3.  [createTopOfBook] returns nothing when the bids or the asks are
    empty, and otherwise the price and quantity of the first bid and of the
    first ask. *)
Theorem createTopOfBook_first_entries (parseFloat dateGetTime : string -> number)
    (sklSymbol : string) (self : Book) (timestamp : string) :
  OrderBook.createTopOfBook parseFloat dateGetTime sklSymbol self timestamp
  = match bids self, asks self with
    | bid0 :: _, ask0 :: _ =>
        Some {| tob_symbol := sklSymbol;
                tob_connectorType := "Okx";
                tob_event := "TopOfBook";
                tob_timestamp := dateGetTime timestamp;
                askPrice := parseFloat (price_level ask0);
                askSize := parseFloat (new_quantity ask0);
                bidPrice := parseFloat (price_level bid0);
                bidSize := parseFloat (new_quantity bid0) |}
    | _, _ => None
    end.
Proof.
  unfold OrderBook.createTopOfBook.
  destruct (bids self) as [|bid0 bs], (asks self) as [|ask0 as_]; reflexivity.
Qed.

(** C4 as stated fails: the quantity ["0.0"] is zero and the price 100 has
    an entry among the bids, yet the entry stays: the removal is taken on
    the string ["0"] alone. *)
Lemma updateBook_zero_spelled_otherwise :
  let self := {| bids := [lvl "bid" "100" "5"]; asks := [lvl "offer" "101" "3"] |} in
  let u := lvl "bid" "100" "0.0" in
  let self' := OrderBook.updateBook Decimal.parseFloat self (depth "update" [u]) in
  Number.same (Decimal.parseFloat (new_quantity u)) (Num 0)
  /\ BookSpec.present u (bids self)
  /\ bids self' = [lvl "bid" "100" "5"]
  /\ BookSpec.present u (bids self').
Proof.
  repeat split; simpl; apply list_elem_of_singleton; reflexivity.
Qed.

(** C4, as amended.  The removal is taken on the string ["0"], not on the
    value of the quantity.  For a delta update at a price that has no entry
    on the declared side: with the quantity ["0"], or any quantity that is
    not positive, the book is unchanged.  At a price that has an entry on
    the declared side: with the quantity ["0"] the first entry at that price
    is removed from that side, every other entry stays in place and the
    other side is unchanged; with any other quantity, zero spelled otherwise
    included, the book is unchanged. *)
Theorem updateBook_zero_quantity (parseFloat : string -> number)
    (self : Book) (ev : OkxMarketDepthEvent) (u : OkxMarketDepthLevel) :
  Number.gt0 (parseFloat "0") = false ->
  type ev <> "snapshot" -> updates ev = [u] -> BookSpec.knownSide u ->
  let self' := OrderBook.updateBook parseFloat self ev in
  (new_quantity u = "0"
   \/ Number.gt0 (parseFloat (new_quantity u)) = false ->
   ~ BookSpec.present u (BookSpec.declared u self) -> self' = self)
  /\ (new_quantity u = "0" ->
      BookSpec.present u (BookSpec.declared u self) ->
      exists (i : nat) x,
        BookSpec.declared u self !! i = Some x
        /\ price_level x = price_level u
        /\ (forall (j : nat) y,
              BookSpec.declared u self !! j = Some y -> (j < i)%nat ->
              price_level y <> price_level u)
        /\ BookSpec.declared u self'
           = take i (BookSpec.declared u self)
             ++ drop (S i) (BookSpec.declared u self)
        /\ BookSpec.opposite u self' = BookSpec.opposite u self)
  /\ (new_quantity u <> "0" ->
      BookSpec.present u (BookSpec.declared u self) -> self' = self).
Proof.
  intros Hzero Ht Hu Hside self'. subst self'.
  assert (new_quantity u = "0"
          \/ Number.gt0 (parseFloat (new_quantity u)) = false ->
          Number.gt0 (parseFloat (new_quantity u)) = false) as Hnot.
  { intros [->|Hq]; done. }
  unfold BookSpec.declared, BookSpec.opposite.
  destruct self as [bs as_]. simpl.
  destruct Hside as [Hs|Hs].
  - rewrite !bool_decide_eq_true_2 by done.
    rewrite (updateBook_bid parseFloat _ ev u) by done. simpl.
    split; [|split].
    + intros Hq Habs. apply absent_Forall in Habs.
      rewrite applyLevel_absent by done. by rewrite (Hnot Hq).
    + intros Hq Hpresent.
      apply present_first in Hpresent as (i & x & Hx & HP & Hfirst).
      exists i, x. rewrite (applyLevel_present parseFloat _ bs u i x) by done.
      rewrite bool_decide_eq_true_2 by done.
      by rewrite delete_take_drop.
    + intros Hq Hpresent.
      apply present_first in Hpresent as (i & x & Hx & HP & Hfirst).
      rewrite (applyLevel_present parseFloat _ bs u i x) by done.
      by rewrite bool_decide_eq_false_2.
  - rewrite !bool_decide_eq_false_2 by (rewrite Hs; done).
    rewrite (updateBook_offer parseFloat _ ev u) by done. simpl.
    split; [|split].
    + intros Hq Habs. apply absent_Forall in Habs.
      rewrite applyLevel_absent by done. by rewrite (Hnot Hq).
    + intros Hq Hpresent.
      apply present_first in Hpresent as (i & x & Hx & HP & Hfirst).
      exists i, x. rewrite (applyLevel_present parseFloat _ as_ u i x) by done.
      rewrite bool_decide_eq_true_2 by done.
      by rewrite delete_take_drop.
    + intros Hq Hpresent.
      apply present_first in Hpresent as (i & x & Hx & HP & Hfirst).
      rewrite (applyLevel_present parseFloat _ as_ u i x) by done.
      by rewrite bool_decide_eq_false_2.
Qed.

(** The three cases on a book whose bids hold the price 99 twice: the
    quantity ["0"] at the absent price 98 changes nothing, at the price 99 it
    removes the first of the two entries, and the quantity ["0.0"] at the
    price 99 changes nothing. *)
Lemma updateBook_zero_quantity_witness :
  let self := {| bids := [lvl "bid" "100" "5"; lvl "bid" "99" "2";
                          lvl "bid" "99" "4"];
                 asks := [lvl "offer" "101" "3"] |} in
  let after u := OrderBook.updateBook Decimal.parseFloat self (depth "update" [u]) in
  after (lvl "bid" "98" "0") = self
  /\ (bids (after (lvl "bid" "99" "0"))
        = [lvl "bid" "100" "5"; lvl "bid" "99" "4"]
      /\ asks (after (lvl "bid" "99" "0")) = asks self)
  /\ after (lvl "bid" "99" "0.0") = self.
Proof.
  intros self after.
  assert (forall u, side u = "bid" ->
            Number.gt0 (Decimal.parseFloat "0") = false
            /\ type (depth "update" [u]) <> "snapshot"
            /\ updates (depth "update" [u]) = [u]
            /\ BookSpec.knownSide u) as Hfeed.
  { intros u Hu. repeat split; [simpl; discriminate|by left]. }
  split; [|split].
  - destruct (Hfeed (lvl "bid" "98" "0") eq_refl) as (Hz & Ht & Hu & Hs).
    destruct (updateBook_zero_quantity Decimal.parseFloat self _ _
                Hz Ht Hu Hs) as (Habsent & _ & _).
    apply Habsent; [by left|].
    unfold BookSpec.present. simpl. rewrite !elem_of_cons, elem_of_nil.
    intros [H|[H|[H|[]]]]; discriminate.
  - destruct (Hfeed (lvl "bid" "99" "0") eq_refl) as (Hz & Ht & Hu & Hs).
    destruct (updateBook_zero_quantity Decimal.parseFloat self _ _
                Hz Ht Hu Hs) as (_ & Hremoved & _).
    destruct Hremoved as (i & x & Hx & HP & Hfirst & Hdeclared & Hopposite).
    { reflexivity. }
    { unfold BookSpec.present. simpl. rewrite !elem_of_cons. auto. }
    split; [|exact Hopposite].
    change (bids (after (lvl "bid" "99" "0"))
            = take i (bids self) ++ drop (S i) (bids self)) in Hdeclared.
    rewrite Hdeclared.
    change (bids self !! i = Some x) in Hx.
    destruct i as [|[|i]].
    + injection Hx as <-. vm_compute in HP. discriminate.
    + reflexivity.
    + destruct (Hfirst 1%nat (lvl "bid" "99" "2")); [done|lia|done].
  - destruct (Hfeed (lvl "bid" "99" "0.0") eq_refl) as (Hz & Ht & Hu & Hs).
    destruct (updateBook_zero_quantity Decimal.parseFloat self _ _
                Hz Ht Hu Hs) as (_ & _ & Hkept).
    apply Hkept; [discriminate|].
    unfold BookSpec.present. simpl. rewrite !elem_of_cons. auto.
Defined.

(** The scenario of the specification: snapshot, removal of the only bid,
    a new bid. *)
Example top_of_book_scenario :
  let top b := OrderBook.createTopOfBook Decimal.parseFloat Decimal.dateGetTime
                 "BTCUSDT" b "0" in
  let b1 := OrderBook.updateBook Decimal.parseFloat {| bids := []; asks := [] |}
              (depth "snapshot" [lvl "bid" "100" "5"; lvl "offer" "101" "3"]) in
  let b2 := OrderBook.updateBook Decimal.parseFloat b1
              (depth "update" [lvl "bid" "100" "0"]) in
  let b3 := OrderBook.updateBook Decimal.parseFloat b2
              (depth "update" [lvl "bid" "99" "2"]) in
  (bidPrice <$> top b1, bidSize <$> top b1) = (Some (Num 100), Some (Num 5))
  /\ (askPrice <$> top b1, askSize <$> top b1) = (Some (Num 101), Some (Num 3))
  /\ bids b2 = [] /\ top b2 = None
  /\ bids b3 = [lvl "bid" "99" "2"]
  /\ (bidPrice <$> top b3, bidSize <$> top b3) = (Some (Num 99), Some (Num 2)).
Proof. repeat split. Qed.


(** An update of unknown side takes no part in [updateBook]. *)
Lemma filter_known_side (s : string) (l : list OkxMarketDepthLevel) :
  s = "bid" \/ s = "offer" ->
  filter (fun e => side e = s) (filter BookSpec.knownSide l)
  = filter (fun e => side e = s) l.
Proof.
  intros Hs. induction l as [|u l IH]; [done|].
  destruct (decide (BookSpec.knownSide u)) as [Hk|Hk].
  - rewrite (filter_cons_True BookSpec.knownSide) by done.
    rewrite !filter_cons, IH. reflexivity.
  - rewrite (filter_cons_False BookSpec.knownSide) by done.
    rewrite IH, filter_cons_False; [done|].
    intros Heq. apply Hk. unfold BookSpec.knownSide.
    destruct Hs; subst s; auto.
Qed.

Lemma updateBook_knownUpdates (parseFloat : string -> number) (self : Book)
    (ev : OkxMarketDepthEvent) :
  OrderBook.updateBook parseFloat self (knownUpdates ev)
  = OrderBook.updateBook parseFloat self ev.
Proof.
  unfold OrderBook.updateBook, knownUpdates. simpl.
  rewrite !filter_known_side by auto. reflexivity.
Qed.

(** C9 as stated fails: the update declares the side ["buy"]; the handler
    takes the message as any other of the books channel, leaves the book
    as it was, hands the top of book to the sink and logs no error. *)
Lemma onmessage_unknown_side_dropped :
  let self :=
    Public.setBook (Public.create "BTCUSDT")
      {| bids := [lvl "bid" "100" "5"]; asks := [lvl "offer" "101" "3"] |} in
  let u := lvl "buy" "99" "2" in
  let message :=
    {| event := "update"; channel := "books"; msg := ""; timestamp := "17";
       sequence_num := 1; data := MarketDepthData [depth "update" [u]] |} in
  ~ BookSpec.knownSide u
  /\ Public.onmessage Decimal.parseFloat Decimal.dateGetTime self (Some message)
     = (self,
        [OnMessage
           [OfTopOfBook
              {| tob_symbol := "BTCUSDT"; tob_connectorType := "Okx";
                 tob_event := "TopOfBook"; tob_timestamp := Num 17;
                 askPrice := Num 101; askSize := Num 3;
                 bidPrice := Num 100; bidSize := Num 5 |}]])
  /\ ~ Exists SessionSpec.isLogError
        (snd (Public.onmessage Decimal.parseFloat Decimal.dateGetTime self
                (Some message))).
Proof.
  split; [|split].
  - intros [H|H]; discriminate.
  - reflexivity.
  - intros H. vm_compute in H.
    apply Exists_cons in H as [H|H]; [done|]. by apply Exists_nil in H.
Qed.

(** C9, as amended.  An update whose side is neither ["bid"] nor
    ["offer"] is dropped without a sign: a message of the books channel
    leaves the book as its updates of known side alone would, and logs no
    error. *)
Theorem onmessage_drops_unknown_side (parseFloat dateGetTime : string -> number)
    (self : PublicConnector) (message : OkxEvent)
    (events : list OkxMarketDepthEvent) :
  event message <> "error" -> channel message = "books" ->
  data message = MarketDepthData events ->
  let result := Public.onmessage parseFloat dateGetTime self (Some message) in
  book (fst result)
  = fold_left (OrderBook.updateBook parseFloat) (knownUpdates <$> events)
      (book self)
  /\ Forall (fun e => ~ SessionSpec.isLogError e) (snd result).
Proof.
  intros Hev Hch Hdata result. subst result.
  unfold Public.onmessage, Public.getEventType.
  rewrite bool_decide_eq_false_2 by done. simpl.
  rewrite Hch. simpl.
  unfold Public.createSklEvent. rewrite Hdata. simpl.
  assert (fold_left (OrderBook.updateBook parseFloat) (knownUpdates <$> events)
            (book self)
          = fold_left (OrderBook.updateBook parseFloat) events (book self))
    as ->.
  { clear Hdata. generalize (book self).
    induction events as [|ev evs IH]; intros b.
    - reflexivity.
    - simpl. rewrite updateBook_knownUpdates. apply IH. }
  match goal with |- context [if ?c then _ else _] => destruct c end;
    simpl; (split; [reflexivity|]); repeat constructor; by intros [].
Qed.

Lemma onmessage_drops_unknown_side_witness :
  let self :=
    Public.setBook (Public.create "BTCUSDT")
      {| bids := [lvl "bid" "100" "5"]; asks := [lvl "offer" "101" "3"] |} in
  let events := [depth "update" [lvl "buy" "99" "2"; lvl "bid" "100" "0"]] in
  let message :=
    {| event := "update"; channel := "books"; msg := ""; timestamp := "17";
       sequence_num := 1; data := MarketDepthData events |} in
  let result :=
    Public.onmessage Decimal.parseFloat Decimal.dateGetTime self (Some message) in
  book (fst result)
  = fold_left (OrderBook.updateBook Decimal.parseFloat) (knownUpdates <$> events)
      (book self)
  /\ Forall (fun e => ~ SessionSpec.isLogError e) (snd result).
Proof.
  intros self events message.
  apply (onmessage_drops_unknown_side Decimal.parseFloat Decimal.dateGetTime
           self message events).
  - simpl. discriminate.
  - reflexivity.
  - reflexivity.
Defined.

(** ** The claims on the session *)

(** C5 as stated fails: the socket drops, its close handler schedules the
    reconnect, and [stop] is called while that timeout is pending.  The
    timeout is still pending after [stop]; it fires and opens socket 1. *)
Lemma stop_leaves_reconnect_pending :
  let run := Public.run Decimal.parseFloat Decimal.dateGetTime Sample.stringify in
  let before := run (Public.create "BTCUSDT") [CallConnect; WsOpen 0 false; WsClose 0] in
  let stopped := Public.stop Sample.stringify (fst before) false in
  let whole :=
    run (Public.create "BTCUSDT")
      [CallConnect; WsOpen 0 false; WsClose 0; CallStop false; TimeoutFired 0] in
  pendingTimeouts (fst before) = [0%nat]
  /\ pendingTimeouts (fst stopped) = [0%nat]
  /\ pendingTimeouts (fst (Public.stop Sample.stringify (fst before) true))
     = [0%nat]
  /\ snd stopped
     = [Send 0 (Sample.stringify Public.unsubscribeMessage); Close 0]
  /\ snd (Public.ontimeout (fst stopped) 0)
     = [NewWebSocket 1 Public.publicWebsocketAddress]
  /\ SessionSpec.reconnectsAfterStop (snd whole).
Proof.
  repeat split.
  exists [(CallConnect, [NewWebSocket 0 Public.publicWebsocketAddress]);
          (WsOpen 0 false,
           [Log "WebSocket opened";
            Send 0 (Sample.stringify Public.subscriptionMessage)]);
          (WsClose 0, [Log "WebSocket closed"; SetTimeout 0 1000])],
    false, [Send 0 (Sample.stringify Public.unsubscribeMessage); Close 0],
    [(TimeoutFired 0, [NewWebSocket 1 Public.publicWebsocketAddress])],
    0%nat, [NewWebSocket 1 Public.publicWebsocketAddress].
  split; [reflexivity|]. split.
  - apply list_elem_of_singleton. reflexivity.
  - apply Exists_cons. left. exact I.
Qed.

(** The same with a live socket: [stop] closes it, the close handler
    schedules the reconnect, and the timeout opens socket 1. *)
Lemma stop_then_close_reconnects :
  SessionSpec.reconnectsAfterStop
    (snd (Public.run Decimal.parseFloat Decimal.dateGetTime Sample.stringify
            (Public.create "BTCUSDT")
            [CallConnect; WsOpen 0 false; CallStop false; WsClose 0;
             TimeoutFired 0])).
Proof.
  exists [(CallConnect, [NewWebSocket 0 Public.publicWebsocketAddress]);
          (WsOpen 0 false,
           [Log "WebSocket opened";
            Send 0 (Sample.stringify Public.subscriptionMessage)])],
    false, [Send 0 (Sample.stringify Public.unsubscribeMessage); Close 0],
    [(WsClose 0, [Log "WebSocket closed"; SetTimeout 0 1000]);
     (TimeoutFired 0, [NewWebSocket 1 Public.publicWebsocketAddress])],
    0%nat, [NewWebSocket 1 Public.publicWebsocketAddress].
  split; [reflexivity|]. split.
  - apply elem_of_cons. right. apply list_elem_of_singleton. reflexivity.
  - apply Exists_cons. left. exact I.
Qed.

(** C5, as amended.  [stop] sends the unsubscribe message and then closes
    the socket (or logs the error of the send) and cancels nothing: a
    reconnect pending before [stop] is pending after it and, when it fires,
    calls [connect], which opens a new socket; and the close handler
    schedules a reconnect every time a socket closes. *)
Theorem stop_keeps_reconnect (JSON_stringify : json -> string)
    (self : PublicConnector) (sendThrows : bool) (t : nat) :
  t ∈ pendingTimeouts self ->
  let stopped := Public.stop JSON_stringify self sendThrows in
  fst stopped = self
  /\ (snd stopped = [LogError "Error during stop operation:"]
      \/ exists k, publicWebsocketFeed self = Some k
           /\ snd stopped
              = [Send k (JSON_stringify Public.unsubscribeMessage); Close k])
  /\ snd (Public.ontimeout (fst stopped) t)
     = [NewWebSocket (socketCount self) Public.publicWebsocketAddress]
  /\ snd (Public.onclose (fst stopped))
     = [Log "WebSocket closed"; SetTimeout (timeoutCount self) 1000]
  /\ timeoutCount self ∈ pendingTimeouts (fst (Public.onclose (fst stopped))).
Proof.
  intros Ht stopped.
  assert (fst stopped = self) as Hsame.
  { subst stopped. unfold Public.stop, Public.unsubscribeFromChannels,
      Public.feedSend.
    destruct (publicWebsocketFeed self); [destruct sendThrows|]; reflexivity. }
  split; [exact Hsame|]. rewrite Hsame. split; [|split; [|split]].
  - subst stopped. unfold Public.stop, Public.unsubscribeFromChannels,
      Public.feedSend.
    destruct (publicWebsocketFeed self) as [k|]; [destruct sendThrows|];
      simpl; eauto.
  - unfold Public.ontimeout. by rewrite bool_decide_eq_true_2.
  - reflexivity.
  - simpl. apply elem_of_app. right. by apply list_elem_of_singleton.
Qed.

Lemma stop_keeps_reconnect_witness :
  let self :=
    fst (Public.run Decimal.parseFloat Decimal.dateGetTime Sample.stringify
           (Public.create "BTCUSDT") [CallConnect; WsOpen 0 false; WsClose 0]) in
  let stopped := Public.stop Sample.stringify self false in
  fst stopped = self
  /\ (snd stopped = [LogError "Error during stop operation:"]
      \/ exists k, publicWebsocketFeed self = Some k
           /\ snd stopped
              = [Send k (Sample.stringify Public.unsubscribeMessage); Close k])
  /\ snd (Public.ontimeout (fst stopped) 0)
     = [NewWebSocket (socketCount self) Public.publicWebsocketAddress]
  /\ snd (Public.onclose (fst stopped))
     = [Log "WebSocket closed"; SetTimeout (timeoutCount self) 1000]
  /\ timeoutCount self ∈ pendingTimeouts (fst (Public.onclose (fst stopped))).
Proof.
  intros self.
  apply (stop_keeps_reconnect Sample.stringify self false 0).
  vm_compute. apply list_elem_of_singleton. reflexivity.
Defined.

Section PrivateSession.
Variable parseFloat : string -> number.
Variable parseInt : string -> number.
Variable OkxWSOrderUpdateStateMap : string -> option OrderState.
Variable OkxSideMap : string -> option Side.

(** The message handler of the private connector changes no state and
    sends nothing, whatever the frame. *)
Lemma onmessage_sends_nothing (self : PrivateConnector)
    (parsed : option OkxPrivateEvent) :
  let result :=
    Private.onmessage parseFloat parseInt OkxWSOrderUpdateStateMap OkxSideMap
      self parsed in
  fst result = self /\ Forall (fun e => ~ SessionSpec.isSend e) (snd result).
Proof.
  unfold Private.onmessage.
  destruct parsed as [okxEvent|]; [destruct (Private.getEventType okxEvent)|];
    simpl; (split; [reflexivity|]); repeat constructor; by intros [].
Qed.

End PrivateSession.

(** C6 as stated fails: the socket opens and the handler sends the login
    frame and, right after it, the subscribe frame; the venue has sent no
    frame yet, so no success signal either. *)
Lemma onopen_subscribes_before_any_reply :
  let self := Private.create "BTCUSDT" "BTCUSDT" Sample.credential in
  let now := 1700000000000%Z in
  let trace :=
    snd (Private.run Decimal.parseFloat Decimal.parseFloat Sample.stringify
           Sample.toString string Sample.HmacSHA256 Sample.Base64
           (fun _ => None) (fun _ => None) self
           [PrivateConnect; PrivateWsOpen 0 now false]) in
  trace
  = [(PrivateConnect, [NewWebSocket 0 Private.privateWebsocketAddress]);
     (PrivateWsOpen 0 now false,
      [SetInterval 0 5000;
       Send 0 (loginFrame Sample.stringify Sample.toString string
                 Sample.HmacSHA256 Sample.Base64 self now);
       Send 0 (subscribeFrame Sample.stringify)])]
  /\ SessionSpec.sentBeforeAnyFrame (subscribeFrame Sample.stringify) trace.
Proof.
  intros self now trace.
  assert (trace
          = [(PrivateConnect, [NewWebSocket 0 Private.privateWebsocketAddress]);
             (PrivateWsOpen 0 now false,
              [SetInterval 0 5000;
               Send 0 (loginFrame Sample.stringify Sample.toString string
                         Sample.HmacSHA256 Sample.Base64 self now);
               Send 0 (subscribeFrame Sample.stringify)])]) as Htrace
    by reflexivity.
  split; [exact Htrace|]. rewrite Htrace.
  exists [(PrivateConnect, [NewWebSocket 0 Private.privateWebsocketAddress])],
    (PrivateWsOpen 0 now false),
    [SetInterval 0 5000;
     Send 0 (loginFrame Sample.stringify Sample.toString string
               Sample.HmacSHA256 Sample.Base64 self now);
     Send 0 (subscribeFrame Sample.stringify)],
    [], 0%nat.
  split; [reflexivity|]. split.
  - repeat constructor; by intros [].
  - apply elem_of_cons. right. apply elem_of_cons. right.
    apply list_elem_of_singleton. reflexivity.
Qed.

(** C6, as amended.  On transport-open the private connector starts the
    ping timer, sends the signed login frame and then, in the same handler
    and without waiting for a reply, the private subscribe frame: the
    login always goes out before the subscribe, and no frame the venue
    sends makes the connector send anything. *)
Theorem onopen_login_then_subscribe
    (parseFloat parseInt : string -> number) (JSON_stringify : json -> string)
    (Number_toString : number -> string) (WordArray : Type)
    (HmacSHA256 : string -> string -> WordArray)
    (Base64_stringify : WordArray -> string)
    (OkxWSOrderUpdateStateMap : string -> option OrderState)
    (OkxSideMap : string -> option Side)
    (self : PrivateConnector) (now : Z) (k : nat) :
  privateWebsocketFeed self = Some k ->
  snd (Private.onopen JSON_stringify Number_toString WordArray HmacSHA256
         Base64_stringify self now false)
  = [SetInterval (timerCount self) 5000;
     Send k (loginFrame JSON_stringify Number_toString WordArray HmacSHA256
               Base64_stringify self now);
     Send k (subscribeFrame JSON_stringify)]
  /\ forall parsed,
       Forall (fun e => ~ SessionSpec.isSend e)
         (snd (Private.onmessage parseFloat parseInt OkxWSOrderUpdateStateMap
                 OkxSideMap self parsed)).
Proof.
  intros Hfeed. split.
  - unfold Private.onopen, Private.authenticate,
      Private.subscribeToPrivateChannels, Private.feedSend. simpl.
    rewrite Hfeed. reflexivity.
  - intros parsed. apply onmessage_sends_nothing.
Qed.

Lemma onopen_login_then_subscribe_witness :
  let self :=
    fst (Private.connect (Private.create "BTCUSDT" "BTCUSDT" Sample.credential)) in
  let now := 1700000000000%Z in
  snd (Private.onopen Sample.stringify Sample.toString string
         Sample.HmacSHA256 Sample.Base64 self now false)
  = [SetInterval (timerCount self) 5000;
     Send 0 (loginFrame Sample.stringify Sample.toString string
               Sample.HmacSHA256 Sample.Base64 self now);
     Send 0 (subscribeFrame Sample.stringify)]
  /\ forall parsed,
       Forall (fun e => ~ SessionSpec.isSend e)
         (snd (Private.onmessage Decimal.parseFloat Decimal.parseFloat
                 (fun _ => None) (fun _ => None) self parsed)).
Proof.
  intros self now.
  apply (onopen_login_then_subscribe Decimal.parseFloat Decimal.parseFloat
           Sample.stringify Sample.toString string Sample.HmacSHA256
           Sample.Base64 (fun _ => None) (fun _ => None) self now 0).
  reflexivity.
Defined.

(** ** The claims on batches and signed requests *)

Section Chunks.
Context {A : Type}.
Implicit Types (array : list A) (results : list (list A)).

Lemma chunk_count (m c : nat) :
  (0 < m)%nat -> (0 < c)%nat ->
  ((m + c - 1) / c = S ((m - c + c - 1) / c))%nat.
Proof.
  intros Hm Hc.
  replace (m + c - 1)%nat with (m - 1 + 1 * c)%nat by lia.
  rewrite Nat.div_add by lia.
  destruct (Nat.le_gt_cases c m) as [Hle|Hlt].
  - replace (m - c + c - 1)%nat with (m - 1)%nat by lia. lia.
  - replace (m - c + c - 1)%nat with (c - 1)%nat by lia.
    rewrite !Nat.div_small by lia. lia.
Qed.

(** With a positive chunk size the loop ends within [length array - i]
    turns, and what it adds to [results] cuts the rest of the array into
    consecutive pieces. *)
Lemma chunkLoop_chunks array (c : nat) :
  (0 < c)%nat ->
  forall (fuel i : nat) results,
    (length array - i <= fuel)%nat ->
    exists chunks,
      Private.chunkLoop fuel array c i results = Some (results ++ chunks)
      /\ concat chunks = drop i array
      /\ Forall (fun chunk => (length chunk <= c)%nat) chunks
      /\ length chunks = ((length array - i + c - 1) / c)%nat.
Proof.
  intros Hc fuel. induction fuel as [|fuel IH]; intros i results Hfuel.
  - exists []. simpl.
    destruct (Nat.ltb_spec i (length array)) as [Hlt|Hge]; [lia|].
    rewrite app_nil_r, drop_ge by lia.
    replace (length array - i)%nat with 0%nat by lia.
    rewrite Nat.div_small by lia. auto.
  - simpl. destruct (Nat.ltb_spec i (length array)) as [Hlt|Hge].
    + destruct (IH (i + c)%nat
                  (results ++ [Array.slice array i (i + c)])) as
        (chunks & Heq & Hcat & Hlen & Hcount); [lia|].
      exists (Array.slice array i (i + c) :: chunks).
      rewrite Heq, <- app_assoc. simpl.
      split; [reflexivity|]. split; [|split].
      * rewrite Hcat, slice_take_drop.
        rewrite <- drop_drop. apply take_drop.
      * constructor; [|done].
        rewrite slice_take_drop, length_take. lia.
      * rewrite Hcount.
        rewrite (chunk_count (length array - i) c) by lia.
        do 3 f_equal. lia.
    + exists []. rewrite app_nil_r, drop_ge by lia.
      replace (length array - i)%nat with 0%nat by lia.
      rewrite Nat.div_small by lia. auto.
Qed.

Lemma chunkArray_chunks array (c : nat) :
  (0 < c)%nat ->
  exists chunks,
    Private.chunkArray array c = Some chunks
    /\ concat chunks = array
    /\ Forall (fun chunk => (length chunk <= c)%nat) chunks
    /\ length chunks = ((length array + c - 1) / c)%nat.
Proof.
  intros Hc. unfold Private.chunkArray.
  destruct (chunkLoop_chunks array c Hc (length array) 0 []) as
    (chunks & Heq & Hcat & Hlen & Hcount); [lia|].
  exists chunks. rewrite Heq, Hcat, Hcount, Nat.sub_0_r. auto.
Qed.

(** A chunk size of [0] never advances the loop. *)
Lemma chunkArray_zero x array : Private.chunkArray (x :: array) 0 = None.
Proof.
  unfold Private.chunkArray. generalize (@nil (list A)).
  generalize (length (x :: array)) at 1.
  intros fuel. induction fuel as [|fuel IH]; intros results; simpl.
  - reflexivity.
  - apply IH.
Qed.

End Chunks.

Lemma append_empty (s : string) : s +:+ "" = s.
Proof.
  induction s as [|c s IH]; [reflexivity|].
  change (String c (s +:+ "") = String c s). by rewrite IH.
Qed.

Lemma concat_replicate_imap {A B : Type} (f : nat -> A -> list B) (x : B)
    (l : list A) :
  (forall k a, f k a = [x]) -> concat (imap f l) = replicate (length l) x.
Proof.
  revert f. induction l as [|a l IH]; intros f Hf; [done|].
  simpl. rewrite Hf. simpl. f_equal. apply IH. intros k b. apply Hf.
Qed.

Lemma concat_nil_imap {A B : Type} (f : nat -> A -> list B) (l : list A) :
  (forall k a, f k a = []) -> concat (imap f l) = [].
Proof.
  revert f. induction l as [|a l IH]; intros f Hf; [done|].
  simpl. rewrite Hf. simpl. apply IH. intros k b. apply Hf.
Qed.

Lemma imap_constant {A B : Type} (f : nat -> A -> B) (x : B) (l : list A) :
  (forall k a, f k a = x) -> imap f l = replicate (length l) x.
Proof.
  revert f. induction l as [|a l IH]; intros f Hf; [done|].
  simpl. rewrite Hf. f_equal. apply IH. intros k b. apply Hf.
Qed.

Lemma fmap_imap {A B C : Type} (g : B -> C) (f : nat -> A -> B) (l : list A) :
  g <$> imap f l = imap (fun k a => g (f k a)) l.
Proof.
  revert f. induction l as [|a l IH]; intros f; [done|].
  simpl. f_equal. apply IH.
Qed.

(** C7, at the code.  [placeOrders] reads [order.side] where no [order] is
    bound.  In a program that defines no global of that name the call
    throws on every request, whatever its orders: nothing is chunked,
    logged or handed to a client.  Were the identifier bound, the method
    would cut as the claim says: one message for each order, in the order
    of the input and carrying the quantity of that order, in [ceil(N/20)]
    batches of 20 entries at most whose concatenation is the sequence of
    the messages, and it would return after one [postRequest] for each
    batch. *)
Theorem placeOrders_rejects
    (JSON_stringify : json -> string) (Number_toString : number -> string)
    (toFixed : number -> nat -> string) (WordArray : Type)
    (HmacSHA256 : string -> string -> WordArray)
    (Base64_stringify : WordArray -> string)
    (self : PrivateConnector) (now : Z) (random : Q)
    (clock : nat -> Z) (request : BatchOrdersRequest) :
  let placeOrders globalOrder :=
    Private.placeOrders JSON_stringify Number_toString toFixed WordArray
      HmacSHA256 Base64_stringify self globalOrder now random clock request in
  let N := length (orders request) in
  placeOrders None
  = Some (Throws "ReferenceError: order is not defined", [], [])
  /\ forall order : Order,
       let messages := Private.placeOrdersMessages Number_toString toFixed
                         order now random request in
       exists batches,
         Private.placeOrdersBatches Number_toString toFixed order now random
           request = Some batches
         /\ length batches = ((N + 19) / 20)%nat
         /\ Forall (fun batch => (length batch <= 20)%nat) batches
         /\ concat batches = messages
         /\ length messages = N
         /\ (forall (k : nat) (o : Order),
               orders request !! k = Some o ->
               exists id side,
                 messages !! k
                 = Some (JObject
                           [("id", id); ("op", JString "order");
                            ("args",
                             JArray
                               [JObject
                                  [("side", side);
                                   ("instId", JString "BTC-USDT");
                                   ("tdMode", JString "cash");
                                   ("ordType", JString "market");
                                   ("sz", JString (toFixed (quantity o) 8))]])]))
         /\ placeOrders (Some order)
            = Some (Returns (replicate (length batches) None),
                    replicate (length batches) (Log "POST Error"), []).
Proof.
  intros placeOrders N. split; [reflexivity|].
  intros order messages.
  destruct (chunkArray_chunks messages Private.OkxMaxBatchSize) as
    (batches & Heq & Hcat & Hlen & Hcount);
    [unfold Private.OkxMaxBatchSize; lia|].
  assert (length messages = N) as HN.
  { subst messages N. unfold Private.placeOrdersMessages.
    apply length_fmap. }
  unfold Private.OkxMaxBatchSize in Hcount, Hlen. rewrite HN in Hcount.
  replace (N + 20 - 1)%nat with (N + 19)%nat in Hcount by lia.
  exists batches.
  split; [exact Heq|]. split; [exact Hcount|]. split; [exact Hlen|].
  split; [exact Hcat|]. split; [exact HN|]. split.
  - intros k o Ho. subst messages. unfold Private.placeOrdersMessages.
    rewrite list_lookup_fmap, Ho. simpl. eauto.
  - subst placeOrders. unfold Private.placeOrders.
    fold messages in Heq. unfold Private.placeOrdersBatches in Heq |- *.
    fold messages. rewrite Heq. simpl.
    rewrite !fmap_imap. simpl.
    rewrite (concat_replicate_imap _ (Log "POST Error")) by done.
    rewrite concat_nil_imap by done.
    by rewrite (imap_constant _ None).
Qed.

(** The failing input: a request of one order, in a program without a
    global [order]. *)
Lemma placeOrders_rejects_witness :
  let self := Private.create "BTCUSDT" "BTCUSDT" Sample.credential in
  let request := {| orders := [{| intent_side := "Buy"; quantity := Num 1 |}] |} in
  Private.placeOrders Sample.stringify Sample.toString
    (fun n _ => Sample.toString n) string Sample.HmacSHA256 Sample.Base64
    self None 1700000000000%Z 0%Q (fun _ => 1700000001000%Z) request
  = Some (Throws "ReferenceError: order is not defined", [], []).
Proof.
  intros self request.
  apply (proj1 (placeOrders_rejects Sample.stringify Sample.toString
                  (fun n _ => Sample.toString n) string Sample.HmacSHA256
                  Sample.Base64 self 1700000000000%Z 0%Q
                  (fun _ => 1700000001000%Z) request)).
Defined.


(** C10.  The signature of a GET request is computed over the timestamp,
    ["GET"] and the request path with an empty query string, whatever the
    params are: the query string is appended to the URL after signing and
    is no part of the signed message. *)
Theorem getRequest_signs_without_query
    (Number_toString : number -> string)
    (WordArray : Type) (HmacSHA256 : string -> string -> WordArray)
    (Base64_stringify : WordArray -> string)
    (URLSearchParams_toString : list (string * string) -> string)
    (self : PrivateConnector) (now : Z) (route : string)
    (params : list (string * string)) :
  let get := Private.getRequest Number_toString WordArray HmacSHA256
               Base64_stringify URLSearchParams_toString self now route in
  let timestamp := Number_toString (Num (inject_Z (now / 1000))) in
  let requestPath := "/api/v5" +:+ route in
  Private.header "OK-ACCESS-SIGN" (get params)
  = Some (Base64_stringify
            (HmacSHA256 (timestamp +:+ "GET" +:+ requestPath +:+ "")
               (secret (credential self))))
  /\ Private.header "OK-ACCESS-SIGN" (get params)
     = Private.header "OK-ACCESS-SIGN" (get [])
  /\ Private.header "OK-ACCESS-TIMESTAMP" (get params) = Some timestamp
  /\ url (get params)
     = Private.restUrl +:+ requestPath
       +:+ match params with
           | [] => ""
           | _ :: _ => "?" +:+ URLSearchParams_toString params
           end.
Proof.
  intros get timestamp requestPath. subst get timestamp requestPath.
  repeat split. destruct params; reflexivity.
Qed.

(** * Further properties *)

(** ** The order book under deltas *)

Section BookMore.
Variable parseFloat : string -> number.
Implicit Types (l : list OkxMarketDepthLevel) (e u : OkxMarketDepthLevel).

Lemma applyLevel_elem_of cmp l e x :
  x ∈ OrderBook.applyLevel parseFloat cmp l e -> x ∈ l \/ x = e.
Proof.
  destruct (findIndex_cases (fun y => price_level y = price_level e) l)
    as [[_ Habs]|(i & y & _ & Hy & HP & Hfirst)].
  - rewrite applyLevel_absent by done.
    destruct (Number.gt0 (parseFloat (new_quantity e))); [|by left].
    rewrite sort_Permutation, elem_of_cons. tauto.
  - rewrite (applyLevel_present parseFloat cmp l e i y) by done.
    destruct (bool_decide (new_quantity e = "0")); [|by left].
    intros Hx. left. by apply list_elem_of_delete_inv in Hx.
Qed.

(** What [applyLevel] lets into a side is the update itself, and only with
    a positive quantity. *)
Lemma applyLevel_Forall (P : OkxMarketDepthLevel -> Prop) cmp l e :
  Forall P l ->
  (Number.gt0 (parseFloat (new_quantity e)) = true -> P e) ->
  Forall P (OrderBook.applyLevel parseFloat cmp l e).
Proof.
  intros Hl He.
  destruct (findIndex_cases (fun y => price_level y = price_level e) l)
    as [[_ Habs]|(i & y & _ & Hy & HP & Hfirst)].
  - rewrite applyLevel_absent by done.
    destruct (Number.gt0 (parseFloat (new_quantity e))); [|done].
    rewrite sort_Permutation. constructor; auto.
  - rewrite (applyLevel_present parseFloat cmp l e i y) by done.
    destruct (bool_decide (new_quantity e = "0")); [|done].
    apply Forall_forall. intros x Hx. apply list_elem_of_delete_inv in Hx.
    rewrite Forall_forall in Hl. auto.
Qed.

Lemma fold_applyLevel_Forall (P : OkxMarketDepthLevel -> Prop) cmp us l :
  Forall P l ->
  Forall (fun e => Number.gt0 (parseFloat (new_quantity e)) = true -> P e) us ->
  Forall P (fold_left (OrderBook.applyLevel parseFloat cmp) us l).
Proof.
  intros Hl Hus. revert l Hl.
  induction Hus as [|e us He Hus IH]; intros l Hl; simpl; [done|].
  apply IH. by apply applyLevel_Forall.
Qed.

Lemma filter_other_side (s t : string) l :
  s <> t ->
  filter (fun e => side e = s) (filter (fun e => side e = t) l) = [].
Proof.
  intros Hne. induction l as [|x l IH]; [done|].
  rewrite (filter_cons (fun e => side e = t)).
  destruct (decide (side x = t)) as [Hx|Hx]; [|done].
  rewrite filter_cons_False by congruence. exact IH.
Qed.

Lemma filter_same_side (s : string) l :
  filter (fun e => side e = s) (filter (fun e => side e = s) l)
  = filter (fun e => side e = s) l.
Proof.
  induction l as [|x l IH]; [done|].
  rewrite (filter_cons (fun e => side e = s) x l).
  destruct (decide (side x = s)) as [Hx|Hx]; [|done].
  rewrite filter_cons_True by done. by rewrite IH.
Qed.

End BookMore.

(** X1.  The updates of a delta are applied one after the other: a delta
    whose updates are [l1 ++ l2] does to the book what the delta of [l1]
    followed by the delta of [l2] does. *)
Theorem updateBook_delta_app (parseFloat : string -> number) (self : Book)
    (ev : OkxMarketDepthEvent) (l1 l2 : list OkxMarketDepthLevel) :
  type ev <> "snapshot" ->
  OrderBook.updateBook parseFloat self (withUpdates ev (l1 ++ l2))
  = OrderBook.updateBook parseFloat
      (OrderBook.updateBook parseFloat self (withUpdates ev l1))
      (withUpdates ev l2).
Proof.
  intros Ht. rewrite !updateBook_delta by done. simpl.
  by rewrite !filter_app, !fold_left_app.
Qed.

Lemma updateBook_delta_app_witness :
  let self := {| bids := [lvl "bid" "100" "5"]; asks := [lvl "offer" "101" "3"] |} in
  let ev := depth "update" [] in
  let l1 := [lvl "bid" "99" "2"; lvl "offer" "101" "0"] in
  let l2 := [lvl "offer" "102" "1"; lvl "bid" "100" "0"] in
  OrderBook.updateBook Decimal.parseFloat self (withUpdates ev (l1 ++ l2))
  = OrderBook.updateBook Decimal.parseFloat
      (OrderBook.updateBook Decimal.parseFloat self (withUpdates ev l1))
      (withUpdates ev l2).
Proof.
  intros self ev l1 l2.
  apply (updateBook_delta_app Decimal.parseFloat self ev l1 l2).
  simpl. discriminate.
Defined.

(** X2.  The two sides of the book do not see each other's updates: a delta
    does what its bid updates followed by its ask updates do, and what its
    ask updates followed by its bid updates do. *)
Theorem updateBook_sides_commute (parseFloat : string -> number) (self : Book)
    (ev : OkxMarketDepthEvent) :
  type ev <> "snapshot" ->
  let bidUpdates := withUpdates ev (filter (fun e => side e = "bid") (updates ev)) in
  let askUpdates := withUpdates ev (filter (fun e => side e = "offer") (updates ev)) in
  OrderBook.updateBook parseFloat self ev
  = OrderBook.updateBook parseFloat
      (OrderBook.updateBook parseFloat self bidUpdates) askUpdates
  /\ OrderBook.updateBook parseFloat self ev
     = OrderBook.updateBook parseFloat
         (OrderBook.updateBook parseFloat self askUpdates) bidUpdates.
Proof.
  intros Ht bidUpdates askUpdates. subst bidUpdates askUpdates.
  rewrite !updateBook_delta by done. simpl.
  rewrite !filter_same_side.
  rewrite (filter_other_side "offer" "bid") by done.
  rewrite (filter_other_side "bid" "offer") by done.
  done.
Qed.

Lemma updateBook_sides_commute_witness :
  let self := {| bids := [lvl "bid" "100" "5"]; asks := [lvl "offer" "101" "3"] |} in
  let ev := depth "update"
              [lvl "offer" "102" "1"; lvl "bid" "99" "2"; lvl "offer" "101" "0"] in
  let bidUpdates := withUpdates ev (filter (fun e => side e = "bid") (updates ev)) in
  let askUpdates := withUpdates ev (filter (fun e => side e = "offer") (updates ev)) in
  OrderBook.updateBook Decimal.parseFloat self ev
  = OrderBook.updateBook Decimal.parseFloat
      (OrderBook.updateBook Decimal.parseFloat self bidUpdates) askUpdates
  /\ OrderBook.updateBook Decimal.parseFloat self ev
     = OrderBook.updateBook Decimal.parseFloat
         (OrderBook.updateBook Decimal.parseFloat self askUpdates) bidUpdates.
Proof.
  intros self ev.
  apply (updateBook_sides_commute Decimal.parseFloat self ev).
  simpl. discriminate.
Defined.

(** X3.  A delta update with a positive quantity at a price that has no
    entry on the declared side adds that update and nothing else: the side
    afterwards holds the update and the entries it held, each once more
    than before for the update and as often as before for the others, and
    the other side is unchanged. *)
Theorem updateBook_insert (parseFloat : string -> number) (self : Book)
    (ev : OkxMarketDepthEvent) (u : OkxMarketDepthLevel) :
  type ev <> "snapshot" -> updates ev = [u] -> BookSpec.knownSide u ->
  Number.gt0 (parseFloat (new_quantity u)) = true ->
  ~ BookSpec.present u (BookSpec.declared u self) ->
  let self' := OrderBook.updateBook parseFloat self ev in
  BookSpec.declared u self' ≡ₚ u :: BookSpec.declared u self
  /\ BookSpec.opposite u self' = BookSpec.opposite u self.
Proof.
  intros Ht Hu Hside Hpos Habs self'. subst self'.
  unfold BookSpec.declared, BookSpec.opposite in *.
  destruct Hside as [Hs|Hs].
  - rewrite !bool_decide_eq_true_2 in * by done.
    rewrite (updateBook_bid parseFloat _ ev u) by done. simpl.
    apply absent_Forall in Habs.
    rewrite applyLevel_absent, Hpos by done.
    split; [apply sort_Permutation|done].
  - rewrite !bool_decide_eq_false_2 in * by (rewrite Hs; done).
    rewrite (updateBook_offer parseFloat _ ev u) by done. simpl.
    apply absent_Forall in Habs.
    rewrite applyLevel_absent, Hpos by done.
    split; [apply sort_Permutation|done].
Qed.

Lemma updateBook_insert_witness :
  let self := {| bids := [lvl "bid" "100" "5"]; asks := [lvl "offer" "101" "3"] |} in
  let u := lvl "offer" "100.5" "1" in
  let self' := OrderBook.updateBook Decimal.parseFloat self (depth "update" [u]) in
  BookSpec.declared u self' ≡ₚ u :: BookSpec.declared u self
  /\ BookSpec.opposite u self' = BookSpec.opposite u self.
Proof.
  intros self u.
  apply (updateBook_insert Decimal.parseFloat self (depth "update" [u]) u).
  - simpl. discriminate.
  - reflexivity.
  - right. reflexivity.
  - reflexivity.
  - vm_compute. intros H. apply list_elem_of_singleton in H. discriminate.
Defined.

(** X4.  Each side of the book holds levels of its own side only: the
    bids are levels declared ["bid"] and the asks levels declared
    ["offer"], after any sequence of snapshots and deltas. *)
Theorem updateBook_sided (parseFloat : string -> number) (self : Book)
    (events : list OkxMarketDepthEvent) :
  BookInv.sided self ->
  BookInv.sided (fold_left (OrderBook.updateBook parseFloat) events self).
Proof.
  revert self. induction events as [|ev events IH]; intros self Hself; [done|].
  simpl. apply IH. destruct Hself as [Hb Ha].
  destruct (decide (type ev = "snapshot")) as [Ht|Ht].
  - rewrite updateBook_snapshot by done.
    split; simpl; apply Forall_forall; intros x Hx;
      by apply list_elem_of_filter in Hx as [Hx _].
  - rewrite updateBook_delta by done.
    split; simpl; (apply fold_applyLevel_Forall; [done|]);
      apply Forall_forall; intros x Hx _;
      by apply list_elem_of_filter in Hx as [Hx _].
Qed.

Lemma updateBook_sided_witness :
  BookInv.sided
    (fold_left (OrderBook.updateBook Decimal.parseFloat)
       [depth "snapshot" [lvl "bid" "100" "5"; lvl "offer" "101" "3"];
        depth "update" [lvl "offer" "100.5" "1"; lvl "buy" "99" "1"]]
       {| bids := []; asks := [] |}).
Proof.
  apply updateBook_sided. split; simpl; constructor.
Defined.

(** X5.  The deltas bring no entry without a positive quantity into the
    book: when the entries of the book have positive quantities and every
    snapshot of the feed carries positive quantities only, the entries of
    the book have positive quantities after the whole feed. *)
Theorem updateBook_positive (parseFloat : string -> number) (self : Book)
    (events : list OkxMarketDepthEvent) :
  Forall (fun ev => type ev = "snapshot" ->
                    Forall (BookInv.positive parseFloat) (updates ev)) events ->
  BookInv.allPositive parseFloat self ->
  BookInv.allPositive parseFloat
    (fold_left (OrderBook.updateBook parseFloat) events self).
Proof.
  intros Hevents. revert self.
  induction Hevents as [|ev events Hev Hevents IH]; intros self Hself; [done|].
  simpl. apply IH. destruct Hself as [Hb Ha].
  destruct (decide (type ev = "snapshot")) as [Ht|Ht].
  - rewrite updateBook_snapshot by done.
    split; simpl; apply Forall_filter_of; auto.
  - rewrite updateBook_delta by done.
    split; simpl; (apply fold_applyLevel_Forall; [done|]);
      apply Forall_forall; intros x _ Hx; exact Hx.
Qed.

Lemma updateBook_positive_witness :
  BookInv.allPositive Decimal.parseFloat
    (fold_left (OrderBook.updateBook Decimal.parseFloat)
       [depth "snapshot" [lvl "bid" "100" "5"; lvl "offer" "101" "3"];
        depth "update" [lvl "offer" "100.5" "0"; lvl "bid" "99" "-1";
                        lvl "bid" "98" "0.5"]]
       {| bids := []; asks := [] |}).
Proof.
  apply updateBook_positive.
  - apply Forall_cons_2.
    + intros _. simpl.
      repeat (apply Forall_cons_2; [reflexivity|]). apply Forall_nil_2.
    + apply Forall_cons_2; [|apply Forall_nil_2].
      intros Ht. discriminate Ht.
  - split; simpl; constructor.
Defined.

(** A snapshot is stored with the quantities it carries, positive or not. *)
Lemma updateBook_snapshot_stores_zero :
  let b := OrderBook.updateBook Decimal.parseFloat {| bids := []; asks := [] |}
             (depth "snapshot" [lvl "bid" "100" "0"]) in
  bids b = [lvl "bid" "100" "0"] /\ ~ BookInv.allPositive Decimal.parseFloat b.
Proof.
  split; [reflexivity|]. intros [Hb _]. simpl in Hb.
  apply Forall_cons in Hb as [Hb _]. discriminate Hb.
Qed.

Section Replay.
Variable parseFloat : string -> number.
Hypothesis zero_not_positive : Number.gt0 (parseFloat "0") = false.
Implicit Types (l : list OkxMarketDepthLevel) (e u : OkxMarketDepthLevel).

Lemma NoDup_delete_absent l (i : nat) x :
  NoDup (price_level <$> l) -> l !! i = Some x ->
  Forall (fun y => price_level y <> price_level x) (delete i l).
Proof.
  intros Hnd Hx.
  rewrite <- (take_drop_middle l i x Hx) in Hnd.
  rewrite fmap_app, fmap_cons in Hnd.
  apply NoDup_app in Hnd as (_ & Hdisj & Hnd).
  apply NoDup_cons in Hnd as [Hnotin _].
  rewrite delete_take_drop. apply Forall_app. split.
  - apply Forall_forall. intros y Hy Heq.
    apply (Hdisj (price_level y)); [by apply list_elem_of_fmap_2|].
    rewrite Heq. apply elem_of_cons. by left.
  - apply Forall_forall. intros y Hy Heq. apply Hnotin.
    rewrite <- Heq. by apply list_elem_of_fmap_2.
Qed.

(** One side: the same update a second time changes nothing. *)
Lemma applyLevel_twice cmp l e :
  NoDup (price_level <$> l) ->
  OrderBook.applyLevel parseFloat cmp
    (OrderBook.applyLevel parseFloat cmp l e) e
  = OrderBook.applyLevel parseFloat cmp l e.
Proof.
  intros Hnd.
  destruct (findIndex_cases (fun y => price_level y = price_level e) l)
    as [[_ Habs]|(i & y & _ & Hy & HP & Hfirst)].
  - rewrite (applyLevel_absent parseFloat cmp l e) by done.
    destruct (Number.gt0 (parseFloat (new_quantity e))) eqn:Hpos.
    + assert (BookSpec.present e (Array.sort cmp (e :: l))) as Hpresent.
      { unfold BookSpec.present. apply list_elem_of_fmap_2.
        rewrite sort_Permutation. apply elem_of_cons. by left. }
      apply present_first in Hpresent as (i & x & Hx & HP & Hfirst).
      rewrite (applyLevel_present parseFloat cmp _ e i x) by done.
      rewrite bool_decide_eq_false_2; [done|]. intros Hq. congruence.
    + by rewrite applyLevel_absent, Hpos.
  - rewrite (applyLevel_present parseFloat cmp l e i y) by done.
    destruct (bool_decide (new_quantity e = "0")) eqn:Hq.
    + apply bool_decide_eq_true_1 in Hq.
      rewrite applyLevel_absent.
      * by rewrite Hq, zero_not_positive.
      * rewrite <- HP. by apply NoDup_delete_absent.
    + rewrite (applyLevel_present parseFloat cmp l e i y) by done.
      by rewrite Hq.
Qed.

End Replay.

(** X6.  A delta update that arrives twice does what it does once: on a
    side that holds each price once, the second application of the same
    update leaves the book as the first one left it. *)
Theorem updateBook_replay (parseFloat : string -> number) (self : Book)
    (ev : OkxMarketDepthEvent) (u : OkxMarketDepthLevel) :
  Number.gt0 (parseFloat "0") = false ->
  type ev <> "snapshot" -> updates ev = [u] -> BookSpec.knownSide u ->
  NoDup (price_level <$> BookSpec.declared u self) ->
  OrderBook.updateBook parseFloat (OrderBook.updateBook parseFloat self ev) ev
  = OrderBook.updateBook parseFloat self ev.
Proof.
  intros Hzero Ht Hu Hside Hnd. unfold BookSpec.declared in Hnd.
  destruct Hside as [Hs|Hs].
  - rewrite bool_decide_eq_true_2 in Hnd by done.
    rewrite !(updateBook_bid parseFloat _ ev u) by done. simpl.
    by rewrite applyLevel_twice.
  - rewrite bool_decide_eq_false_2 in Hnd by (rewrite Hs; done).
    rewrite !(updateBook_offer parseFloat _ ev u) by done. simpl.
    by rewrite applyLevel_twice.
Qed.

Lemma updateBook_replay_witness :
  let self := {| bids := [lvl "bid" "100" "5"; lvl "bid" "99" "2"];
                 asks := [lvl "offer" "101" "3"] |} in
  let ev := depth "update" [lvl "bid" "99" "0"] in
  OrderBook.updateBook Decimal.parseFloat
    (OrderBook.updateBook Decimal.parseFloat self ev) ev
  = OrderBook.updateBook Decimal.parseFloat self ev.
Proof.
  intros self ev.
  apply (updateBook_replay Decimal.parseFloat self ev (lvl "bid" "99" "0")).
  - reflexivity.
  - simpl. discriminate.
  - reflexivity.
  - left. reflexivity.
  - vm_compute. repeat constructor.
    + intros H. apply list_elem_of_singleton in H. discriminate.
    + intros H. by apply elem_of_nil in H.
Defined.

(** On a side that holds a price twice the second application removes the
    second entry. *)
Lemma updateBook_replay_duplicate_price :
  let self := {| bids := [lvl "bid" "100" "5"; lvl "bid" "100" "4"]; asks := [] |} in
  let ev := depth "update" [lvl "bid" "100" "0"] in
  bids (OrderBook.updateBook Decimal.parseFloat self ev) = [lvl "bid" "100" "4"]
  /\ bids (OrderBook.updateBook Decimal.parseFloat
             (OrderBook.updateBook Decimal.parseFloat self ev) ev) = [].
Proof. split; reflexivity. Qed.

Section RoundTrip.
Variable parseFloat : string -> number.
Implicit Types (l : list OkxMarketDepthLevel) (e u : OkxMarketDepthLevel).

(** One side in the order of its comparator: a new price goes in and the
    removal of that price takes the same entry out. *)
Lemma applyLevel_insert_remove cmp l u :
  Array.sort cmp l = l ->
  Number.gt0 (parseFloat (new_quantity u)) = true ->
  Forall (fun x => price_level x <> price_level u) l ->
  OrderBook.applyLevel parseFloat cmp
    (OrderBook.applyLevel parseFloat cmp l u) (removalOf u)
  = l.
Proof.
  intros Hsorted Hpos Habs.
  rewrite (applyLevel_absent parseFloat cmp l u), Hpos by done.
  simpl. rewrite Hsorted.
  destruct (sort_insert_delete cmp u l) as (i & Hi & Htake & Hdel).
  rewrite (applyLevel_present parseFloat cmp _ (removalOf u) i u); try done.
  intros j y Hy Hj. simpl.
  assert (take i (Array.sort_insert cmp u l) !! j = Some y) as Hin
    by (by rewrite lookup_take_lt).
  rewrite Htake in Hin. apply list_elem_of_lookup_2 in Hin.
  apply elem_of_take in Hin as (k & Hk & _).
  apply list_elem_of_lookup_2 in Hk.
  rewrite Forall_forall in Habs. auto.
Qed.

End RoundTrip.

(** X7.  Adding a price level and removing it again gives the book back:
    on an ordered book, the delta that brings a new price with a positive
    quantity followed by the delta that carries the quantity ["0"] for that
    price leaves the book as it was. *)
Theorem updateBook_insert_remove (parseFloat : string -> number) (self : Book)
    (ev : OkxMarketDepthEvent) (u : OkxMarketDepthLevel) :
  type ev <> "snapshot" -> BookSpec.knownSide u ->
  BookSpec.ordered parseFloat self ->
  Number.gt0 (parseFloat (new_quantity u)) = true ->
  ~ BookSpec.present u (BookSpec.declared u self) ->
  OrderBook.updateBook parseFloat
    (OrderBook.updateBook parseFloat self (withUpdates ev [u]))
    (withUpdates ev [removalOf u])
  = self.
Proof.
  intros Ht Hside (_ & Hbids & _ & Hasks) Hpos Habs.
  unfold BookSpec.declared in Habs. destruct self as [bs as_]. simpl in *.
  destruct Hside as [Hs|Hs].
  - rewrite bool_decide_eq_true_2 in Habs by done.
    rewrite (updateBook_bid parseFloat _ (withUpdates ev [u]) u) by done.
    rewrite (updateBook_bid parseFloat _ (withUpdates ev [removalOf u])
               (removalOf u)) by done.
    simpl. f_equal. apply applyLevel_insert_remove; [|done|].
    + apply (sort_sorted _ (BookSpec.descending parseFloat)
               (compareBids_before parseFloat)).
      apply Sorted_StronglySorted; [apply descending_trans|done].
    + by apply absent_Forall.
  - rewrite bool_decide_eq_false_2 in Habs by (rewrite Hs; done).
    rewrite (updateBook_offer parseFloat _ (withUpdates ev [u]) u) by done.
    rewrite (updateBook_offer parseFloat _ (withUpdates ev [removalOf u])
               (removalOf u)) by done.
    simpl. f_equal. apply applyLevel_insert_remove; [|done|].
    + apply (sort_sorted _ (BookSpec.ascending parseFloat)
               (compareAsks_before parseFloat)).
      apply Sorted_StronglySorted; [apply ascending_trans|done].
    + by apply absent_Forall.
Qed.

Lemma updateBook_insert_remove_witness :
  let self := {| bids := [lvl "bid" "100" "5"; lvl "bid" "98" "2"];
                 asks := [lvl "offer" "101" "3"] |} in
  let ev := depth "update" [] in
  let u := lvl "bid" "99" "7" in
  OrderBook.updateBook Decimal.parseFloat
    (OrderBook.updateBook Decimal.parseFloat self (withUpdates ev [u]))
    (withUpdates ev [removalOf u])
  = self.
Proof.
  intros self ev u.
  apply (updateBook_insert_remove Decimal.parseFloat self ev u).
  - simpl. discriminate.
  - left. reflexivity.
  - unfold BookSpec.ordered. simpl. repeat split.
    + repeat constructor.
      * intros H. apply list_elem_of_singleton in H. discriminate.
      * intros H. by apply elem_of_nil in H.
    + repeat constructor.
    + repeat constructor. intros H. by apply elem_of_nil in H.
    + repeat constructor.
  - reflexivity.
  - vm_compute. intros H.
    apply elem_of_cons in H as [H|H]; [discriminate|].
    apply list_elem_of_singleton in H. discriminate.
Defined.

(** X8.  On an ordered book the top of book is the best of each side: the
    bid price it reports is strictly above the price of every other bid and
    the ask price strictly below the price of every other ask. *)
Theorem createTopOfBook_best (parseFloat dateGetTime : string -> number)
    (sklSymbol : string) (self : Book) (timestamp : string) (top : TopOfBook) :
  BookSpec.ordered parseFloat self ->
  OrderBook.createTopOfBook parseFloat dateGetTime sklSymbol self timestamp
  = Some top ->
  Forall (fun x => Number.lt (parseFloat (price_level x)) (bidPrice top))
    (drop 1 (bids self))
  /\ Forall (fun x => Number.lt (askPrice top) (parseFloat (price_level x)))
       (drop 1 (asks self)).
Proof.
  intros (_ & Hbids & _ & Hasks) Htop.
  apply Sorted_StronglySorted in Hbids; [|apply descending_trans].
  apply Sorted_StronglySorted in Hasks; [|apply ascending_trans].
  unfold OrderBook.createTopOfBook in Htop.
  destruct (bids self) as [|bid0 bs], (asks self) as [|ask0 as_];
    simpl in Htop; try discriminate.
  injection Htop as <-. simpl.
  apply StronglySorted_inv in Hbids as [_ Hbids].
  apply StronglySorted_inv in Hasks as [_ Hasks].
  split; [exact Hbids|exact Hasks].
Qed.

Lemma createTopOfBook_best_witness :
  let self := {| bids := [lvl "bid" "100" "5"; lvl "bid" "98" "2"];
                 asks := [lvl "offer" "101" "3"; lvl "offer" "103" "1"] |} in
  exists top,
    OrderBook.createTopOfBook Decimal.parseFloat Decimal.dateGetTime "BTCUSDT"
      self "17" = Some top
    /\ Forall (fun x => Number.lt (Decimal.parseFloat (price_level x))
                          (bidPrice top)) (drop 1 (bids self))
    /\ Forall (fun x => Number.lt (askPrice top)
                          (Decimal.parseFloat (price_level x)))
         (drop 1 (asks self)).
Proof.
  intros self. eexists. split; [reflexivity|].
  apply (createTopOfBook_best Decimal.parseFloat Decimal.dateGetTime "BTCUSDT"
           self "17").
  - unfold BookSpec.ordered. simpl. repeat split.
    + repeat constructor.
      * intros H. apply list_elem_of_singleton in H. discriminate.
      * intros H. by apply elem_of_nil in H.
    + repeat constructor.
    + repeat constructor.
      * intros H. apply list_elem_of_singleton in H. discriminate.
      * intros H. by apply elem_of_nil in H.
    + repeat constructor.
  - reflexivity.
Defined.

(** ** The message handler of the public connector *)

#[local] Ltac handler_cases :=
  repeat match goal with
  | |- context [bool_decide ?P] => destruct (bool_decide P) eqn:?; simpl
  | |- context [match ?d with MarketDepthData _ => _ | _ => _ end] =>
      destruct d as [[|? ?]|[|? ?]|[|? ?]]; simpl
  | |- context [if (0 <? length ?l)%nat then _ else _] =>
      destruct l; simpl
  end.

(** X9.  Whatever the frame, the message handler of the public connector
    only logs and calls the sink: it never calls the sink with an empty
    array, and it touches neither the socket nor a timer, so no frame of
    the venue (an error event included) starts a reconnect. *)
Theorem onmessage_effects (parseFloat dateGetTime : string -> number)
    (self : PublicConnector) (parsed : option OkxEvent) :
  let result := Public.onmessage parseFloat dateGetTime self parsed in
  Forall HandlerSpec.isQuiet (snd result)
  /\ Forall HandlerSpec.sinkNotEmpty (snd result)
  /\ publicWebsocketFeed (fst result) = publicWebsocketFeed self
  /\ socketCount (fst result) = socketCount self
  /\ pendingTimeouts (fst result) = pendingTimeouts self
  /\ timeoutCount (fst result) = timeoutCount self.
Proof.
  destruct parsed as [message|]; simpl; [|by repeat constructor].
  unfold Public.onmessage, Public.getEventType, Public.createSklEvent,
    Public.asMarketDepth, Public.asTrades, Public.asTickers.
  handler_cases; repeat split; repeat constructor.
Qed.

(** X10.  A frame that cannot be parsed, an error event of the venue and a
    frame of another channel than the books leave the connector, its book
    included, as it was. *)
Theorem onmessage_inert (parseFloat dateGetTime : string -> number)
    (self : PublicConnector) (parsed : option OkxEvent) :
  HandlerSpec.inert parsed ->
  fst (Public.onmessage parseFloat dateGetTime self parsed) = self.
Proof.
  destruct parsed as [message|]; simpl; [|done].
  unfold Public.onmessage, Public.getEventType, Public.createSklEvent.
  intros [Herr|Hch].
  - rewrite !bool_decide_eq_true_2 by done. done.
  - rewrite (bool_decide_eq_false_2 (channel message = "books")) by done.
    repeat case_match; simplify_eq/=; try done;
      repeat match goal with
      | H : _ ≫= _ = Some _ |- _ => apply bind_Some in H as (? & ? & ?)
      end; by simplify_eq/=.
Qed.

(** An error event of the books channel, and a trades frame, on a connector
    that holds a book. *)
Lemma onmessage_inert_witness :
  let self :=
    Public.setBook (Public.create "BTCUSDT")
      {| bids := [lvl "bid" "100" "5"]; asks := [lvl "offer" "101" "3"] |} in
  let failure :=
    {| event := "error"; channel := "books"; msg := "rate limit";
       timestamp := "17"; sequence_num := 1;
       data := MarketDepthData [depth "update" [lvl "bid" "100" "0"]] |} in
  let trades :=
    {| event := "update"; channel := "trades"; msg := "";
       timestamp := "17"; sequence_num := 2;
       data := MarketDepthData [depth "update" [lvl "bid" "100" "0"]] |} in
  fst (Public.onmessage Decimal.parseFloat Decimal.dateGetTime self
         (Some failure)) = self
  /\ fst (Public.onmessage Decimal.parseFloat Decimal.dateGetTime self
            (Some trades)) = self.
Proof.
  intros self failure trades. split.
  - apply (onmessage_inert Decimal.parseFloat Decimal.dateGetTime self
             (Some failure)).
    left. reflexivity.
  - apply (onmessage_inert Decimal.parseFloat Decimal.dateGetTime self
             (Some trades)).
    right. simpl. discriminate.
Defined.

Section Trades.
Variable parseFloat : string -> number.
Variable dateGetTime : string -> number.
Variable self : PublicConnector.

Lemma trades_of_event (ts : list OkxTrade) :
  omap id
    (filter (fun m : option Serializable => m <> None)
       (fmap OfTrade <$>
          filter (fun t : option Trade => t <> None)
            (Public.createTrade parseFloat dateGetTime self <$> ts)))
  = OfTrade <$> omap (Public.createTrade parseFloat dateGetTime self) ts.
Proof.
  induction ts as [|t ts IHt]; [done|].
  rewrite fmap_cons.
  rewrite (filter_cons_True (fun t : option Trade => t <> None)) by done.
  rewrite fmap_cons.
  rewrite (filter_cons_True (fun m : option Serializable => m <> None)) by done.
  simpl. f_equal. exact IHt.
Qed.

Lemma trades_flattened (events : list OkxTradeEvent) :
  omap id
    (filter (fun m : option Serializable => m <> None)
       (events ≫= (fun e =>
          fmap OfTrade <$>
            filter (fun t : option Trade => t <> None)
              (Public.createTrade parseFloat dateGetTime self <$> trades e))))
  = OfTrade <$>
      omap (Public.createTrade parseFloat dateGetTime self)
        (concat (trades <$> events)).
Proof.
  induction events as [|e events IH]; [done|].
  rewrite fmap_cons. simpl concat. rewrite omap_app, fmap_app, <- IH.
  rewrite bind_cons, filter_app, omap_app. f_equal.
  apply trades_of_event.
Qed.

Lemma createTrade_all (ts : list OkxTrade) :
  length (omap (Public.createTrade parseFloat dateGetTime self) ts) = length ts.
Proof. induction ts as [|t ts IH]; simpl; [done|]. f_equal. exact IH. Qed.

End Trades.

(** X11.  A frame of the trades channel hands the sink one trade for each
    trade of the venue, in the order of the frame and with the symbol of
    the connector; a frame without a trade logs that it generated no
    message and does not call the sink.  The connector is unchanged. *)
Theorem onmessage_trades (parseFloat dateGetTime : string -> number)
    (self : PublicConnector) (message : OkxEvent)
    (events : list OkxTradeEvent) :
  event message <> "error" -> channel message = "trades" ->
  data message = TradeData events ->
  let venueTrades := concat (trades <$> events) in
  let sklTrades :=
    omap (Public.createTrade parseFloat dateGetTime self) venueTrades in
  length sklTrades = length venueTrades
  /\ Public.onmessage parseFloat dateGetTime self (Some message)
     = (self,
        match venueTrades with
        | [] => [Log "No messages generated for event"]
        | _ :: _ => [OnMessage (OfTrade <$> sklTrades)]
        end).
Proof.
  intros Hev Hch Hdata venueTrades sklTrades.
  assert (length sklTrades = length venueTrades) as Hlen
    by apply createTrade_all.
  split; [exact Hlen|].
  unfold Public.onmessage, Public.getEventType.
  rewrite bool_decide_eq_false_2 by done. simpl.
  rewrite Hch. simpl.
  unfold Public.createSklEvent, Public.asTrades. rewrite Hdata. simpl.
  rewrite trades_flattened. fold venueTrades. fold sklTrades.
  rewrite length_fmap, Hlen.
  destruct venueTrades; reflexivity.
Qed.

Lemma onmessage_trades_witness :
  let self := Public.create "BTCUSDT" in
  let trade p :=
    {| okx_trade_symbol := "BTC-USD"; okx_trade_instId := "BTC-USD";
       tradeId := "1"; okx_trade_price := p; okx_trade_size := "0.5";
       okx_trade_side := "buy"; okx_trade_timestamp := "17" |} in
  let events :=
    [{| trades_type := "update"; trades := [trade "100"; trade "101"] |};
     {| trades_type := "update"; trades := [] |};
     {| trades_type := "update"; trades := [trade "99"] |}] in
  let message :=
    {| event := "update"; channel := "trades"; msg := ""; timestamp := "17";
       sequence_num := 1; data := TradeData events |} in
  let venueTrades := concat (trades <$> events) in
  let sklTrades :=
    omap (Public.createTrade Decimal.parseFloat Decimal.dateGetTime self)
      venueTrades in
  length sklTrades = length venueTrades
  /\ Public.onmessage Decimal.parseFloat Decimal.dateGetTime self (Some message)
     = (self,
        match venueTrades with
        | [] => [Log "No messages generated for event"]
        | _ :: _ => [OnMessage (OfTrade <$> sklTrades)]
        end).
Proof.
  intros self trade events message.
  apply (onmessage_trades Decimal.parseFloat Decimal.dateGetTime self message
           events).
  - simpl. discriminate.
  - reflexivity.
  - reflexivity.
Defined.

(** ** Reconnects *)

(** X12.  A reconnect of the public connector: the close of a socket
    schedules a timeout after 1000 ms, the timeout opens a new socket, and
    when that socket opens the same subscription as the first time goes out
    on it.  The book of the connector is kept over the reconnect as it was
    at the close. *)
Theorem reconnect_resubscribes (parseFloat dateGetTime : string -> number)
    (JSON_stringify : json -> string) (self : PublicConnector)
    (closed opening : nat) :
  let t := timeoutCount self in
  let k := socketCount self in
  let result :=
    Public.run parseFloat dateGetTime JSON_stringify self
      [WsClose closed; TimeoutFired t; WsOpen opening false] in
  snd result
  = [(WsClose closed, [Log "WebSocket closed"; SetTimeout t 1000]);
     (TimeoutFired t, [NewWebSocket k Public.publicWebsocketAddress]);
     (WsOpen opening false,
      [Log "WebSocket opened";
       Send k (JSON_stringify Public.subscriptionMessage)])]
  /\ book (fst result) = book self
  /\ publicWebsocketFeed (fst result) = Some k
  /\ snd (Public.onopen JSON_stringify (fst (Public.connect self)) false)
     = [Log "WebSocket opened";
        Send k (JSON_stringify Public.subscriptionMessage)].
Proof.
  intros t k result. subst result t k.
  unfold Public.run, Public.step, Public.onclose, Public.ontimeout. simpl.
  rewrite bool_decide_eq_true_2
    by (apply elem_of_app; right; by apply list_elem_of_singleton).
  simpl. repeat split.
Qed.

Section ReconnectBalance.
Variable parseFloat : string -> number.
Variable dateGetTime : string -> number.
Variable JSON_stringify : json -> string.

Lemma length_filter_remove (t : nat) (l : list nat) :
  NoDup l -> t ∈ l -> S (length (filter (fun t' => t' <> t) l)) = length l.
Proof.
  induction 1 as [|x l Hx Hl IH]; intros Hin.
  - by apply elem_of_nil in Hin.
  - apply elem_of_cons in Hin as [->|Hin].
    + rewrite filter_cons_False by (intros H; exact (H eq_refl)).
      simpl. f_equal.
      assert (filter (fun t' => t' <> x) l = l) as ->; [|done].
      clear IH Hl. induction l as [|y l IH]; [done|].
      apply not_elem_of_cons in Hx as [Hne Hx].
      rewrite filter_cons_True by done. f_equal. by apply IH.
    + rewrite filter_cons_True by (intros ->; done).
      simpl. f_equal. by apply IH.
Qed.

Lemma quiet_opens_nothing (out : list effect) :
  Forall HandlerSpec.isQuiet out -> filter SessionSpec.isNewWebSocket out = [].
Proof.
  induction 1 as [|e out He Hout IH]; [done|].
  rewrite filter_cons_False; [done|]. destruct e; simpl in *; tauto.
Qed.

(** The timers of the connector: each pending timeout is pending once and
    was issued before the next one to issue. *)
Let timersFresh (self : PublicConnector) : Prop :=
  NoDup (pendingTimeouts self)
  /\ Forall (fun t => (t < timeoutCount self)%nat) (pendingTimeouts self).

Let opens (out : list effect) : nat :=
  length (filter SessionSpec.isNewWebSocket out).

Let closes (i : PublicInput) : nat :=
  length (filter HandlerSpec.isWsClose [i]).

Let connects (i : PublicInput) : nat :=
  length (filter HandlerSpec.isCallConnect [i]).

Lemma step_balance (self : PublicConnector) (i : PublicInput) :
  timersFresh self ->
  let result := Public.step parseFloat dateGetTime JSON_stringify self i in
  timersFresh (fst result)
  /\ (length (pendingTimeouts (fst result)) + opens (snd result)
      = length (pendingTimeouts self) + closes i + connects i)%nat
  /\ socketCount (fst result) = (socketCount self + opens (snd result))%nat.
Proof.
  intros [Hnd Hfresh]. unfold timersFresh, opens, closes, connects.
  destruct i as [|sendThrows|socket sendThrows|socket parsed|socket|socket|t];
    simpl.
  - repeat split; simpl; try done; lia.
  - unfold Public.stop, Public.unsubscribeFromChannels, Public.feedSend.
    destruct (publicWebsocketFeed self); [destruct sendThrows|]; simpl;
      repeat split; try done; lia.
  - unfold Public.onopen, Public.subscribeToChannels, Public.feedSend.
    destruct (publicWebsocketFeed self); [destruct sendThrows|]; simpl;
      repeat split; try done; lia.
  - destruct (Public.onmessage parseFloat dateGetTime self parsed)
      as [self' out] eqn:Hmsg.
    pose proof (Public.onmessage parseFloat dateGetTime self parsed) as _.
    assert (Forall HandlerSpec.isQuiet out
            /\ socketCount self' = socketCount self
            /\ pendingTimeouts self' = pendingTimeouts self
            /\ timeoutCount self' = timeoutCount self) as (Hq & Hs & Hp & Ht).
    { clear Hnd Hfresh. revert Hmsg.
      destruct parsed as [message|]; simpl;
        [|intros [= <- <-]; by repeat constructor].
      unfold Public.onmessage, Public.getEventType, Public.createSklEvent.
      intros Hmsg.
      repeat case_match; simplify_eq/=;
        repeat match goal with
        | H : _ ≫= _ = Some _ |- _ => apply bind_Some in H as (? & ? & ?)
        end; simplify_eq/=; repeat split; repeat constructor. }
    simpl. rewrite Hs, Hp, Ht, (quiet_opens_nothing out Hq). simpl.
    repeat split; try done; lia.
  - repeat split; simpl; try done; lia.
  - repeat split; simpl.
    + apply NoDup_app. repeat split; [done| |apply NoDup_singleton].
      intros x Hx Hx'. apply list_elem_of_singleton in Hx'. subst x.
      rewrite Forall_forall in Hfresh. specialize (Hfresh _ Hx). lia.
    + apply Forall_app. split.
      * eapply Forall_impl; [exact Hfresh|]. simpl. lia.
      * repeat constructor.
    + rewrite length_app. simpl. lia.
    + lia.
  - unfold Public.ontimeout.
    destruct (bool_decide (t ∈ pendingTimeouts self)) eqn:Hin; simpl.
    + apply bool_decide_eq_true_1 in Hin.
      pose proof (length_filter_remove t _ Hnd Hin) as Hlen.
      repeat split; simpl.
      * by apply NoDup_filter.
      * by apply Forall_filter_of.
      * lia.
      * lia.
    + repeat split; simpl; try done; lia.
Qed.

Lemma run_balance (inputs : list PublicInput) (self : PublicConnector) :
  timersFresh self ->
  let result := Public.run parseFloat dateGetTime JSON_stringify self inputs in
  (length (pendingTimeouts (fst result)) + HandlerSpec.opened (snd result)
   = length (pendingTimeouts self)
     + length (filter HandlerSpec.isWsClose inputs)
     + length (filter HandlerSpec.isCallConnect inputs))%nat
  /\ socketCount (fst result)
     = (socketCount self + HandlerSpec.opened (snd result))%nat.
Proof.
  revert self. induction inputs as [|i inputs IH]; intros self Hfresh.
  - simpl. unfold HandlerSpec.opened. simpl. lia.
  - simpl.
    pose proof (step_balance self i Hfresh) as (Hfresh' & Hstep & Hsock).
    destruct (Public.step parseFloat dateGetTime JSON_stringify self i)
      as [self' out].
    specialize (IH self' Hfresh').
    destruct (Public.run parseFloat dateGetTime JSON_stringify self' inputs)
      as [final trace].
    unfold HandlerSpec.opened in *.
    change (concat (snd <$> snd (final, (i, out) :: trace)))
      with (out ++ concat (snd <$> trace)).
    change (fst (final, (i, out) :: trace)) with final.
    change (fst (final, trace)) with final in IH.
    change (snd (final, trace)) with trace in IH.
    change (fst (self', out)) with self' in Hstep, Hsock.
    change (snd (self', out)) with out in Hstep, Hsock.
    destruct IH as [IHp IHs].
    set (n := length (filter SessionSpec.isNewWebSocket
                        (concat (snd <$> trace)))) in *.
    rewrite filter_app, length_app. fold n.
    unfold opens, closes, connects in Hstep, Hsock.
    rewrite (filter_cons HandlerSpec.isWsClose i inputs).
    rewrite (filter_cons HandlerSpec.isCallConnect i inputs).
    rewrite (filter_cons HandlerSpec.isWsClose i []) in Hstep.
    rewrite (filter_cons HandlerSpec.isCallConnect i []) in Hstep.
    destruct (decide (HandlerSpec.isWsClose i)),
      (decide (HandlerSpec.isCallConnect i));
      rewrite ?length_cons, ?filter_nil in *; simpl length in *; lia.
Qed.

End ReconnectBalance.

(** X13.  In every run of the public connector the closes and the
    reconnects balance: the sockets opened and the reconnects still
    pending are together as many as the calls of [connect] and the closes
    of a socket, so each close is answered by one reconnect, no more and no
    less; and the sockets are numbered as they are opened. *)
Theorem run_reconnect_balance (parseFloat dateGetTime : string -> number)
    (JSON_stringify : json -> string) (symbol : string)
    (inputs : list PublicInput) :
  let result :=
    Public.run parseFloat dateGetTime JSON_stringify (Public.create symbol)
      inputs in
  (length (pendingTimeouts (fst result)) + HandlerSpec.opened (snd result)
   = length (filter HandlerSpec.isWsClose inputs)
     + length (filter HandlerSpec.isCallConnect inputs))%nat
  /\ socketCount (fst result) = HandlerSpec.opened (snd result).
Proof.
  apply (run_balance parseFloat dateGetTime JSON_stringify inputs
           (Public.create symbol)).
  split; simpl; constructor.
Qed.

(** ** The private session *)

(** X14.  [stop] of the private connector never closes the socket: it
    sends the unsubscribe message and clears the ping timer, then the
    cancellation of the orders fails on the request without order ids, and
    the method ends in its error log.  No request is handed to the HTTP
    client, no [close] is called, the socket stays the feed and the
    reconnects stay pending. *)
Theorem private_stop_keeps_socket
    (JSON_stringify : json -> string) (Number_toString : number -> string)
    (WordArray : Type) (HmacSHA256 : string -> string -> WordArray)
    (Base64_stringify : WordArray -> string)
    (self : PrivateConnector) (sendThrows : bool) (clock : nat -> Z) :
  let result := Private.stop JSON_stringify Number_toString WordArray
                  HmacSHA256 Base64_stringify self sendThrows clock in
  let self' := fst (fst result) in
  let effects := snd (fst result) in
  snd result = []
  /\ Forall (fun e => ~ HandlerSpec.isClose e) effects
  /\ last effects = Some (LogError "Error during stop operation:")
  /\ privateWebsocketFeed self' = privateWebsocketFeed self
  /\ private_pendingTimeouts self' = private_pendingTimeouts self
  /\ pingInterval self' = pingInterval self.
Proof.
  unfold Private.stop, Private.unsubscribeFromPrivateChannels,
    Private.feedSend, Private.deleteAllOrdersCall.
  destruct (privateWebsocketFeed self) as [k|] eqn:Hfeed;
    [destruct sendThrows|]; simpl;
    try (repeat split; try done; repeat constructor; by intros []).
  destruct (pingInterval self); simpl;
    repeat split; try done; repeat constructor; by intros [].
Qed.

(** X15.  The ping timer lives from the open of the socket to its close:
    on a connector without a ping timer the open handler starts one, the
    close handler clears that one and forgets its handle, and after the
    close no interval is left to send a ping. *)
Theorem ping_cleared_on_close
    (JSON_stringify : json -> string) (Number_toString : number -> string)
    (WordArray : Type) (HmacSHA256 : string -> string -> WordArray)
    (Base64_stringify : WordArray -> string)
    (self : PrivateConnector) (now : Z) (sendThrows : bool) :
  pingInterval self = None -> activeIntervals self = [] ->
  let open := fst (Private.onopen JSON_stringify Number_toString WordArray
                     HmacSHA256 Base64_stringify self now sendThrows) in
  let closed := Private.onclose open in
  activeIntervals open = [timerCount self]
  /\ pingInterval open = Some (timerCount self)
  /\ snd closed
     = [Log "WebSocket closed"; ClearInterval (timerCount self);
        SetTimeout (S (timerCount self)) 1000]
  /\ activeIntervals (fst closed) = []
  /\ pingInterval (fst closed) = None
  /\ forall t throws,
       snd (Private.oninterval JSON_stringify (fst closed) t throws) = [].
Proof.
  intros Hping Hactive open closed. subst closed open.
  unfold Private.onopen, Private.subscribeToPrivateChannels, Private.feedSend.
  simpl.
  destruct (privateWebsocketFeed self); [destruct sendThrows|]; simpl;
    rewrite Hactive; simpl;
    rewrite filter_cons_False by (intros H; exact (H eq_refl));
    repeat split; intros t throws; unfold Private.oninterval; simpl;
    rewrite filter_cons_False by (intros H; exact (H eq_refl));
    by rewrite bool_decide_eq_false_2 by (by intros ?%elem_of_nil).
Qed.

Lemma ping_cleared_on_close_witness :
  let self :=
    fst (Private.connect (Private.create "BTCUSDT" "BTCUSDT" Sample.credential)) in
  let open := fst (Private.onopen Sample.stringify Sample.toString string
                     Sample.HmacSHA256 Sample.Base64 self 1700000000000%Z false) in
  let closed := Private.onclose open in
  activeIntervals open = [timerCount self]
  /\ pingInterval open = Some (timerCount self)
  /\ snd closed
     = [Log "WebSocket closed"; ClearInterval (timerCount self);
        SetTimeout (S (timerCount self)) 1000]
  /\ activeIntervals (fst closed) = []
  /\ pingInterval (fst closed) = None
  /\ forall t throws,
       snd (Private.oninterval Sample.stringify (fst closed) t throws) = [].
Proof.
  intros self.
  apply (ping_cleared_on_close Sample.stringify Sample.toString string
           Sample.HmacSHA256 Sample.Base64 self 1700000000000%Z false);
    reflexivity.
Defined.

(** X16.  The open handler overwrites the handle of the ping timer without
    clearing it: when two sockets open with no close between them, the
    close handler clears the second interval only, and the first one goes
    on sending pings on the feed. *)
Theorem ping_left_running
    (JSON_stringify : json -> string) (Number_toString : number -> string)
    (WordArray : Type) (HmacSHA256 : string -> string -> WordArray)
    (Base64_stringify : WordArray -> string)
    (self : PrivateConnector) (now now' : Z) (k : nat) :
  pingInterval self = None -> activeIntervals self = [] ->
  privateWebsocketFeed self = Some k ->
  let onopen := Private.onopen JSON_stringify Number_toString WordArray
                  HmacSHA256 Base64_stringify in
  let closed :=
    fst (Private.onclose (fst (onopen (fst (onopen self now false)) now' false))) in
  activeIntervals closed = [timerCount self]
  /\ pingInterval closed = None
  /\ snd (Private.oninterval JSON_stringify closed (timerCount self) false)
     = [Send k (JSON_stringify (JObject [("method", JString "PING")]))]
  /\ snd (Private.onclose closed)
     = [Log "WebSocket closed"; SetTimeout (S (S (S (timerCount self)))) 1000].
Proof.
  intros Hping Hactive Hfeed onopen closed. subst closed onopen.
  unfold Private.onopen, Private.subscribeToPrivateChannels, Private.feedSend.
  destruct self as [sym okx cred feed ping sockets timeouts intervals timers].
  simpl in *. subst feed ping intervals. simpl.
  rewrite filter_cons_True by lia.
  rewrite filter_cons_False by (intros H; exact (H eq_refl)).
  rewrite filter_nil.
  repeat split.
  unfold Private.oninterval, Private.feedSend. simpl.
  by rewrite bool_decide_eq_true_2 by (by apply list_elem_of_singleton).
Qed.

Lemma ping_left_running_witness :
  let self :=
    fst (Private.connect (Private.create "BTCUSDT" "BTCUSDT" Sample.credential)) in
  let onopen := Private.onopen Sample.stringify Sample.toString string
                  Sample.HmacSHA256 Sample.Base64 in
  let closed :=
    fst (Private.onclose (fst (onopen (fst (onopen self 1700000000000%Z false))
                                 1700000000001%Z false))) in
  activeIntervals closed = [timerCount self]
  /\ pingInterval closed = None
  /\ snd (Private.oninterval Sample.stringify closed (timerCount self) false)
     = [Send 0 (Sample.stringify (JObject [("method", JString "PING")]))]
  /\ snd (Private.onclose closed)
     = [Log "WebSocket closed"; SetTimeout (S (S (S (timerCount self)))) 1000].
Proof.
  intros self.
  apply (ping_left_running Sample.stringify Sample.toString string
           Sample.HmacSHA256 Sample.Base64 self 1700000000000%Z 1700000000001%Z 0%nat);
    reflexivity.
Defined.

Lemma mapOutcome_throws {A B : Type} (f : A -> outcome B) (error : string)
    (array : list A) :
  (forall x, f x = Throws error) -> array <> [] ->
  mapOutcome f array = Throws error.
Proof.
  intros Hf Harray. destruct array as [|x rest]; [done|].
  simpl. by rewrite Hf.
Qed.

(** X17.  The private connector hands no order status update to the sink.
    The channels it subscribes to are ["orders"] and ["account"], and a
    frame of a subscribed channel is logged as without handler.  The one
    channel with a handler is ["user"]: a frame of it without orders hands
    the sink an empty array, and a frame with an order throws in
    [createOrderStatusUpdate], which reads the table
    [OkxWSOrderUpdateStateMap] that the module does not bind, so that the
    handler ends before the sink is called. *)
Theorem private_onmessage_channels
    (parseFloat parseInt : string -> number)
    (globalSideMap : option (string -> option Side))
    (self : PrivateConnector) (parsed : option OkxPrivateEvent) :
  let onmessage :=
    Private.onmessageRun parseFloat parseInt None globalSideMap self in
  Private.privateChannels
  = JArray ((fun ch => channelArg ch "ANY") <$> subscribedChannels)
  /\ (forall message,
        private_channel message ∈ subscribedChannels ->
        onmessage (Some message)
        = (self, [Log "Private websocket message";
                  Log "No handler for message"]))
  /\ (forall message,
        private_channel message = "user" -> private_data message = [] ->
        onmessage (Some message)
        = (self, [Log "Private websocket message"; OnMessage []]))
  /\ (forall message,
        private_channel message = "user" -> private_data message <> [] ->
        onmessage (Some message)
        = (self, [Log "Private websocket message"; Uncaught]))
  /\ fst (onmessage parsed) = self
  /\ Forall (fun e => ~ HandlerSpec.handsEvents e) (snd (onmessage parsed)).
Proof.
  intros onmessage. subst onmessage.
  assert (forall message,
            private_channel message ∈ subscribedChannels ->
            private_channel message <> "user") as Hsubscribed.
  { intros message Hch Huser. rewrite Huser in Hch.
    unfold subscribedChannels in Hch.
    apply elem_of_cons in Hch as [Hch|Hch]; [discriminate|].
    apply list_elem_of_singleton in Hch. discriminate. }
  assert (forall message,
            private_channel message = "user" ->
            Private.createSklEventRun parseFloat parseInt None globalSideMap
              self EvOrderStatusUpdate message
            = match private_data message with
              | [] => Returns []
              | _ :: _ =>
                  Throws "ReferenceError: OkxWSOrderUpdateStateMap is not defined"
              end) as Huser.
  { intros message _. unfold Private.createSklEventRun.
    destruct (private_data message) as [|order rest] eqn:Hdata; [done|].
    by apply mapOutcome_throws. }
  split; [reflexivity|]. split; [|split; [|split; [|split]]].
  - intros message Hch. unfold Private.onmessageRun, Private.getEventType.
    by rewrite bool_decide_eq_false_2 by auto.
  - intros message Hch Hdata.
    unfold Private.onmessageRun, Private.getEventType.
    rewrite bool_decide_eq_true_2 by done.
    by rewrite Huser, Hdata by done.
  - intros message Hch Hdata.
    unfold Private.onmessageRun, Private.getEventType.
    rewrite bool_decide_eq_true_2 by done.
    rewrite Huser by done.
    by destruct (private_data message).
  - destruct parsed as [message|]; [|done].
    unfold Private.onmessageRun. repeat case_match; reflexivity.
  - destruct parsed as [message|]; [|repeat constructor; simpl; tauto].
    unfold Private.onmessageRun, Private.getEventType.
    destruct (decide (private_channel message = "user")) as [Hch|Hch].
    + rewrite bool_decide_eq_true_2 by done. rewrite Huser by done.
      destruct (private_data message); repeat constructor; simpl; tauto.
    + rewrite bool_decide_eq_false_2 by done.
      repeat constructor; simpl; tauto.
Qed.

(** A frame of the channel ["user"] with one order, a frame of the same
    channel without orders, and a frame of the subscribed channel
    ["orders"]. *)
Lemma private_onmessage_channels_witness :
  let self := Private.create "BTCUSDT" "BTCUSDT" Sample.credential in
  let order :=
    {| order_state := "live"; order_side := "BUY"; ordId := "1";
       clOrdId := "skl:1"; px := "100"; sz := "1"; avgPx := "0";
       accFillSz := "0"; uTime := "17" |} in
  let frame ch l :=
    {| private_event := "update"; private_channel := ch;
       private_timestamp := "17"; private_sequence_num := 1;
       private_data := l |} in
  let onmessage :=
    Private.onmessageRun Decimal.parseFloat Decimal.parseFloat None None
      self in
  onmessage (Some (frame "user" [order]))
  = (self, [Log "Private websocket message"; Uncaught])
  /\ onmessage (Some (frame "user" []))
     = (self, [Log "Private websocket message"; OnMessage []])
  /\ onmessage (Some (frame "orders" [order]))
     = (self, [Log "Private websocket message"; Log "No handler for message"]).
Proof.
  intros self order frame onmessage.
  destruct (private_onmessage_channels Decimal.parseFloat Decimal.parseFloat
              None self None)
    as (_ & Hsubscribed & Hempty & Hthrows & _).
  split; [|split].
  - apply Hthrows; [reflexivity|discriminate].
  - apply Hempty; reflexivity.
  - apply Hsubscribed. apply elem_of_cons. left. reflexivity.
Defined.

(** ** Batches and requests *)

Section ChunkSlices.
Context {A : Type}.
Implicit Types (array : list A) (results : list (list A)).

Lemma chunkLoop_slices array (c : nat) :
  (0 < c)%nat ->
  forall (fuel i : nat) results,
    (length array - i <= fuel)%nat ->
    exists chunks,
      Private.chunkLoop fuel array c i results = Some (results ++ chunks)
      /\ forall k : nat,
           chunks !! k
           = if (i + k * c <? length array)%nat
             then Some (take c (drop (i + k * c) array))
             else None.
Proof.
  intros Hc fuel. induction fuel as [|fuel IH]; intros i results Hfuel.
  - exists []. simpl.
    destruct (Nat.ltb_spec i (length array)) as [Hlt|Hge]; [lia|].
    rewrite app_nil_r. split; [done|]. intros k.
    destruct (Nat.ltb_spec (i + k * c) (length array)); [lia|done].
  - simpl. destruct (Nat.ltb_spec i (length array)) as [Hlt|Hge].
    + destruct (IH (i + c)%nat
                  (results ++ [Array.slice array i (i + c)])) as
        (chunks & Heq & Hk); [lia|].
      exists (Array.slice array i (i + c) :: chunks).
      rewrite Heq, <- app_assoc. split; [done|].
      intros [|k]; simpl.
      * rewrite Nat.add_0_r.
        destruct (Nat.ltb_spec i (length array)); [|lia].
        by rewrite slice_take_drop.
      * rewrite Hk. by replace (i + c + k * c)%nat with (i + (c + k * c))%nat by lia.
    + exists []. rewrite app_nil_r. split; [done|]. intros k.
      destruct (Nat.ltb_spec (i + k * c) (length array)); [lia|done].
Qed.

End ChunkSlices.

(** X18.  With a positive chunk size [chunkArray] returns the consecutive
    slices of the array: its [k]-th chunk is [array.slice(k * chunkSize,
    (k + 1) * chunkSize)] as long as [k * chunkSize] lies in the array, and
    there is no further chunk.  No chunk is empty, and every chunk but the
    last one has [chunkSize] entries. *)
Theorem chunkArray_slices {A : Type} (array : list A) (chunkSize : nat) :
  (0 < chunkSize)%nat ->
  exists chunks,
    Private.chunkArray array chunkSize = Some chunks
    /\ (forall k : nat,
          chunks !! k
          = if (k * chunkSize <? length array)%nat
            then Some (Array.slice array (k * chunkSize)
                         (k * chunkSize + chunkSize))
            else None)
    /\ Forall (fun chunk => (0 < length chunk)%nat) chunks
    /\ (forall (k : nat) chunk,
          chunks !! k = Some chunk -> (S k < length chunks)%nat ->
          length chunk = chunkSize).
Proof.
  intros Hc. unfold Private.chunkArray.
  destruct (chunkLoop_slices array chunkSize Hc (length array) 0 []) as
    (chunks & Heq & Hk); [lia|].
  exists chunks. split; [exact Heq|].
  assert (forall k : nat,
            chunks !! k
            = if (k * chunkSize <? length array)%nat
              then Some (take chunkSize (drop (k * chunkSize) array))
              else None) as Hk' by (intros k; by rewrite Hk).
  split; [|split].
  - intros k. rewrite Hk', slice_take_drop. done.
  - apply Forall_forall. intros chunk Hin.
    apply list_elem_of_lookup_1 in Hin as [k Hin]. rewrite Hk' in Hin.
    destruct (Nat.ltb_spec (k * chunkSize) (length array)); [|done].
    injection Hin as <-. rewrite length_take, length_drop. lia.
  - intros k chunk Hin Hnext.
    apply lookup_lt_is_Some_2 in Hnext as [next Hnext].
    rewrite Hk' in Hin, Hnext.
    destruct (Nat.ltb_spec (S k * chunkSize) (length array)); [|done].
    destruct (Nat.ltb_spec (k * chunkSize) (length array)); [|done].
    injection Hin as <-. rewrite length_take, length_drop. lia.
Qed.

Lemma chunkArray_slices_witness :
  exists chunks,
    Private.chunkArray [1; 2; 3; 4; 5; 6; 7]%nat 3 = Some chunks
    /\ (forall k : nat,
          chunks !! k
          = if (k * 3 <? length [1; 2; 3; 4; 5; 6; 7]%nat)%nat
            then Some (Array.slice [1; 2; 3; 4; 5; 6; 7]%nat (k * 3) (k * 3 + 3))
            else None)
    /\ Forall (fun chunk => (0 < length chunk)%nat) chunks
    /\ (forall (k : nat) chunk,
          chunks !! k = Some chunk -> (S k < length chunks)%nat ->
          length chunk = 3%nat).
Proof.
  apply (chunkArray_slices [1; 2; 3; 4; 5; 6; 7]%nat 3). lia.
Defined.

(** X19.  The edges of [chunkArray]: an empty array gives no chunk,
    whatever the chunk size, and with a chunk size of [0] and an array that
    is not empty the loop never ends: however many turns it is given, it
    has not returned. *)
Theorem chunkArray_edges {A : Type} (x : A) (array : list A)
    (chunkSize fuel : nat) (results : list (list A)) :
  Private.chunkArray (@nil A) chunkSize = Some []
  /\ Private.chunkLoop fuel (x :: array) 0 0 results = None.
Proof.
  split; [reflexivity|].
  revert results. induction fuel as [|fuel IH]; intros results; simpl.
  - reflexivity.
  - apply IH.
Qed.

(** X20.  [deleteAllOrders] hands no request to an HTTP client.  On [N]
    order ids it logs the start of the process, then one POST error for
    each batch of 20 ids, [ceil(N/20)] of them and none for no id (each
    [postRequest] reads [post] of [self.axios], a member the class does
    not have, and logs the TypeError it catches), then the line of the
    results; and it returns. *)
Theorem deleteAllOrders_posts_nothing
    (JSON_stringify : json -> string) (Number_toString : number -> string)
    (WordArray : Type) (HmacSHA256 : string -> string -> WordArray)
    (Base64_stringify : WordArray -> string)
    (self : PrivateConnector) (clock : nat -> Z)
    (request : CancelOrdersRequest) :
  Private.deleteAllOrdersRun JSON_stringify Number_toString WordArray
    HmacSHA256 Base64_stringify self clock request
  = Some (Returns (),
          [Log "DeleteAllOrders Process Initiated"]
          ++ replicate ((length (orderIds request) + 19) / 20)
               (Log "POST Error")
          ++ [Log "Order cancellation results:"],
          []).
Proof.
  destruct (chunkArray_chunks (orderIds request) Private.OkxMaxBatchSize) as
    (batches & Heq & _ & _ & Hcount);
    [unfold Private.OkxMaxBatchSize; lia|].
  unfold Private.OkxMaxBatchSize in Hcount.
  replace (length (orderIds request) + 20 - 1)%nat
    with (length (orderIds request) + 19)%nat in Hcount by lia.
  unfold Private.deleteAllOrdersRun. rewrite Heq. simpl.
  rewrite !fmap_imap. simpl.
  rewrite (concat_replicate_imap _ (Log "POST Error")) by done.
  rewrite concat_nil_imap by done.
  by rewrite Hcount.
Qed.

(** ** The balance *)

Section Balance.
Implicit Types (balances : list OkxBalance) (asset : string).

Lemma balanceOf_absent balances asset :
  Forall (fun b => ccy b <> asset) balances ->
  Private.balanceOf balances asset = ("0", "0").
Proof.
  intros Habs. unfold Private.balanceOf.
  by rewrite (proj2 (list_find_None _ _) Habs).
Qed.

(** A zero entry at the end of the list changes the balance of no asset. *)
Lemma balanceOf_zero_entry balances asset other :
  Forall (fun b => ccy b <> asset) balances ->
  Private.balanceOf
    (balances ++ [{| ccy := asset; cashBal := "0"; frozenBal := "0" |}]) other
  = Private.balanceOf balances other.
Proof.
  intros Habs. unfold Private.balanceOf.
  destruct (list_find (fun b => ccy b = other) balances) as [[i b]|] eqn:Hfind.
  - by rewrite (list_find_app_l _ _ _ _ _ Hfind).
  - rewrite (list_find_app_r _ _ _ Hfind). simpl.
    destruct (decide (asset = other)); done.
Qed.

End Balance.

(** X23.  An asset that the venue does not list counts as a balance of
    zero: when the first account has no entry for the base asset,
    [getBalancePercentage] reports the base balance [0 + 0], and its whole
    answer is the one it gives when the account lists the base asset with
    cash and frozen balance ["0"]. *)
Theorem getBalancePercentage_missing_asset
    (parseFloat : string -> number)
    (Number_add Number_mul Number_div : number -> number -> number)
    (self : PrivateConnector) (baseAsset quoteAsset : string) (later : Z)
    (request : BalanceRequest) (account : OkxAccount)
    (others : list OkxAccount) :
  Forall (fun b => ccy b <> baseAsset) (details account) ->
  let balance := Private.getBalancePercentage parseFloat Number_add Number_mul
                   Number_div self baseAsset quoteAsset later request in
  let listed :=
    {| details := details account
                  ++ [{| ccy := baseAsset; cashBal := "0"; frozenBal := "0" |}] |} in
  exists response,
    balance (Some {| balance_data := account :: others |}) = Some response
    /\ baseBalance response = Number_add (parseFloat "0") (parseFloat "0")
    /\ balance (Some {| balance_data := listed :: others |}) = Some response.
Proof.
  intros Habs balance listed. subst balance listed.
  unfold Private.getBalancePercentage. simpl.
  rewrite !(balanceOf_zero_entry _ baseAsset) by done.
  rewrite (balanceOf_absent _ baseAsset) by done.
  eexists. repeat split.
Qed.

Lemma getBalancePercentage_missing_asset_witness :
  let account :=
    {| details := [{| ccy := "USDT"; cashBal := "250"; frozenBal := "50" |}] |} in
  let self := Private.create "BTCUSDT" "BTCUSDT" Sample.credential in
  let balance :=
    Private.getBalancePercentage Decimal.parseFloat SampleNumber.add
      Number.mul SampleNumber.div self "BTC" "USDT" 1700000000000%Z
      {| request_lastPrice := Num 100 |} in
  let listed :=
    {| details := details account
                  ++ [{| ccy := "BTC"; cashBal := "0"; frozenBal := "0" |}] |} in
  exists response,
    balance (Some {| balance_data := [account] |}) = Some response
    /\ baseBalance response
       = SampleNumber.add (Decimal.parseFloat "0") (Decimal.parseFloat "0")
    /\ balance (Some {| balance_data := [listed] |}) = Some response.
Proof.
  intros account self.
  apply (getBalancePercentage_missing_asset Decimal.parseFloat
           SampleNumber.add Number.mul SampleNumber.div self "BTC" "USDT"
           1700000000000%Z
           {| request_lastPrice := Num 100 |} account []).
  repeat constructor. simpl. discriminate.
Defined.



(** ** Further compositions *)

(** X25.  A snapshot resynchronises the book: what the feed did before its last
    snapshot, and the book the connector started from, have no part in the
    book after it. *)
Theorem updateBook_snapshot_resets (parseFloat : string -> number)
    (self self' : Book) (before after : list OkxMarketDepthEvent)
    (snapshot : OkxMarketDepthEvent) :
  type snapshot = "snapshot" ->
  fold_left (OrderBook.updateBook parseFloat)
    (before ++ snapshot :: after) self
  = fold_left (OrderBook.updateBook parseFloat) (snapshot :: after) self'.
Proof.
  intros Ht. rewrite fold_left_app. simpl.
  by rewrite !(updateBook_snapshot parseFloat _ snapshot Ht).
Qed.

Lemma updateBook_snapshot_resets_witness :
  let snapshot := depth "snapshot" [lvl "bid" "100" "5"; lvl "offer" "101" "3"] in
  fold_left (OrderBook.updateBook Decimal.parseFloat)
    ([depth "update" [lvl "bid" "90" "1"]]
     ++ snapshot :: [depth "update" [lvl "bid" "99" "2"]])
    {| bids := [lvl "bid" "95" "1"]; asks := [] |}
  = fold_left (OrderBook.updateBook Decimal.parseFloat)
      (snapshot :: [depth "update" [lvl "bid" "99" "2"]])
      {| bids := []; asks := [] |}.
Proof.
  intros snapshot.
  apply (updateBook_snapshot_resets Decimal.parseFloat).
  reflexivity.
Defined.

(** X26.  A frame of the books channel applies its events to the book in their
    order and then hands the sink one top of book, computed on the book
    after the last event; while the bids or the asks are empty it hands
    nothing and logs that no message was generated. *)
Theorem onmessage_books (parseFloat dateGetTime : string -> number)
    (self : PublicConnector) (message : OkxEvent)
    (events : list OkxMarketDepthEvent) :
  event message <> "error" -> channel message = "books" ->
  data message = MarketDepthData events ->
  let after := fold_left (OrderBook.updateBook parseFloat) events (book self) in
  Public.onmessage parseFloat dateGetTime self (Some message)
  = (Public.setBook self after,
     match OrderBook.createTopOfBook parseFloat dateGetTime (sklSymbol self)
             after (timestamp message) with
     | Some top => [OnMessage [OfTopOfBook top]]
     | None => [Log "No messages generated for event"]
     end).
Proof.
  intros Hev Hch Hdata after.
  unfold Public.onmessage, Public.getEventType.
  rewrite bool_decide_eq_false_2 by done. simpl.
  rewrite Hch. simpl.
  unfold Public.createSklEvent. rewrite Hdata. simpl. fold after.
  destruct (OrderBook.createTopOfBook parseFloat dateGetTime (sklSymbol self)
              after (timestamp message)); reflexivity.
Qed.

Lemma onmessage_books_witness :
  let self := Public.create "BTCUSDT" in
  let events :=
    [depth "snapshot" [lvl "bid" "100" "5"; lvl "offer" "101" "3"];
     depth "update" [lvl "bid" "100" "0"]] in
  let message :=
    {| event := "update"; channel := "books"; msg := ""; timestamp := "17";
       sequence_num := 1; data := MarketDepthData events |} in
  let after :=
    fold_left (OrderBook.updateBook Decimal.parseFloat) events (book self) in
  Public.onmessage Decimal.parseFloat Decimal.dateGetTime self (Some message)
  = (Public.setBook self after,
     match OrderBook.createTopOfBook Decimal.parseFloat Decimal.dateGetTime
             (sklSymbol self) after (timestamp message) with
     | Some top => [OnMessage [OfTopOfBook top]]
     | None => [Log "No messages generated for event"]
     end).
Proof.
  intros self events message.
  apply (onmessage_books Decimal.parseFloat Decimal.dateGetTime self message
           events).
  - simpl. discriminate.
  - reflexivity.
  - reflexivity.
Defined.

(** X27.  [stop] of the public connector closes the socket when, and only when,
    the unsubscribe message could be sent: when the send throws (or there
    is no socket yet) the method logs the error and leaves the socket
    open. *)
Theorem public_stop_closes_after_send (JSON_stringify : json -> string)
    (self : PublicConnector) (sendThrows : bool) :
  let effects := snd (Public.stop JSON_stringify self sendThrows) in
  (Exists HandlerSpec.isClose effects
   <-> sendThrows = false /\ is_Some (publicWebsocketFeed self))
  /\ (Exists HandlerSpec.isClose effects
      \/ effects = [LogError "Error during stop operation:"]).
Proof.
  unfold Public.stop, Public.unsubscribeFromChannels, Public.feedSend.
  destruct (publicWebsocketFeed self) as [k|]; [destruct sendThrows|]; simpl.
  - split; [|by right]. split; [|by intros [? _]].
    intros H. apply Exists_cons in H as [[]|H]. by apply Exists_nil in H.
  - split.
    + split; [intros _; split; eauto|intros _].
      apply Exists_cons. right. apply Exists_cons. by left.
    + left. apply Exists_cons. right. apply Exists_cons. by left.
  - split; [|by right]. split; [|by intros [_ [? ?]]].
    intros H. apply Exists_cons in H as [[]|H]. by apply Exists_nil in H.
Qed.

(** X28.  A reconnect of the private connector: the close of the socket clears
    the ping timer and schedules a timeout after 1000 ms, the timeout opens
    a new socket, and when that socket opens the connector starts a new
    ping timer, logs in again with a signature over the new reading of the
    clock, and subscribes again. *)
Theorem private_reconnect
    (parseFloat parseInt : string -> number) (JSON_stringify : json -> string)
    (Number_toString : number -> string) (WordArray : Type)
    (HmacSHA256 : string -> string -> WordArray)
    (Base64_stringify : WordArray -> string)
    (OkxWSOrderUpdateStateMap : string -> option OrderState)
    (OkxSideMap : string -> option Side)
    (self : PrivateConnector) (ping closed opening : nat) (now : Z) :
  pingInterval self = Some ping ->
  let t := timerCount self in
  let k := private_socketCount self in
  let result :=
    Private.run parseFloat parseInt JSON_stringify Number_toString WordArray
      HmacSHA256 Base64_stringify OkxWSOrderUpdateStateMap OkxSideMap self
      [PrivateWsClose closed; PrivateTimeoutFired t;
       PrivateWsOpen opening now false] in
  snd result
  = [(PrivateWsClose closed,
      [Log "WebSocket closed"; ClearInterval ping; SetTimeout t 1000]);
     (PrivateTimeoutFired t, [NewWebSocket k Private.privateWebsocketAddress]);
     (PrivateWsOpen opening now false,
      [SetInterval (S t) 5000;
       Send k (loginFrame JSON_stringify Number_toString WordArray HmacSHA256
                 Base64_stringify self now);
       Send k (subscribeFrame JSON_stringify)])]
  /\ pingInterval (fst result) = Some (S t)
  /\ privateWebsocketFeed (fst result) = Some k.
Proof.
  intros Hping t k result. subst result t k.
  unfold Private.run, Private.step, Private.onclose, Private.stopPingInterval.
  rewrite Hping. simpl. unfold Private.ontimeout. simpl.
  rewrite bool_decide_eq_true_2
    by (apply elem_of_app; right; by apply list_elem_of_singleton).
  simpl. repeat split.
Qed.

Lemma private_reconnect_witness :
  let self :=
    fst (Private.onopen Sample.stringify Sample.toString string
           Sample.HmacSHA256 Sample.Base64
           (fst (Private.connect
                   (Private.create "BTCUSDT" "BTCUSDT" Sample.credential)))
           1700000000000%Z false) in
  let now := 1700000002000%Z in
  let result :=
    Private.run Decimal.parseFloat Decimal.parseFloat Sample.stringify
      Sample.toString string Sample.HmacSHA256 Sample.Base64
      (fun _ => None) (fun _ => None) self
      [PrivateWsClose 0; PrivateTimeoutFired (timerCount self);
       PrivateWsOpen 1 now false] in
  snd result
  = [(PrivateWsClose 0,
      [Log "WebSocket closed"; ClearInterval 0; SetTimeout (timerCount self) 1000]);
     (PrivateTimeoutFired (timerCount self),
      [NewWebSocket (private_socketCount self) Private.privateWebsocketAddress]);
     (PrivateWsOpen 1 now false,
      [SetInterval (S (timerCount self)) 5000;
       Send (private_socketCount self)
         (loginFrame Sample.stringify Sample.toString string Sample.HmacSHA256
            Sample.Base64 self now);
       Send (private_socketCount self) (subscribeFrame Sample.stringify)])]
  /\ pingInterval (fst result) = Some (S (timerCount self))
  /\ privateWebsocketFeed (fst result) = Some (private_socketCount self).
Proof.
  intros self now.
  apply (private_reconnect Decimal.parseFloat Decimal.parseFloat
           Sample.stringify Sample.toString string Sample.HmacSHA256
           Sample.Base64 (fun _ => None) (fun _ => None) self 0 0 1 now).
  reflexivity.
Defined.
